(** * Replan server: allocation engine

    A shallow embedding of the decision logic of [server.js]: the text-line
    parser and the aggregation of the rows of a sheet, the min/max limit
    policy, the stock snapshot replace with its new-collection batch, the
    stock search, replan generation and execution, and the top lists and
    the stale-item list of the dashboard.

    Conventions of the embedding.
    - Text is a [string] of bytes holding the UTF-8 encoding of the
      JavaScript string.  Regular expressions of the source are written as
      scanners over these bytes; every character class of the source
      (ASCII digits, brackets, commas, the Arabic comma, white space) is
      recognisable on the encoding.
    - Quantities are integer-valued JavaScript numbers, written in [Z];
      [Number(x) || 0] is then the identity.  The quantities of the rows
      of a sheet are added as the doubles they are ([plus]): the sum is
      exact up to 2^53 and rounded beyond.
    - [localeCompare] is the collation of the host, an argument [collate]
      of the handler that sorts with it.
    - A point in time is the number of milliseconds since the epoch, in [Z];
      [new Date().toISOString()] is an explicit argument [now] of every
      handler that reads the clock.
    - A JavaScript object or [Map] keyed by non-numeric strings enumerates
      its keys in insertion order: it is an association list ([obj]).
    - The JSON documents on disk are the fields of a [Store]; a handler maps
      a store to a response and the store it leaves behind. *)

From Stdlib Require Import ZArith QArith Qround List String Ascii Bool Lia.
From Stdlib Require Import Sorted Permutation DecimalString.
Import ListNotations.

Local Open Scope string_scope.
Local Open Scope Z_scope.

(* ================================================================== *)
(** * JavaScript primitives *)
(* ================================================================== *)

Module Js.

Definition code (c : ascii) : nat := nat_of_ascii c.

Definition isDigit (c : ascii) : bool :=
  (48 <=? code c)%nat && (code c <=? 57)%nat.

(** White space of [String.prototype.trim] and of [\s]: the WhiteSpace and
    LineTerminator code points, here by the length of their encoding.
    One byte: TAB, LF, VT, FF, CR, SP. *)
Definition isWs1 (a : ascii) : bool :=
  ((9 <=? code a)%nat && (code a <=? 13)%nat) || (code a =? 32)%nat.

(** Two bytes: U+00A0. *)
Definition isWs2 (a b : ascii) : bool :=
  (code a =? 194)%nat && (code b =? 160)%nat.

(** Three bytes: U+1680, U+2000..U+200A, U+2028, U+2029, U+202F, U+205F,
    U+3000, U+FEFF. *)
Definition isWs3 (a b c : ascii) : bool :=
  let x := code a in let y := code b in let z := code c in
  ((x =? 225) && (y =? 154) && (z =? 128))%nat
  || ((x =? 226) && (y =? 128)
      && (((128 <=? z) && (z <=? 138)) || (z =? 168) || (z =? 169) || (z =? 175)))%nat
  || ((x =? 226) && (y =? 129) && (z =? 159))%nat
  || ((x =? 227) && (y =? 128) && (z =? 128))%nat
  || ((x =? 239) && (y =? 187) && (z =? 191))%nat.

(** Drops the white space at the front of [s]; [w2] and [w3] recognise the
    two- and three-byte characters in the order the bytes are met. *)
Fixpoint dropSpaces (w2 : ascii -> ascii -> bool)
    (w3 : ascii -> ascii -> ascii -> bool) (s : string) : string :=
  match s with
  | EmptyString => s
  | String a r1 =>
      if isWs1 a then dropSpaces w2 w3 r1 else
      match r1 with
      | EmptyString => s
      | String b r2 =>
          if w2 a b then dropSpaces w2 w3 r2 else
          match r2 with
          | EmptyString => s
          | String c r3 => if w3 a b c then dropSpaces w2 w3 r3 else s
          end
      end
  end.

Definition trimStart (s : string) : string := dropSpaces isWs2 isWs3 s.

Definition reverse (s : string) : string :=
  string_of_list_ascii (rev (list_ascii_of_string s)).

Definition trimEnd (s : string) : string :=
  reverse (dropSpaces (fun a b => isWs2 b a) (fun a b c => isWs3 c b a)
                      (reverse s)).

(** [s.trim()] *)
Definition trim (s : string) : string := trimEnd (trimStart s).

Definition upperAscii (c : ascii) : ascii :=
  if ((97 <=? code c)%nat && (code c <=? 122)%nat)%bool
  then ascii_of_nat (code c - 32) else c.

(** [s.toUpperCase()], as far as the size grammar can observe it: ASCII
    letters, and U+017F (long s, bytes C5 BF) whose upper case is [S].  No
    other character has an upper case made of the ASCII letters, digits and
    white space the grammar reads. *)
Fixpoint toUpperCase (s : string) : string :=
  match s with
  | EmptyString => EmptyString
  | String a r =>
      match r with
      | String b r' =>
          if ((code a =? 197)%nat && (code b =? 191)%nat)%bool
          then String "S" (toUpperCase r')
          else String (upperAscii a) (toUpperCase r)
      | EmptyString => String (upperAscii a) EmptyString
      end
  end.

(** [truthy] of a string: non-empty. *)
Definition nonEmpty (s : string) : bool :=
  match s with EmptyString => false | _ => true end.

(** [a.localeCompare(b)] compares in the collation of the default locale
    of the host, which the source does not fix: the handler that sorts
    with it takes it, as a sign, as an argument [collate], the way the
    handlers take the clock. *)
Definition Collation : Type := string -> string -> Z.

(** The order of the code units, which a collation follows on strings of
    ASCII digits: the one the sample documents are sorted with. *)
Definition codeUnitCompare : Collation :=
  fun a b => match String.compare a b with Lt => -1 | Eq => 0 | Gt => 1 end.

(** ** Sums of numbers *)

(** The double nearest to the integer [x], ties to the even significand:
    [x] itself up to 2^53 in magnitude and, beyond, a multiple of the
    power of two that leaves 53 bits (below 2^1024, where a double is
    finite). *)
Definition roundDouble (x : Z) : Z :=
  let a := Z.abs x in
  if a <=? 2 ^ 53 then x else
  let e := Z.log2 a - 52 in
  let q := a / 2 ^ e in
  let r := a mod 2 ^ e in
  let half := 2 ^ (e - 1) in
  let q' := if r <? half then q
            else if half <? r then q + 1
            else if Z.even q then q else q + 1 in
  Z.sgn x * (q' * 2 ^ e).

(** [a + b] on two integer-valued numbers. *)
Definition plus (a b : Z) : Z := roundDouble (a + b).

(** ** Objects and Maps with string keys, in insertion order *)

Definition obj (V : Type) : Type := list (string * V).

Fixpoint obj_get {V : Type} (o : obj V) (k : string) : option V :=
  match o with
  | [] => None
  | (k', v) :: o' => if String.eqb k' k then Some v else obj_get o' k
  end.

(** [o[k] = v]: an existing key keeps its place, a new key goes last. *)
Fixpoint obj_set {V : Type} (o : obj V) (k : string) (v : V) : obj V :=
  match o with
  | [] => [(k, v)]
  | (k', v') :: o' =>
      if String.eqb k' k then (k', v) :: o' else (k', v') :: obj_set o' k v
  end.

Definition obj_keys {V : Type} (o : obj V) : list string := map fst o.

(** [m.get(k) || 0] *)
Definition getOr0 (m : obj Z) (k : string) : Z :=
  match obj_get m k with Some q => q | None => 0 end.

(** ** Arrays: [find], mutation of the element found, [sort] *)

(** [find] is [List.find].  The element found is mutated in place and the
    array saved: the first element satisfying [p] is replaced by its image
    under [f]. *)
Fixpoint update_first {A : Type} (p : A -> bool) (f : A -> A) (l : list A)
    : list A :=
  match l with
  | [] => []
  | x :: l' => if p x then f x :: l' else x :: update_first p f l'
  end.

(** [sort] with a comparison function is stable; with a consistent
    comparator its result is the one stable sorted arrangement, which the
    insertion below computes: [x] goes before the first [y] with
    [cmp x y <= 0]. *)
Fixpoint insertBy {A : Type} (cmp : A -> A -> Z) (x : A) (l : list A)
    : list A :=
  match l with
  | [] => [x]
  | y :: l' => if cmp x y <=? 0 then x :: l else y :: insertBy cmp x l'
  end.

Fixpoint sortBy {A : Type} (cmp : A -> A -> Z) (l : list A) : list A :=
  match l with
  | [] => []
  | x :: l' => insertBy cmp x (sortBy cmp l')
  end.

End Js.

(* ================================================================== *)
(** * Parsing *)
(* ================================================================== *)

Module Parsing.
Import Js.

(** The longest prefix of digits, and what follows it. *)
Fixpoint takeDigits (s : string) : string * string :=
  match s with
  | EmptyString => (EmptyString, EmptyString)
  | String c r =>
      if isDigit c
      then let (d, t) := takeDigits r in (String c d, t)
      else (EmptyString, s)
  end.

(** [/^\d+(\.\d+)?$/] *)
Definition reDecimal (s : string) : bool :=
  match takeDigits s with
  | (EmptyString, _) => false
  | (_, EmptyString) => true
  | (_, String c r) =>
      if Ascii.eqb c "."
      then match takeDigits r with
           | (String _ _, EmptyString) => true
           | _ => false
           end
      else false
  end.

(** [/^(XXS|XS|S|M|L|XL|XXL|XXXL)$/] *)
Definition reLetter (s : string) : bool :=
  existsb (String.eqb s) ["XXS"; "XS"; "S"; "M"; "L"; "XL"; "XXL"; "XXXL"].

(** [/^\d+\s*(Y|YR|YEARS|M|MO|MONTHS)$/] *)
Definition reAge (s : string) : bool :=
  match takeDigits s with
  | (EmptyString, _) => false
  | (_, r) =>
      existsb (String.eqb (trimStart r))
              ["Y"; "YR"; "YEARS"; "M"; "MO"; "MONTHS"]
  end.

(** [/^\d+\s*[-\/]\s*\d+$/] *)
Definition reRange (s : string) : bool :=
  match takeDigits s with
  | (EmptyString, _) => false
  | (_, r) =>
      match trimStart r with
      | String c r' =>
          if (Ascii.eqb c "-" || Ascii.eqb c "/")%bool
          then match takeDigits (trimStart r') with
               | (String _ _, EmptyString) => true
               | _ => false
               end
          else false
      | EmptyString => false
      end
  end.

Definition looksLikeSize (v : string) : bool :=
  let s := toUpperCase (trim v) in
  if negb (nonEmpty s) then false
  else if reDecimal s then true
  else if reLetter s then true
  else if reAge s then true
  else if reRange s then true
  else false.

(** [String(text).match(skuRegex)] with [skuRegex = /\[(\d+)\]/]: the
    capture of the leftmost match. *)
Fixpoint skuMatch (s : string) : option string :=
  match s with
  | EmptyString => None
  | String c r =>
      if Ascii.eqb c "["
      then match takeDigits r with
           | (String d ds, String e _) =>
               if Ascii.eqb e "]" then Some (String d ds) else skuMatch r
           | _ => skuMatch r
           end
      else skuMatch r
  end.

(** The loop [while ((m = parenRegex.exec(t)) !== null) parens.push(m[1])]
    where [parenRegex] matches an opening parenthesis, any run of
    characters that are not parentheses, and a closing parenthesis: the
    captures of the successive matches.  [open] holds the text read since the last opening
    parenthesis when a match can still start there. *)
Fixpoint parenGroups (open : option string) (s : string) : list string :=
  match s with
  | EmptyString => []
  | String c r =>
      if Ascii.eqb c "(" then parenGroups (Some EmptyString) r
      else if Ascii.eqb c ")" then
        match open with
        | Some buf => buf :: parenGroups None r
        | None => parenGroups None r
        end
      else parenGroups (option_map (fun b => b ++ String c EmptyString) open) r
  end.

(** [last.split(...)] on the ASCII comma and on the Arabic comma U+060C,
    which is the bytes D8 8C. *)
Fixpoint splitCommas (cur : string) (s : string) : list string :=
  match s with
  | EmptyString => [cur]
  | String a r =>
      if Ascii.eqb a "," then cur :: splitCommas EmptyString r
      else
        match r with
        | String b r' =>
            if ((code a =? 216)%nat && (code b =? 140)%nat)%bool
            then cur :: splitCommas EmptyString r'
            else splitCommas (cur ++ String a EmptyString) r
        | EmptyString => splitCommas (cur ++ String a EmptyString) r
        end
  end.

(** [last.split(...).map(x => x.trim()).filter(Boolean)] *)
Definition partsOf (last : string) : list string :=
  filter nonEmpty (map trim (splitCommas EmptyString last)).

Record Parsed := { p_sku : string; p_color : string; p_size : string }.

(** Color and size from the parts of the last group. *)
Definition classify (parts : list string) : string * string :=
  match parts with
  | p1 :: p2 :: _ =>
      if (looksLikeSize p1 && negb (looksLikeSize p2))%bool
      then (p2, p1) else (p1, p2)
  | [p] => if looksLikeSize p then (EmptyString, p) else (p, EmptyString)
  | [] => (EmptyString, EmptyString)
  end.

Definition parseTextLine (text : string) : Parsed :=
  match skuMatch text with
  | None => {| p_sku := ""; p_color := ""; p_size := "" |}
  | Some sku =>
      let parens := parenGroups None text in
      let (color, size) :=
        match rev parens with
        | [] => (EmptyString, EmptyString)
        | last :: _ => classify (partsOf last)
        end in
      {| p_sku := sku; p_color := color; p_size := size |}
  end.

End Parsing.

(* ================================================================== *)
(** * Limits (min/max per SKU) *)
(* ================================================================== *)

Module Limits.
Import Js.

(** A number field of the limits document is [Some q] when
    [Number.isFinite(Number(field))] holds and [None] when the field is
    absent.  The object [skus] is only ever looked up and assigned to, so
    the order of its keys does not matter. *)
Record SkuRec := { rec_min : option Q; rec_max : option Q }.

Record LimitsDoc := {
  defaultMin : option Q;
  defaultMax : option Q;
  skus : obj SkuRec
}.

(** The fallback of [loadLimits]. *)
Definition limits_fallback : LimitsDoc :=
  {| defaultMin := Some (1 # 1)%Q; defaultMax := Some (1 # 1)%Q; skus := [] |}.

(** [Number(d || 1)]: an absent default and a default of zero are both
    falsy. *)
Definition orOne (d : option Q) : Q :=
  match d with
  | Some q => if Qeq_bool q (0 # 1) then (1 # 1)%Q else q
  | None => (1 # 1)%Q
  end.

(** [lim.skus?.[String(sku)] || {}] *)
Definition skuRec (lim : LimitsDoc) (sku : string) : SkuRec :=
  match obj_get (skus lim) sku with
  | Some r => r
  | None => {| rec_min := None; rec_max := None |}
  end.

Definition getSkuLimits (lim : LimitsDoc) (sku : string) : Z * Z :=
  let rec := skuRec lim sku in
  let min := match rec_min rec with
             | Some q => q
             | None => orOne (defaultMin lim)
             end in
  let max := match rec_max rec with
             | Some q => q
             | None => orOne (defaultMax lim)
             end in
  (Z.max 0 (Qfloor min), Z.max 0 (Qfloor max)).

Definition clampPull (balance min max : Z) : Z :=
  if balance <? min then 0 else Z.min balance max.

(** [Math.max(0, Math.floor(x))], as the two setters store a bound. *)
Definition sanitize (x : Q) : Q := inject_Z (Z.max 0 (Qfloor x)).

(** POST /api/limits/setDefault, for numeric arguments. *)
Definition setDefault (lim : LimitsDoc) (dmin dmax : Q) : LimitsDoc :=
  {| defaultMin := Some (sanitize dmin);
     defaultMax := Some (sanitize dmax);
     skus := skus lim |}.

(** POST /api/limits/set, for a non-empty SKU and numeric arguments. *)
Definition setSku (lim : LimitsDoc) (sku : string) (mn mx : Q) : LimitsDoc :=
  {| defaultMin := defaultMin lim;
     defaultMax := defaultMax lim;
     skus := obj_set (skus lim) sku
               {| rec_min := Some (sanitize mn); rec_max := Some (sanitize mx) |} |}.

End Limits.

(* ================================================================== *)
(** * Documents *)
(* ================================================================== *)

Module Data.
Import Js.

Definition time : Type := Z.

Record StockItem := {
  st_sku : string;
  st_size : string;
  st_color : string;
  st_category : string;
  st_qty : Z
}.

Record StockMaster := {
  updatedAt : option time;
  sourceFileName : option string;
  items : obj StockItem
}.

Inductive Status := Pending | Done.

Definition isDone (s : Status) : bool :=
  match s with Done => true | Pending => false end.

Record ReplanLine := {
  lineId : string;
  category : string;
  sku : string;
  size : string;
  color : string;
  stockQty : Z;
  salesQty : Z;
  balance : Z;
  pullQty : Z;
  status : Status;
  executedAt : option time
}.

Record ReplanRun := {
  runId : string;
  createdAt : time;
  categoryFilter : string;
  salesFileName : string;
  lines : list ReplanLine
}.

Record NewLine := {
  nc_lineId : string;
  nc_category : string;
  nc_sku : string;
  nc_size : string;
  nc_color : string;
  nc_qty : Z;
  nc_status : Status;
  nc_executedAt : option time
}.

Inductive Mode := BASE_PENDING_ALL | UPDATE_PENDING_NEW_ONLY.

Record NewCollection := {
  nc_createdAt : option time;
  mode : option Mode;
  nc_items : list NewLine
}.

(** One aggregated row, as [parseRows] returns it. *)
Record Row := {
  r_category : string;
  r_sku : string;
  r_size : string;
  r_color : string;
  r_qty : Z
}.

(** The four JSON documents, with the fallbacks of the loaders for the
    empty store. *)
Record Store := {
  stock : StockMaster;
  runs : list ReplanRun;
  newCollection : NewCollection;
  limits : Limits.LimitsDoc
}.

Definition emptyStore : Store :=
  {| stock := {| updatedAt := None; sourceFileName := None; items := [] |};
     runs := [];
     newCollection := {| nc_createdAt := None; mode := None; nc_items := [] |};
     limits := Limits.limits_fallback |}.

Definition makeKey (sku size color : string) : string :=
  sku ++ "||" ++ size ++ "||" ++ color.

Definition with_qty (st : StockItem) (q : Z) : StockItem :=
  {| st_sku := st_sku st; st_size := st_size st; st_color := st_color st;
     st_category := st_category st; st_qty := q |}.

Definition with_stock (s : Store) (m : StockMaster) : Store :=
  {| stock := m; runs := runs s; newCollection := newCollection s;
     limits := limits s |}.

Definition with_items (m : StockMaster) (it : obj StockItem) : StockMaster :=
  {| updatedAt := updatedAt m; sourceFileName := sourceFileName m;
     items := it |}.

Inductive Error :=
| MissingField
| RunNotFound
| LineNotFound
| ItemNotInStock
| InsufficientStock (have need : Z)
| StockEmpty.

(** A failure entry of executeAll. *)
Inductive Failure :=
| MissingStockOrQty (lineId : string)
| Insufficient (lineId : string) (have need : Z).

(** What one turn of the loop of executeAll did with its line. *)
Inductive Turn :=
| Skipped
| Refused (f : Failure)
| Pulled.

End Data.

(* ================================================================== *)
(** * Stock update (replace) and clear *)
(* ================================================================== *)

Module Stock.
Import Js Data.

(** The snapshot built from the parsed rows: a later row with the key of
    an earlier one overwrites its item. *)
Definition buildSnapshot (parsed : list Row) : obj StockItem :=
  fold_left
    (fun newItems it =>
       obj_set newItems (makeKey (r_sku it) (r_size it) (r_color it))
         {| st_sku := r_sku it; st_size := r_size it; st_color := r_color it;
            st_category := r_category it; st_qty := r_qty it |})
    parsed [].

(** The object pushed on [newCollection] for [key]. *)
Definition pendingLine (key : string) (x : StockItem) : NewLine :=
  {| nc_lineId := key; nc_category := st_category x; nc_sku := st_sku x;
     nc_size := st_size x; nc_color := st_color x; nc_qty := 1;
     nc_status := Pending; nc_executedAt := None |}.

(** Base after clear: all keys. *)
Definition baseLines (newItems : obj StockItem) : list NewLine :=
  flat_map
    (fun key =>
       match obj_get newItems key with
       | Some x => if 1 <=? st_qty x then [pendingLine key x] else []
       | None => []
       end)
    (obj_keys newItems).

(** Normal update: only new keys. *)
Definition updateLines (oldItems newItems : obj StockItem) : list NewLine :=
  flat_map
    (fun key =>
       match obj_get oldItems key with
       | Some _ => []
       | None =>
           match obj_get newItems key with
           | Some x => if 1 <=? st_qty x then [pendingLine key x] else []
           | None => []
           end
       end)
    (obj_keys newItems).

Record UpdateReply := {
  up_updatedAt : time;
  totalLines : nat;
  baseMode : bool;
  newCollectionCount : nat
}.

(** POST /api/stock/update, once the upload is decoded and parsed. *)
Definition stock_update (s : Store) (now : time) (originalname : string)
    (parsed : list Row) : UpdateReply * Store :=
  let oldItems := items (stock s) in
  let hadOldStock := (0 <? List.length (obj_keys oldItems))%nat in
  let newItems := buildSnapshot parsed in
  let nc :=
    if negb hadOldStock
    then {| nc_createdAt := Some now; mode := Some BASE_PENDING_ALL;
            nc_items := baseLines newItems |}
    else {| nc_createdAt := Some now; mode := Some UPDATE_PENDING_NEW_ONLY;
            nc_items := updateLines oldItems newItems |} in
  let master := {| updatedAt := Some now;
                   sourceFileName := Some originalname;
                   items := newItems |} in
  ({| up_updatedAt := now; totalLines := List.length (obj_keys newItems);
      baseMode := negb hadOldStock;
      newCollectionCount := List.length (nc_items nc) |},
   {| stock := master; runs := runs s; newCollection := nc;
      limits := limits s |}).

(** POST /api/stock/clear *)
Definition stock_clear (s : Store) (now : time) : Store :=
  {| stock := {| updatedAt := Some now; sourceFileName := None; items := [] |};
     runs := [];
     newCollection := {| nc_createdAt := None; mode := None; nc_items := [] |};
     limits := limits s |}.

End Stock.

(* ================================================================== *)
(** * New collection: execute *)
(* ================================================================== *)

Module NewC.
Import Js Data.

Inductive Reply :=
| Executed (line : NewLine) (newStockQty : Z)
| AlreadyExecuted (line : NewLine)
| Failed (status : Z) (error : Error).

Definition isOk (r : Reply) : bool :=
  match r with Failed _ _ => false | _ => true end.

Definition markDone (now : time) (line : NewLine) : NewLine :=
  {| nc_lineId := nc_lineId line; nc_category := nc_category line;
     nc_sku := nc_sku line; nc_size := nc_size line;
     nc_color := nc_color line; nc_qty := nc_qty line;
     nc_status := Done; nc_executedAt := Some now |}.

Definition with_lines (nc : NewCollection) (l : list NewLine) : NewCollection :=
  {| nc_createdAt := nc_createdAt nc; mode := mode nc; nc_items := l |}.

Definition with_newCollection (s : Store) (nc : NewCollection) : Store :=
  {| stock := stock s; runs := runs s; newCollection := nc;
     limits := limits s |}.

(** The test of [nc.items.find(x => x.lineId === lineId)]. *)
Definition isLine (lineId : string) (x : NewLine) : bool :=
  String.eqb (nc_lineId x) lineId.

(** POST /api/newcollection/execute, for the trimmed [lineId]. *)
Definition newcollection_execute (s : Store) (now : time) (lineId : string)
    : Reply * Store :=
  if negb (nonEmpty lineId) then (Failed 400 MissingField, s) else
  let nc := newCollection s in
  match find (isLine lineId) (nc_items nc) with
  | None => (Failed 404 LineNotFound, s)
  | Some line =>
      if isDone (nc_status line) then (AlreadyExecuted line, s) else
      match obj_get (items (stock s)) lineId with
      | None => (Failed 400 ItemNotInStock, s)
      | Some st =>
          let need := nc_qty line in
          let have := st_qty st in
          if have <? need then (Failed 400 (InsufficientStock have need), s)
          else
            let items' := obj_set (items (stock s)) lineId
                                  (with_qty st (have - need)) in
            let lines' :=
              update_first (isLine lineId) (markDone now) (nc_items nc) in
            (Executed (markDone now line) (have - need),
             with_newCollection (with_stock s (with_items (stock s) items'))
                                (with_lines nc lines'))
      end
  end.

Record Bulk := {
  b_items : obj StockItem;
  b_lines : list NewLine;
  executed : nat;
  failures : list Failure
}.

(** One turn of the loop of executeAll. *)
Definition executeAll_step (now : time) (items : obj StockItem)
    (line : NewLine) : obj StockItem * NewLine * Turn :=
  if isDone (nc_status line) then (items, line, Skipped) else
  let st := obj_get items (nc_lineId line) in
  let need := nc_qty line in
  let have := match st with Some x => st_qty x | None => 0 end in
  match st with
  | None => (items, line, Refused (MissingStockOrQty (nc_lineId line)))
  | Some x =>
      if need <=? 0
      then (items, line, Refused (MissingStockOrQty (nc_lineId line)))
      else if have <? need
      then (items, line, Refused (Insufficient (nc_lineId line) have need))
      else (obj_set items (nc_lineId line) (with_qty x (have - need)),
            markDone now line, Pulled)
  end.

Fixpoint executeAll_loop (now : time) (items : obj StockItem)
    (lines : list NewLine) : Bulk :=
  match lines with
  | [] => {| b_items := items; b_lines := []; executed := 0; failures := [] |}
  | line :: rest =>
      let '(items1, line1, turn) := executeAll_step now items line in
      let b := executeAll_loop now items1 rest in
      {| b_items := b_items b;
         b_lines := line1 :: b_lines b;
         executed := match turn with
                     | Pulled => S (executed b)
                     | _ => executed b
                     end;
         failures := match turn with
                     | Refused f => f :: failures b
                     | _ => failures b
                     end |}
  end.

(** POST /api/newcollection/executeAll *)
Definition newcollection_executeAll (s : Store) (now : time) : Bulk * Store :=
  let nc := newCollection s in
  let b := executeAll_loop now (items (stock s)) (nc_items nc) in
  (b, with_newCollection (with_stock s (with_items (stock s) (b_items b)))
                         (with_lines nc (b_lines b))).

End NewC.

(* ================================================================== *)
(** * Replan: generate and execute *)
(* ================================================================== *)

Module Replan.
Import Js Data.

(** [salesMap]: the summed sales quantity of every inventory key. *)
Definition buildSalesMap (salesParsed : list Row) : obj Z :=
  fold_left
    (fun salesMap it =>
       let key := makeKey (r_sku it) (r_size it) (r_color it) in
       obj_set salesMap key (getOr0 salesMap key + r_qty it))
    salesParsed [].

(** The body of the loop over [salesMap.entries()]: the line pushed for
    one entry, if any. *)
Definition lineFor (lim : Limits.LimitsDoc) (stockItems : obj StockItem)
    (categoryFilter : string) (entry : string * Z) : list ReplanLine :=
  let (key, salesQty) := entry in
  if salesQty <=? 0 then [] else
  match obj_get stockItems key with
  | None => []
  | Some st =>
      if (nonEmpty categoryFilter
          && negb (String.eqb (st_category st) categoryFilter))%bool
      then [] else
      let stockQty := st_qty st in
      let balance := stockQty - salesQty in
      if balance <=? 0 then [] else
      let (min, max) := Limits.getSkuLimits lim (st_sku st) in
      let pullQty := Limits.clampPull balance min max in
      if pullQty <=? 0 then [] else
      [ {| lineId := key; category := st_category st; sku := st_sku st;
           size := st_size st; color := st_color st;
           stockQty := stockQty; salesQty := salesQty;
           balance := balance; pullQty := pullQty;
           status := Pending; executedAt := None |} ]
  end.

(** The comparator of the sort of the lines. *)
Definition compareLines (collate : Collation) (a b : ReplanLine) : Z :=
  let d := balance b - balance a in
  if d =? 0 then collate (sku a) (sku b) else d.

(** ["RUN-" + Date.now()] *)
Definition makeRunId (now : time) : string :=
  "RUN-" ++ NilZero.string_of_int (Z.to_int now).

Definition generateLines (collate : Collation) (s : Store)
    (categoryFilter : string) (salesParsed : list Row) : list ReplanLine :=
  sortBy (compareLines collate)
    (flat_map (lineFor (limits s) (items (stock s)) categoryFilter)
              (buildSalesMap salesParsed)).

(** POST /api/replan/generate, once the upload is decoded and parsed. *)
Definition replan_generate (collate : Collation) (s : Store) (now : time)
    (categoryFilter : string)
    (originalname : string) (salesParsed : list Row)
    : (Error + ReplanRun) * Store :=
  match updatedAt (stock s), items (stock s) with
  | None, _ | _, [] => (inl StockEmpty, s)
  | Some _, _ :: _ =>
      let run := {| runId := makeRunId now;
                    createdAt := now;
                    categoryFilter :=
                      if nonEmpty categoryFilter then categoryFilter
                      else "All";
                    salesFileName := originalname;
                    lines :=
                      generateLines collate s categoryFilter salesParsed |} in
      (inr run,
       {| stock := stock s; runs := run :: runs s;
          newCollection := newCollection s; limits := limits s |})
  end.

Inductive Reply :=
| Executed (line : ReplanLine) (newStockQty : Z)
| AlreadyExecuted (line : ReplanLine)
| Failed (status : Z) (error : Error).

Definition isOk (r : Reply) : bool :=
  match r with Failed _ _ => false | _ => true end.

Definition markDone (now : time) (line : ReplanLine) : ReplanLine :=
  {| lineId := lineId line; category := category line; sku := sku line;
     size := size line; color := color line; stockQty := stockQty line;
     salesQty := salesQty line; balance := balance line;
     pullQty := pullQty line; status := Done; executedAt := Some now |}.

Definition with_lines (r : ReplanRun) (l : list ReplanLine) : ReplanRun :=
  {| runId := runId r; createdAt := createdAt r;
     categoryFilter := categoryFilter r; salesFileName := salesFileName r;
     lines := l |}.

Definition with_runs (s : Store) (rs : list ReplanRun) : Store :=
  {| stock := stock s; runs := rs; newCollection := newCollection s;
     limits := limits s |}.

(** The tests of [runs.find(r => r.runId === runId)] and of
    [run.lines.find(l => l.lineId === lineId)]. *)
Definition isRun (rid : string) (r : ReplanRun) : bool :=
  String.eqb (runId r) rid.

Definition isLine (lid : string) (l : ReplanLine) : bool :=
  String.eqb (lineId l) lid.

(** POST /api/replan/execute, for the trimmed [runId] and [lineId]. *)
Definition replan_execute (s : Store) (now : time) (rid lid : string)
    : Reply * Store :=
  if (negb (nonEmpty rid) || negb (nonEmpty lid))%bool
  then (Failed 400 MissingField, s) else
  match find (isRun rid) (runs s) with
  | None => (Failed 404 RunNotFound, s)
  | Some run =>
      match find (isLine lid) (lines run) with
      | None => (Failed 404 LineNotFound, s)
      | Some line =>
          if isDone (status line) then (AlreadyExecuted line, s) else
          match obj_get (items (stock s)) lid with
          | None => (Failed 400 ItemNotInStock, s)
          | Some st =>
              let need := pullQty line in
              let have := st_qty st in
              if have <? need
              then (Failed 400 (InsufficientStock have need), s)
              else
                let items' := obj_set (items (stock s)) lid
                                      (with_qty st (have - need)) in
                let runs' :=
                  update_first (isRun rid)
                    (fun r => with_lines r
                       (update_first (isLine lid) (markDone now) (lines r)))
                    (runs s) in
                (Executed (markDone now line) (have - need),
                 with_runs (with_stock s (with_items (stock s) items')) runs')
          end
      end
  end.

Record Bulk := {
  b_items : obj StockItem;
  b_lines : list ReplanLine;
  executed : nat;
  failures : list Failure
}.

(** One turn of the loop of executeAll. *)
Definition executeAll_step (now : time) (items : obj StockItem)
    (line : ReplanLine) : obj StockItem * ReplanLine * Turn :=
  if isDone (status line) then (items, line, Skipped) else
  let st := obj_get items (lineId line) in
  let need := pullQty line in
  let have := match st with Some x => st_qty x | None => 0 end in
  match st with
  | None => (items, line, Refused (MissingStockOrQty (lineId line)))
  | Some x =>
      if need <=? 0
      then (items, line, Refused (MissingStockOrQty (lineId line)))
      else if have <? need
      then (items, line, Refused (Insufficient (lineId line) have need))
      else (obj_set items (lineId line) (with_qty x (have - need)),
            markDone now line, Pulled)
  end.

Fixpoint executeAll_loop (now : time) (items : obj StockItem)
    (lines : list ReplanLine) : Bulk :=
  match lines with
  | [] => {| b_items := items; b_lines := []; executed := 0; failures := [] |}
  | line :: rest =>
      let '(items1, line1, turn) := executeAll_step now items line in
      let b := executeAll_loop now items1 rest in
      {| b_items := b_items b;
         b_lines := line1 :: b_lines b;
         executed := match turn with
                     | Pulled => S (executed b)
                     | _ => executed b
                     end;
         failures := match turn with
                     | Refused f => f :: failures b
                     | _ => failures b
                     end |}
  end.

(** POST /api/replan/executeAll, for the trimmed [runId]. *)
Definition replan_executeAll (s : Store) (now : time) (rid : string)
    : (Error + Bulk) * Store :=
  if negb (nonEmpty rid) then (inl MissingField, s) else
  match find (isRun rid) (runs s) with
  | None => (inl RunNotFound, s)
  | Some run =>
      let b := executeAll_loop now (items (stock s)) (lines run) in
      (inr b,
       with_runs (with_stock s (with_items (stock s) (b_items b)))
                 (update_first (isRun rid) (fun r => with_lines r (b_lines b))
                               (runs s)))
  end.

End Replan.

(* ================================================================== *)
(** * Dashboard: items with stock and no recent pull *)
(* ================================================================== *)

Module Dashboard.
Import Js Data.

(** The key of [lastBySku]. *)
Definition skuKey (category sku size color : string) : string :=
  category ++ "||" ++ sku ++ "||" ++ size ++ "||" ++ color.

(** The turn of the inner loop for line [l], as far as [lastBySku] goes.
    [new Date(l.executedAt).getTime()] is the time itself. *)
Definition noteLine (category : string) (lastBySku : obj Z) (l : ReplanLine)
    : obj Z :=
  match status l, executedAt l with
  | Done, Some t =>
      if (negb (nonEmpty category) || String.eqb (Data.category l) category)%bool
      then let k := skuKey (Data.category l) (sku l) (size l) (color l) in
           obj_set lastBySku k (Z.max (getOr0 lastBySku k) t)
      else lastBySku
  | _, _ => lastBySku
  end.

Definition buildLastBySku (category : string) (rs : list ReplanRun) : obj Z :=
  fold_left (fun m run => fold_left (noteLine category) (lines run) m) rs [].

Record Stale := {
  sl_category : string;
  sl_sku : string;
  sl_size : string;
  sl_color : string;
  sl_stockQty : Z;
  lastExecutedAt : option time
}.

(** The body of the loop over [Object.keys(stockItems)]. *)
Definition staleFor (category : string) (lastBySku : obj Z)
    (staleCutoff : Z) (stockItems : obj StockItem) (key : string)
    : list Stale :=
  match obj_get stockItems key with
  | None => []
  | Some st =>
      let qty := st_qty st in
      if qty <=? 0 then [] else
      if (nonEmpty category
          && negb (String.eqb (st_category st) category))%bool
      then [] else
      let last := getOr0 lastBySku
                    (skuKey (st_category st) (st_sku st) (st_size st)
                            (st_color st)) in
      if ((last =? 0) || (last <? staleCutoff))%bool
      then [ {| sl_category := st_category st; sl_sku := st_sku st;
                sl_size := st_size st; sl_color := st_color st;
                sl_stockQty := st_qty st;
                lastExecutedAt := if last =? 0 then None else Some last |} ]
      else []
  end.

(** [(a.lastExecutedAt || "").localeCompare(b.lastExecutedAt || "")]: the
    ISO form of a time (of a year up to 9999) is a string of fixed layout
    whose order is the order of the times, and the empty string of a
    [null] comes before all. *)
Definition compareStale (a b : Stale) : Z :=
  match lastExecutedAt a, lastExecutedAt b with
  | None, None => 0
  | None, Some _ => -1
  | Some _, None => 1
  | Some x, Some y => Z.sgn (x - y)
  end.

(** [Math.max(Number(req.query.staleDays) || 14, 1)] *)
Definition staleDaysOf (arg : Z) : Z :=
  Z.max (if arg =? 0 then 14 else arg) 1.

(** The list before [slice(0, 200)]. *)
Definition noReplanAll (s : Store) (now : time) (staleDaysArg : Z)
    (category : string) : list Stale :=
  let staleCutoff := now - staleDaysOf staleDaysArg * 24 * 3600 * 1000 in
  let lastBySku := buildLastBySku category (runs s) in
  let stockItems := items (stock s) in
  sortBy compareStale
    (flat_map (staleFor category lastBySku staleCutoff stockItems)
              (obj_keys stockItems)).

(** The [noReplan] field of GET /api/dashboard. *)
Definition noReplan (s : Store) (now : time) (staleDaysArg : Z)
    (category : string) : list Stale :=
  firstn 200 (noReplanAll s now staleDaysArg category).

End Dashboard.

(* ================================================================== *)
(** * Sample documents *)
(* ================================================================== *)

Module Demo.
Import Js Data.

Definition row (cat sku size color : string) (q : Z) : Row :=
  {| r_category := cat; r_sku := sku; r_size := size; r_color := color;
     r_qty := q |}.

(** A stock file with two lines, loaded into the empty store. *)
Definition stockRows : list Row :=
  [row "Dresses" "1" "M" "Red" 10; row "Tops" "2" "L" "Blue" 3].

Definition stocked : Store :=
  snd (Stock.stock_update emptyStore 1000 "stock.xlsx" stockRows).

(** The same store with the defaults min 1, max 3. *)
Definition stocked13 : Store :=
  {| stock := stock stocked; runs := runs stocked;
     newCollection := newCollection stocked;
     limits := Limits.setDefault (limits stocked) (1 # 1) (3 # 1) |}.

(** A stock file with one line more, and one with a negative quantity. *)
Definition stockRows' : list Row :=
  stockRows ++ [row "Tops" "3" "S" "Green" 2].

Definition badRows : list Row := [row "Dresses" "1" "M" "Red" (-5)].

(** A sales file: four sold of the first line, none of the second. *)
Definition salesRows : list Row :=
  [row "Dresses" "1" "M" "Red" 4; row "Tops" "2" "L" "Blue" 0].

(** A sales file whose only row carries no quantity. *)
Definition zeroSales : list Row := [row "Dresses" "1" "M" "Red" 0].

(** The store after a run is generated from [salesRows]. *)
Definition planned : Store :=
  snd (Replan.replan_generate codeUnitCompare stocked13 2000 "" "sales.xlsx" salesRows).

(** The line of that run. *)
Definition plannedLine : ReplanLine :=
  {| lineId := "1||M||Red"; category := "Dresses"; sku := "1"; size := "M";
     color := "Red"; stockQty := 10; salesQty := 4; balance := 6;
     pullQty := 3; status := Pending; executedAt := None |}.

(** The store after the line of that run is executed. *)
Definition pulled : Store :=
  snd (Replan.replan_execute planned 3000 "RUN-2000" "1||M||Red").

(** The first line of the new-collection batch of [stocked], and the store
    after it is executed. *)
Definition arrival : NewLine :=
  {| nc_lineId := "1||M||Red"; nc_category := "Dresses"; nc_sku := "1";
     nc_size := "M"; nc_color := "Red"; nc_qty := 1; nc_status := Pending;
     nc_executedAt := None |}.

Definition shelved : Store :=
  snd (NewC.newcollection_execute stocked 3000 "1||M||Red").

(** The ledger reloaded after the pull, with the line of SKU 1 now under
    another category header. *)
Definition recategorised : Store :=
  snd (Stock.stock_update pulled 4000 "stock2.xlsx"
         [row "Outlet" "1" "M" "Red" 7]).

End Demo.

(* ================================================================== *)
(** * Vocabulary of the properties *)
(* ================================================================== *)

Module Props.
Import Js Data.

(** [a] may stand before [b] in an array sorted with [cmp]. *)
Definition before {A : Type} (cmp : A -> A -> Z) (a b : A) : Prop :=
  cmp a b <= 0.

(** What a sort asks of the sign that [localeCompare] returns: opposite
    signs for opposite arguments, and transitivity. *)
Definition collation (collate : Collation) : Prop :=
  (forall a b, 0 < collate a b -> collate b a <= 0)
  /\ (forall a b c, collate a b <= 0 -> collate b c <= 0 -> collate a c <= 0).

(** Descending balance, ties by ascending SKU in the collation. *)
Definition lineOrder (collate : Collation) (a b : ReplanLine) : Prop :=
  balance b < balance a
  \/ (balance a = balance b /\ collate (sku a) (sku b) <= 0).

(** The rows of [rows] with inventory key [key], and their summed
    quantity. *)
Definition rowsOf (rows : list Row) (key : string) : list Row :=
  filter (fun r => String.eqb (makeKey (r_sku r) (r_size r) (r_color r)) key)
         rows.

Definition sumQty (rows : list Row) : Z :=
  fold_right (fun r acc => r_qty r + acc) 0 rows.

(** The replan line of [key] for sales [q] against the stock item [st]. *)
Definition lineOf (lim : Limits.LimitsDoc) (key : string) (q : Z)
    (st : StockItem) : ReplanLine :=
  let b := st_qty st - q in
  {| lineId := key; category := st_category st; sku := st_sku st;
     size := st_size st; color := st_color st;
     stockQty := st_qty st; salesQty := q; balance := b;
     pullQty := Limits.clampPull b (fst (Limits.getSkuLimits lim (st_sku st)))
                                   (snd (Limits.getSkuLimits lim (st_sku st)));
     status := Pending; executedAt := None |}.

(** The category filter lets [cat] through. *)
Definition passes (categoryFilter cat : string) : Prop :=
  categoryFilter = "" \/ cat = categoryFilter.

(** The store after line [lid] of run [rid] is pulled from [st]. *)
Definition replanPulled (s : Store) (now : time) (rid lid : string)
    (st : StockItem) (need : Z) : Store :=
  Replan.with_runs
    (with_stock s
       (with_items (stock s)
          (obj_set (items (stock s)) lid (with_qty st (st_qty st - need)))))
    (update_first (Replan.isRun rid)
       (fun r => Replan.with_lines r
          (update_first (Replan.isLine lid) (Replan.markDone now) (lines r)))
       (runs s)).

(** The store after line [lid] of the new-collection batch is pulled from
    [st]. *)
Definition newPulled (s : Store) (now : time) (lid : string)
    (st : StockItem) (need : Z) : Store :=
  NewC.with_newCollection
    (with_stock s
       (with_items (stock s)
          (obj_set (items (stock s)) lid (with_qty st (st_qty st - need)))))
    (NewC.with_lines (newCollection s)
       (update_first (NewC.isLine lid) (NewC.markDone now)
                     (nc_items (newCollection s)))).

(** The times of the Done executions that the dashboard, filtered on
    [category], records under the key [key], in the order of the history. *)
Definition doneTime (category key : string) (l : ReplanLine) : list Z :=
  match status l, executedAt l with
  | Done, Some t =>
      if ((negb (nonEmpty category) || String.eqb (Data.category l) category)
          && String.eqb
               (Dashboard.skuKey (Data.category l) (sku l) (size l) (color l))
               key)%bool
      then [t] else []
  | _, _ => []
  end.

Definition doneTimes (category key : string) (rs : list ReplanRun) : list Z :=
  flat_map (fun run => flat_map (doneTime category key) (lines run)) rs.

(** The latest of a list of times, 0 when there is none. *)
Definition latest (ts : list Z) : Z := fold_left Z.max ts 0.

(** The entry of the stale list for the item [st] last pulled at [last]. *)
Definition staleOf (st : StockItem) (last : Z) : Dashboard.Stale :=
  {| Dashboard.sl_category := st_category st; Dashboard.sl_sku := st_sku st;
     Dashboard.sl_size := st_size st; Dashboard.sl_color := st_color st;
     Dashboard.sl_stockQty := st_qty st;
     Dashboard.lastExecutedAt := if last =? 0 then None else Some last |}.

(** Ascending time of the last execution, never-executed first. *)
Definition staleOrder (a b : Dashboard.Stale) : Prop :=
  match Dashboard.lastExecutedAt a, Dashboard.lastExecutedAt b with
  | None, _ => True
  | Some _, None => False
  | Some x, Some y => x <= y
  end.

(** The stores the handlers can produce from the empty store. *)
Inductive Reachable : Store -> Prop :=
| reach_empty : Reachable emptyStore
| reach_update s now name parsed :
    Reachable s -> Reachable (snd (Stock.stock_update s now name parsed))
| reach_clear s now :
    Reachable s -> Reachable (Stock.stock_clear s now)
| reach_generate s collate now cf name sales :
    Reachable s ->
    Reachable (snd (Replan.replan_generate collate s now cf name sales))
| reach_execute s now rid lid :
    Reachable s -> Reachable (snd (Replan.replan_execute s now rid lid))
| reach_executeAll s now rid :
    Reachable s -> Reachable (snd (Replan.replan_executeAll s now rid))
| reach_new_execute s now lid :
    Reachable s -> Reachable (snd (NewC.newcollection_execute s now lid))
| reach_new_executeAll s now :
    Reachable s -> Reachable (snd (NewC.newcollection_executeAll s now))
| reach_limits s lim :
    Reachable s ->
    Reachable {| stock := stock s; runs := runs s;
                 newCollection := newCollection s; limits := lim |}.

(** A ledger with items carries the time of its upload. *)
Definition loaded (s : Store) : Prop :=
  items (stock s) <> [] -> updatedAt (stock s) <> None.

(** Every quantity of the ledger is non-negative. *)
Definition nonNegative (items : obj StockItem) : Prop :=
  forall k st, In (k, st) items -> 0 <= st_qty st.

End Props.

(* ================================================================== *)
(** * Vocabulary of the invariants of the store *)
(* ================================================================== *)

Module Sound.
Import Js Data.

(** The ledger has each key once, and every item sits under the key made
    of its own SKU, size and color. *)
Definition wellKeyed (items : obj StockItem) : Prop :=
  NoDup (obj_keys items)
  /\ forall k st, In (k, st) items ->
       k = makeKey (st_sku st) (st_size st) (st_color st).

(** A line carries a time of execution exactly when it is Done. *)
Definition dated (st : Status) (at_ : option time) : Prop :=
  match st with
  | Done => at_ <> None
  | Pending => at_ = None
  end.

Definition lineSound (l : ReplanLine) : Prop :=
  0 < salesQty l
  /\ 0 < pullQty l
  /\ pullQty l <= balance l
  /\ balance l = stockQty l - salesQty l
  /\ lineId l = makeKey (sku l) (size l) (color l)
  /\ dated (status l) (executedAt l).

Definition runSound (r : ReplanRun) : Prop :=
  NoDup (map lineId (lines r)) /\ Forall lineSound (lines r).

Definition newLineSound (items : obj StockItem) (x : NewLine) : Prop :=
  In (nc_lineId x) (obj_keys items)
  /\ nc_qty x = 1
  /\ nc_lineId x = makeKey (nc_sku x) (nc_size x) (nc_color x)
  /\ dated (nc_status x) (nc_executedAt x).

Definition batchSound (s : Store) : Prop :=
  NoDup (map nc_lineId (nc_items (newCollection s)))
  /\ Forall (newLineSound (items (stock s))) (nc_items (newCollection s)).

Definition sound (s : Store) : Prop :=
  wellKeyed (items (stock s))
  /\ batchSound s
  /\ Forall runSound (runs s).

(** What execution may do to a line: leave it, or mark a Pending line Done
    at [now]. *)
Definition lineStep (now : time) (l l' : ReplanLine) : Prop :=
  l' = l \/ (status l = Pending /\ l' = Replan.markDone now l).

Definition newLineStep (now : time) (x x' : NewLine) : Prop :=
  x' = x \/ (nc_status x = Pending /\ x' = NewC.markDone now x).

Definition runStep (now : time) (r r' : ReplanRun) : Prop :=
  runId r' = runId r /\ createdAt r' = createdAt r
  /\ categoryFilter r' = categoryFilter r
  /\ salesFileName r' = salesFileName r
  /\ Forall2 (lineStep now) (lines r) (lines r').

(** The quantity held by the whole ledger, the quantity of the Done lines
    of a list, and the number of its lines that are not Done. *)
Definition totalQty (items : obj StockItem) : Z :=
  fold_right (fun e acc => st_qty (snd e) + acc) 0 items.

Definition doneQty (ls : list ReplanLine) : Z :=
  fold_right
    (fun l acc => if isDone (status l) then pullQty l + acc else acc) 0 ls.

Definition newDoneQty (ls : list NewLine) : Z :=
  fold_right
    (fun x acc => if isDone (nc_status x) then nc_qty x + acc else acc) 0 ls.

Definition pendingCount (ls : list ReplanLine) : nat :=
  List.length (filter (fun l => negb (isDone (status l))) ls).

Definition newPendingCount (ls : list NewLine) : nat :=
  List.length (filter (fun x => negb (isDone (nc_status x))) ls).

(** [items'] holds the keys of [items], none with a larger quantity. *)
Definition below (items' items : obj StockItem) : Prop :=
  forall k,
    match obj_get items' k, obj_get items k with
    | None, None => True
    | Some a, Some b => st_qty a <= st_qty b
    | _, _ => False
    end.

End Sound.

(* ================================================================== *)
(** * The loop of executeAll, once for both kinds of line *)
(* ================================================================== *)

(** The two executeAll handlers run the same loop, one over the lines of
    a run with the need [pullQty], one over the lines of the batch with
    the need [qty].  [Bulk] is that loop over any kind of line; the facts
    proved of it are carried over to the two loops of the handlers. *)
Module Bulk.
Import Js Data.

Section Loop.
Context {L : Type}.
Variables (ident : L -> string) (need : L -> Z) (finished : L -> bool)
          (mark : time -> L -> L).

Definition step (now : time) (items : obj StockItem) (line : L)
    : obj StockItem * L * Turn :=
  if finished line then (items, line, Skipped) else
  match obj_get items (ident line) with
  | None => (items, line, Refused (MissingStockOrQty (ident line)))
  | Some x =>
      if need line <=? 0
      then (items, line, Refused (MissingStockOrQty (ident line)))
      else if st_qty x <? need line
      then (items, line,
            Refused (Insufficient (ident line) (st_qty x) (need line)))
      else (obj_set items (ident line) (with_qty x (st_qty x - need line)),
            mark now line, Pulled)
  end.

Fixpoint loop (now : time) (items : obj StockItem) (lines : list L)
    : obj StockItem * list L * nat * list Failure :=
  match lines with
  | [] => (items, [], O, [])
  | line :: rest =>
      let '(items1, line1, turn) := step now items line in
      let '(itemsF, linesF, n, fs) := loop now items1 rest in
      (itemsF, line1 :: linesF,
       match turn with Pulled => S n | _ => n end,
       match turn with Refused f => f :: fs | _ => fs end)
  end.

(** The need of the Done lines, and the number of lines not Done. *)
Definition doneNeed (ls : list L) : Z :=
  fold_right (fun l acc => if finished l then need l + acc else acc) 0 ls.

Definition unfinished (ls : list L) : nat :=
  List.length (filter (fun l => negb (finished l)) ls).

End Loop.

End Bulk.

(* ================================================================== *)
(** * Row aggregation *)
(* ================================================================== *)

Module Rows.
Import Js Data Parsing.

Definition lowerAscii (c : ascii) : ascii :=
  if ((65 <=? code c)%nat && (code c <=? 90)%nat)%bool
  then ascii_of_nat (code c + 32) else c.

(** [text.toLowerCase()], as far as the comparison with "quantity" can
    observe it: no character outside ASCII has a lower case made of the
    letters of that word. *)
Fixpoint toLowerCase (s : string) : string :=
  match s with
  | EmptyString => EmptyString
  | String c r => String (lowerAscii c) (toLowerCase r)
  end.

(** [skuRegex.test(text)] *)
Definition hasSku (text : string) : bool :=
  match skuMatch text with Some _ => true | None => false end.

(** The key of [agg]. *)
Definition aggKey (category sku size color : string) : string :=
  category ++ "||" ++ sku ++ "||" ++ size ++ "||" ++ color.

(** A row is the pair of [String(r[0] ?? "")] and [Number(r[1]) || 0].
    The loop over the rows, with the category cursor and the map. *)
Fixpoint aggregate (currentCategory : string) (agg : obj Z)
    (rows : list (string * Z)) : obj Z :=
  match rows with
  | [] => agg
  | (raw, qty) :: rest =>
      let text := trim raw in
      if negb (nonEmpty text) then aggregate currentCategory agg rest else
      if negb (hasSku text) then
        aggregate
          (if negb (String.eqb (toLowerCase text) "quantity")
           then text else currentCategory)
          agg rest
      else
        let p := parseTextLine text in
        if negb (nonEmpty (p_sku p)) then aggregate currentCategory agg rest
        else
          let key := aggKey currentCategory (p_sku p) (p_size p) (p_color p) in
          aggregate currentCategory
                    (obj_set agg key (plus (getOr0 agg key) qty)) rest
  end.

(** [key.split("||")]: the pieces between the successive occurrences of
    the separator, read from the left. *)
Fixpoint splitBars (cur : string) (s : string) : list string :=
  match s with
  | EmptyString => [cur]
  | String a r =>
      match r with
      | String b r' =>
          if (Ascii.eqb a "|" && Ascii.eqb b "|")%bool
          then cur :: splitBars EmptyString r'
          else splitBars (cur ++ String a EmptyString) r
      | EmptyString => [cur ++ String a EmptyString]
      end
  end.

(** [const [category, sku, size, color] = key.split("||")] and the object
    pushed.  The default of [nth] stands for [undefined]. *)
Definition rowOf (entry : string * Z) : Row :=
  let parts := splitBars EmptyString (fst entry) in
  {| r_category := nth 0 parts EmptyString;
     r_sku := nth 1 parts EmptyString;
     r_size := nth 2 parts EmptyString;
     r_color := nth 3 parts EmptyString;
     r_qty := snd entry |}.

Definition parseRows (rows : list (string * Z)) : list Row :=
  map rowOf (aggregate EmptyString [] rows).

(** ** Vocabulary *)

(** A product line of the rows, with the category in force when it is
    read. *)
Record Product := {
  pr_category : string;
  pr_sku : string;
  pr_size : string;
  pr_color : string;
  pr_qty : Z
}.

Fixpoint products (currentCategory : string) (rows : list (string * Z))
    : list Product :=
  match rows with
  | [] => []
  | (raw, qty) :: rest =>
      let text := trim raw in
      match skuMatch text with
      | Some _ =>
          {| pr_category := currentCategory;
             pr_sku := p_sku (parseTextLine text);
             pr_size := p_size (parseTextLine text);
             pr_color := p_color (parseTextLine text);
             pr_qty := qty |} :: products currentCategory rest
      | None =>
          products
            (if (nonEmpty text
                 && negb (String.eqb (toLowerCase text) "quantity"))%bool
             then text else currentCategory)
            rest
      end
  end.

Definition keyOf (p : Product) : string :=
  aggKey (pr_category p) (pr_sku p) (pr_size p) (pr_color p).

(** No vertical bar in [s]. *)
Fixpoint noBar (s : string) : bool :=
  match s with
  | EmptyString => true
  | String c r => (negb (Ascii.eqb c "|") && noBar r)%bool
  end.

Definition plain (p : Product) : bool :=
  (noBar (pr_category p) && noBar (pr_size p) && noBar (pr_color p))%bool.

Definition sameFields (p q : Product) : bool :=
  (String.eqb (pr_category q) (pr_category p)
   && String.eqb (pr_sku q) (pr_sku p)
   && String.eqb (pr_size q) (pr_size p)
   && String.eqb (pr_color q) (pr_color p))%bool.

(** The quantities of the products add up, in magnitude, to 2^53 at most:
    every sum of some of them is then a number that a double holds. *)
Definition safeSum (ps : list Product) : bool :=
  fold_right (fun p acc => Z.abs (pr_qty p) + acc) 0 ps <=? 2 ^ 53.

(** The summed quantity of the products with the fields of [p]. *)
Definition sumLike (ps : list Product) (p : Product) : Z :=
  fold_right (fun q acc => pr_qty q + acc) 0 (filter (sameFields p) ps).

Fixpoint allDigits (s : string) : bool :=
  match s with
  | EmptyString => true
  | String c r => (isDigit c && allDigits r)%bool
  end.

(** No opening square bracket in [s]. *)
Fixpoint noBracket (s : string) : bool :=
  match s with
  | EmptyString => true
  | String c r => (negb (Ascii.eqb c "[") && noBracket r)%bool
  end.

(** The number of parts [key.split("||")] gives. *)
Definition bars (s : string) : nat := List.length (splitBars "" s).

(** The elements of [l] filed under the key [k], and the sum of their
    values. *)
Definition pick {A : Type} (key : A -> string) (k : string) (l : list A)
    : list A :=
  filter (fun a => String.eqb (key a) k) l.

Definition total {A : Type} (val : A -> Z) (l : list A) : Z :=
  fold_right (fun a acc => val a + acc) 0 l.

(** The products [p] and [q] are one item of the ledger. *)
Definition sameItem (p q : Product) : bool :=
  (String.eqb (pr_sku q) (pr_sku p)
   && String.eqb (pr_size q) (pr_size p)
   && String.eqb (pr_color q) (pr_color p))%bool.

(** No item is listed under two categories. *)
Definition oneCategory (ps : list Product) : bool :=
  forallb
    (fun p =>
       forallb
         (fun q =>
            implb (sameItem p q)
                  (String.eqb (pr_category q) (pr_category p)))
         ps)
    ps.

(** The ledger item of a row and of a product. *)
Definition itemOfRow (r : Row) : StockItem :=
  {| st_sku := r_sku r; st_size := r_size r; st_color := r_color r;
     st_category := r_category r; st_qty := r_qty r |}.

Definition itemOf (ps : list Product) (p : Product) : StockItem :=
  {| st_sku := pr_sku p; st_size := pr_size p; st_color := pr_color p;
     st_category := pr_category p; st_qty := sumLike ps p |}.

(** A sheet: a category heading, the same product under the two orders
    of size and color, and a product with no parentheses. *)
Definition sheet : list (string * Z) :=
  [("Dresses", 0); ("[123] Dress (M, Red)", 2);
   ("[123] Dress (Red, M)", 3); ("[9] Top", 1)].

End Rows.

(* ================================================================== *)
(** * Stock search *)
(* ================================================================== *)

Module Search.
Import Js Data.

(** [Number(req.query.limit)] *)
Inductive Num := NaN | PosInf | NegInf | Fin (q : Q).

(** [Math.min(Math.max(n || 200, 1), 2000)], as the whole number that
    [slice] makes of it. *)
Definition limitOf (n : Num) : nat :=
  match n with
  | NaN => 200
  | PosInf => 2000
  | NegInf => 1
  | Fin q =>
      if Qeq_bool q (0 # 1) then 200 else
      let m := if Qle_bool q (1 # 1) then (1 # 1)%Q else q in
      let m' := if Qle_bool (2000 # 1) m then (2000 # 1)%Q else m in
      Z.to_nat (Qfloor m')
  end.

(** [s.includes(q)] *)
Fixpoint includes (s q : string) : bool :=
  (String.prefix q s
   || match s with
      | EmptyString => false
      | String _ r => includes r q
      end)%bool.

(** [q] occurs in [s]. *)
Definition occurs (q s : string) : Prop :=
  exists a b, s = a ++ q ++ b.

Section Lower.

(** [String.prototype.toLowerCase], on the encoding. *)
Variable toLowerCase : string -> string.

(** The test of the filter on the query. *)
Definition matches (q : string) (x : StockItem) : bool :=
  (includes (toLowerCase (st_sku x)) q
   || includes (toLowerCase (st_size x)) q
   || includes (toLowerCase (st_color x)) q
   || includes (toLowerCase (st_category x)) q)%bool.

(** The comparator of the sort: descending quantity. *)
Definition compareQty (a b : StockItem) : Z := st_qty b - st_qty a.

(** The items after the filters and the sort, before [slice]. *)
Definition found (s : Store) (rawQ rawCategory : string) : list StockItem :=
  let q := toLowerCase (trim rawQ) in
  let category := trim rawCategory in
  let items0 := map snd (items (stock s)) in
  let items1 := filter (fun x => 0 <? st_qty x) items0 in
  let items2 :=
    if nonEmpty category
    then filter (fun x => String.eqb (st_category x) category) items1
    else items1 in
  let items3 := if nonEmpty q then filter (matches q) items2 else items2 in
  sortBy compareQty items3.

Record SearchReply := {
  sr_updatedAt : option time;
  sr_count : nat;
  sr_items : list StockItem
}.

(** GET /api/stock/search *)
Definition stock_search (s : Store) (rawQ rawCategory : string)
    (limit : Num) : SearchReply :=
  let items := found s rawQ rawCategory in
  {| sr_updatedAt := updatedAt (stock s);
     sr_count := List.length items;
     sr_items := firstn (limitOf limit) items |}.

(** ** Vocabulary *)

(** The query occurs in one of the four fields of [x], lowered. *)
Definition hit (q : string) (x : StockItem) : Prop :=
  occurs q (toLowerCase (st_sku x))
  \/ occurs q (toLowerCase (st_size x))
  \/ occurs q (toLowerCase (st_color x))
  \/ occurs q (toLowerCase (st_category x)).

End Lower.

End Search.

(* ================================================================== *)
(** * Dashboard: top categories and top SKUs *)
(* ================================================================== *)

Module Tops.
Import Js Data Rows.

(** [Math.max(Number(req.query.days) || 30, 1)] *)
Definition daysOf (arg : Z) : Z :=
  Z.max (if arg =? 0 then 30 else arg) 1.

(** The test under which the inner loop pushes [l] on [doneLines]. *)
Definition inWindow (category : string) (since : Z) (l : ReplanLine) : bool :=
  match status l, executedAt l with
  | Done, Some t =>
      ((since <=? t)
       && (negb (nonEmpty category)
           || String.eqb (Data.category l) category))%bool
  | _, _ => false
  end.

(** [doneLines], in the order of the two loops. *)
Definition doneLines (category : string) (since : Z) (rs : list ReplanRun)
    : list ReplanLine :=
  flat_map (fun run => filter (inWindow category since) (lines run)) rs.

(** The key of [bySku]. *)
Definition catSku (l : ReplanLine) : string :=
  Data.category l ++ "||" ++ sku l.

(** One turn of the loop over [doneLines], for one of the two maps. *)
Definition addPull (key : ReplanLine -> string) (m : obj Z) (l : ReplanLine)
    : obj Z :=
  obj_set m (key l) (getOr0 m (key l) + pullQty l).

Definition byCat (dl : list ReplanLine) : obj Z :=
  fold_left (addPull Data.category) dl [].

Definition bySku (dl : list ReplanLine) : obj Z :=
  fold_left (addPull catSku) dl [].

Record TopCategory := { tc_category : string; tc_qty : Z }.

Record TopSku := { ts_category : string; ts_sku : string; ts_qty : Z }.

Definition topCategoryOf (entry : string * Z) : TopCategory :=
  {| tc_category := fst entry; tc_qty := snd entry |}.

(** [const [cat, sku] = k.split("||")]; the default of [nth] stands for
    [undefined]. *)
Definition topSkuOf (entry : string * Z) : TopSku :=
  let parts := splitBars EmptyString (fst entry) in
  {| ts_category := nth 0 parts EmptyString;
     ts_sku := nth 1 parts EmptyString;
     ts_qty := snd entry |}.

(** The two lists before [slice]. *)
Definition topCategoriesAll (s : Store) (now : time) (daysArg : Z)
    (category : string) : list TopCategory :=
  let since := now - daysOf daysArg * 24 * 3600 * 1000 in
  sortBy (fun a b => tc_qty b - tc_qty a)
         (map topCategoryOf (byCat (doneLines category since (runs s)))).

Definition topSkusAll (s : Store) (now : time) (daysArg : Z)
    (category : string) : list TopSku :=
  let since := now - daysOf daysArg * 24 * 3600 * 1000 in
  sortBy (fun a b => ts_qty b - ts_qty a)
         (map topSkuOf (bySku (doneLines category since (runs s)))).

(** The fields [topCategories] and [topSkus] of GET /api/dashboard. *)
Definition topCategories (s : Store) (now : time) (daysArg : Z)
    (category : string) : list TopCategory :=
  firstn 15 (topCategoriesAll s now daysArg category).

Definition topSkus (s : Store) (now : time) (daysArg : Z)
    (category : string) : list TopSku :=
  firstn 20 (topSkusAll s now daysArg category).

(** ** Vocabulary *)

(** The pulled quantity of the lines of [dl] that [same] keeps. *)
Definition pulled (same : ReplanLine -> bool) (dl : list ReplanLine) : Z :=
  total pullQty (filter same dl).

Definition descending {A : Type} (qty : A -> Z) (a b : A) : Prop :=
  qty b <= qty a.

End Tops.

(* ================================================================== *)
(** * The size grammar and the shape of a line *)
(* ================================================================== *)

Module Grammar.
Import Js Parsing Rows.













End Grammar.

(* ================================================================== *)
(** * Requests *)
(* ================================================================== *)

Module Requests.
Import Js Data.

(** The execution handlers from the identifiers as the body of the
    request carries them: [String(req.body?.runId || "").trim()] and
    [String(req.body?.lineId || "").trim()]. *)
Definition replan_execute_request (s : Store) (now : time)
    (runId lineId : string) : Replan.Reply * Store :=
  Replan.replan_execute s now (trim runId) (trim lineId).

Definition replan_executeAll_request (s : Store) (now : time)
    (runId : string) : (Error + Replan.Bulk) * Store :=
  Replan.replan_executeAll s now (trim runId).

Definition newcollection_execute_request (s : Store) (now : time)
    (lineId : string) : NewC.Reply * Store :=
  NewC.newcollection_execute s now (trim lineId).

(** ** Vocabulary *)

(** An ASCII character that is not white space, and a text of such
    characters. *)
Definition solidChar (c : ascii) : bool :=
  (negb (isWs1 c) && (code c <? 128)%nat)%bool.

Definition solid (s : string) : bool :=
  forallb solidChar (list_ascii_of_string s).

(** The identifier is what a request can carry: trimming leaves it as it
    is. *)
Definition trimmed (s : string) : bool := String.eqb (trim s) s.



End Requests.

(* ================================================================== *)
(** * Executions in a row *)
(* ================================================================== *)

Module Sequence.
Import Js Data Requests.

(** The single executions of the lines [ls] of the run, one request after
    the other, each carrying the identifier [runId] and the identifier of
    its line; and likewise for the lines of the batch. *)
Definition executeEach (now : time) (runId : string) (ls : list ReplanLine)
    (s : Store) : Store :=
  fold_left
    (fun st l => snd (replan_execute_request st now runId (lineId l))) ls s.

Definition executeEachNew (now : time) (ls : list NewLine) (s : Store)
    : Store :=
  fold_left
    (fun st x => snd (newcollection_execute_request st now (nc_lineId x)))
    ls s.

(** ** Vocabulary *)

(** The store [s] with the ledger [its] and, for the run [rid], the lines
    [ls]; and with the ledger [its] and the batch lines [ls]. *)
Definition withRun (s : Store) (rid : string) (its : obj StockItem)
    (ls : list ReplanLine) : Store :=
  Replan.with_runs
    (with_stock s (with_items (stock s) its))
    (update_first (Replan.isRun rid) (fun r => Replan.with_lines r ls)
                  (runs s)).

Definition withBatch (s : Store) (its : obj StockItem) (ls : list NewLine)
    : Store :=
  NewC.with_newCollection
    (with_stock s (with_items (stock s) its))
    (NewC.with_lines (newCollection s) ls).

End Sequence.

(* ================================================================== *)
(** * Facts on objects, arrays and sorting *)
(* ================================================================== *)

Module JsFacts.
Import Js Props.

Section Obj.
Context {V : Type}.
Implicit Types (o : obj V) (k : string) (v : V).

Lemma obj_get_set_eq o k v : obj_get (obj_set o k v) k = Some v.
Proof.
  induction o as [|[k' v'] o IH]; simpl.
  - now rewrite String.eqb_refl.
  - destruct (String.eqb k' k) eqn:E; simpl; rewrite E; auto.
Qed.

Lemma obj_get_set_ne o k k' v :
  k <> k' -> obj_get (obj_set o k v) k' = obj_get o k'.
Proof.
  intros Hne. induction o as [|[k0 v0] o IH]; simpl.
  - apply String.eqb_neq in Hne. now rewrite Hne.
  - destruct (String.eqb k0 k) eqn:E; simpl.
    + apply String.eqb_eq in E. subst k0.
      apply String.eqb_neq in Hne. now rewrite Hne.
    + now rewrite IH.
Qed.

Lemma obj_get_set o k k' v :
  obj_get (obj_set o k v) k'
  = if String.eqb k k' then Some v else obj_get o k'.
Proof.
  destruct (String.eqb_spec k k') as [->|Hne].
  - apply obj_get_set_eq.
  - now apply obj_get_set_ne.
Qed.

Lemma obj_get_In o k v : obj_get o k = Some v -> In (k, v) o.
Proof.
  induction o as [|[k' v'] o IH]; simpl; [discriminate|].
  destruct (String.eqb_spec k' k) as [->|Hne]; intros H.
  - injection H as ->. now left.
  - right. auto.
Qed.

Lemma obj_get_None o k : obj_get o k = None <-> ~ In k (obj_keys o).
Proof.
  induction o as [|[k' v'] o IH]; simpl.
  - tauto.
  - destruct (String.eqb_spec k' k) as [->|Hne].
    + split; [discriminate | intros H; exfalso; apply H; now left].
    + rewrite IH. tauto.
Qed.

Lemma obj_get_keys o k : In k (obj_keys o) <-> exists v, obj_get o k = Some v.
Proof.
  destruct (obj_get o k) as [v|] eqn:E.
  - split; [eauto|]. intros _. apply obj_get_In in E.
    change k with (fst (k, v)). now apply in_map.
  - apply obj_get_None in E. split; [tauto | intros [v Hv]; discriminate].
Qed.

Lemma In_obj_get o k v :
  NoDup (obj_keys o) -> In (k, v) o -> obj_get o k = Some v.
Proof.
  induction o as [|[k' v'] o IH]; simpl; [tauto|].
  intros Hnd [Heq|Hin].
  - injection Heq as -> ->. now rewrite String.eqb_refl.
  - inversion Hnd as [|? ? Hnotin Hnd']; subst.
    destruct (String.eqb_spec k' k) as [->|Hne].
    + exfalso. apply Hnotin. change k with (fst (k, v)). now apply in_map.
    + auto.
Qed.

Lemma obj_keys_set o k v :
  forall k', In k' (obj_keys (obj_set o k v)) <-> k' = k \/ In k' (obj_keys o).
Proof.
  intros k'. rewrite !obj_get_keys, obj_get_set.
  destruct (String.eqb_spec k k') as [->|Hne].
  - split; [auto | eauto].
  - split; [intros H; now right | intros [->|H]; [congruence | exact H]].
Qed.

Lemma obj_set_NoDup o k v : NoDup (obj_keys o) -> NoDup (obj_keys (obj_set o k v)).
Proof.
  induction o as [|[k' v'] o IH]; simpl; intros Hnd.
  - constructor; [simpl; tauto | constructor].
  - destruct (String.eqb_spec k' k) as [->|Hne]; simpl; [exact Hnd|].
    inversion Hnd as [|? ? Hnotin Hnd']; subst.
    constructor; [|auto].
    change (~ In k' (obj_keys (obj_set o k v))).
    rewrite obj_keys_set. intros [->|H]; [congruence | tauto].
Qed.

(** The entries of an object after an assignment. *)
Lemma In_obj_set o k v k' v' :
  In (k', v') (obj_set o k v) -> In (k', v') o \/ (k' = k /\ v' = v).
Proof.
  induction o as [|[k0 v0] o IH]; simpl.
  - intros [[= <- <-]|[]]. auto.
  - destruct (String.eqb_spec k0 k) as [->|Hne]; simpl.
    + intros [[= <- <-]|H]; auto.
    + intros [H|H]; [auto|]. destruct (IH H); auto.
Qed.

(** An object built by assignments from the empty object has each key
    once. *)
Lemma fold_set_NoDup {A : Type} (key : obj V -> A -> string)
    (val : obj V -> A -> V) (l : list A) o :
  NoDup (obj_keys o) ->
  NoDup (obj_keys (fold_left (fun m a => obj_set m (key m a) (val m a)) l o)).
Proof.
  revert o. induction l as [|a l IH]; simpl; intros o Hnd; [exact Hnd|].
  apply IH. now apply obj_set_NoDup.
Qed.

End Obj.

Section Arrays.
Context {A : Type}.
Implicit Types (p : A -> bool) (f : A -> A) (l : list A).

Lemma find_update_first p f l x :
  find p l = Some x -> (forall y, p y = true -> p (f y) = true) ->
  find p (update_first p f l) = Some (f x).
Proof.
  intros Hfind Hp. induction l as [|y l IH]; simpl in *; [discriminate|].
  destruct (p y) eqn:E.
  - injection Hfind as ->. simpl. now rewrite (Hp _ E).
  - simpl. rewrite E. auto.
Qed.

Lemma update_first_none p f l : find p l = None -> update_first p f l = l.
Proof.
  induction l as [|y l IH]; simpl; [reflexivity|].
  destruct (p y); [discriminate|]. intros H. now rewrite IH.
Qed.

Lemma update_first_length p f l : List.length (update_first p f l) = List.length l.
Proof.
  induction l as [|y l IH]; simpl; [reflexivity|].
  destruct (p y); simpl; congruence.
Qed.

(** Every element of the updated array is an old element or the image of
    the element found. *)
Lemma In_update_first p f l x y :
  find p l = Some x -> In y (update_first p f l) -> y = f x \/ In y l.
Proof.
  induction l as [|z l IH]; simpl; [discriminate|].
  destruct (p z) eqn:E.
  - intros [= ->] [<-|H]; auto.
  - intros Hf [<-|H]; [auto|]. destruct (IH Hf H); auto.
Qed.

End Arrays.

Section Sorting.
Context {A : Type} (cmp : A -> A -> Z).

Lemma insertBy_perm x l : Permutation (insertBy cmp x l) (x :: l).
Proof.
  induction l as [|y l IH]; simpl; [reflexivity|].
  destruct (cmp x y <=? 0); [reflexivity|].
  rewrite IH. apply perm_swap.
Qed.

Lemma sortBy_perm l : Permutation (sortBy cmp l) l.
Proof.
  induction l as [|x l IH]; simpl; [reflexivity|].
  rewrite insertBy_perm. now constructor.
Qed.

Lemma sortBy_In l x : In x (sortBy cmp l) <-> In x l.
Proof.
  split; apply Permutation_in; [|symmetry]; apply sortBy_perm.
Qed.

(** A comparator is consistent when it is total and transitive as an
    order. *)
Hypothesis cmp_total : forall a b, 0 < cmp a b -> cmp b a <= 0.
Hypothesis cmp_trans : forall a b c, cmp a b <= 0 -> cmp b c <= 0 -> cmp a c <= 0.

Lemma insertBy_sorted x l :
  StronglySorted (before cmp) l -> StronglySorted (before cmp) (insertBy cmp x l).
Proof.
  induction l as [|y l IH]; simpl; intros Hs.
  - repeat constructor.
  - inversion Hs as [|? ? Hs' Hall]; subst.
    destruct (cmp x y <=? 0) eqn:E.
    + apply Z.leb_le in E. constructor; [exact Hs|].
      constructor; [exact E|].
      eapply Forall_impl; [|exact Hall]. intros z Hz.
      unfold before in *. eauto.
    + apply Z.leb_gt in E. constructor; [auto|].
      eapply Permutation_Forall; [symmetry; apply insertBy_perm|].
      constructor; [unfold before; auto | exact Hall].
Qed.

Lemma sortBy_sorted l : StronglySorted (before cmp) (sortBy cmp l).
Proof.
  induction l as [|x l IH]; simpl; [constructor|].
  now apply insertBy_sorted.
Qed.

End Sorting.

(** A loop that pushes at most one element per key of an object pushes no
    key twice. *)
Lemma flat_map_NoDup {A B K : Type} (f : A -> list B) (ka : A -> K)
    (kb : B -> K) (l : list A) :
  (forall a, f a = [] \/ exists b, f a = [b] /\ kb b = ka a) ->
  NoDup (map ka l) -> NoDup (map kb (flat_map f l)).
Proof.
  intros Hf. induction l as [|a l IH]; simpl; intros Hnd; [constructor|].
  inversion Hnd as [|? ? Hnotin Hnd']; subst.
  destruct (Hf a) as [->|(b & -> & Hk)]; simpl; [auto|].
  constructor; [|auto].
  rewrite Hk. intros Hin. apply Hnotin.
  apply in_map_iff in Hin. destruct Hin as (b' & Hkb & Hin').
  apply in_flat_map in Hin'. destruct Hin' as (a' & Ha' & Hb').
  destruct (Hf a') as [E|(b'' & E & Hk')]; rewrite E in Hb'; [destruct Hb'|].
  destruct Hb' as [<-|[]]. rewrite <- Hkb, Hk'. now apply in_map.
Qed.

Lemma nonEmpty_false s : nonEmpty s = false <-> s = "".
Proof. destruct s; simpl; split; congruence. Qed.

Lemma filter_passes cf cat :
  (nonEmpty cf && negb (String.eqb cat cf))%bool = false <-> passes cf cat.
Proof.
  unfold passes. destruct cf as [|c cf]; simpl.
  - split; auto.
  - destruct (String.eqb_spec cat (String c cf)); simpl; split; auto.
    + congruence.
    + intros [H|H]; congruence.
Qed.

Lemma StronglySorted_impl {A : Type} (R R' : A -> A -> Prop) l :
  (forall a b, R a b -> R' a b) -> StronglySorted R l -> StronglySorted R' l.
Proof.
  intros H. induction 1 as [|a l Hs IH Hall]; constructor; auto.
  eapply Forall_impl; [|exact Hall]. auto.
Qed.

(** The order of [String.compare] is transitive. *)
Lemma ascii_compare_N a b : Ascii.compare a b = N.compare (N_of_ascii a) (N_of_ascii b).
Proof. reflexivity. Qed.

Lemma string_compare_le_trans a : forall b c,
  String.compare a b <> Gt -> String.compare b c <> Gt ->
  String.compare a c <> Gt.
Proof.
  induction a as [|x a IH]; intros [|y b] [|z c]; simpl; try congruence.
  rewrite !ascii_compare_N.
  destruct (N.compare_spec (N_of_ascii x) (N_of_ascii y)) as [Exy|Lxy|Gxy];
  destruct (N.compare_spec (N_of_ascii y) (N_of_ascii z)) as [Eyz|Lyz|Gyz];
  destruct (N.compare_spec (N_of_ascii x) (N_of_ascii z)) as [Exz|Lxz|Gxz];
  try congruence; try lia; eauto.
Qed.

End JsFacts.

(* ================================================================== *)
(** * The line parser *)
(* ================================================================== *)

Module ParsingFacts.
Import Js Parsing.


Lemma parseTextLine_no_group text sku :
  skuMatch text = Some sku ->
  parenGroups None text = [] ->
  parseTextLine text = {| p_sku := sku; p_color := ""; p_size := "" |}.
Proof.
  intros Hsku Hpar. unfold parseTextLine. now rewrite Hsku, Hpar.
Qed.

Lemma parseTextLine_no_sku text :
  skuMatch text = None ->
  parseTextLine text = {| p_sku := ""; p_color := ""; p_size := "" |}.
Proof. intros H. unfold parseTextLine. now rewrite H. Qed.

(** The parts kept are trimmed and non-empty. *)
Lemma partsOf_nonEmpty last p : In p (partsOf last) -> p <> "".
Proof.
  unfold partsOf. rewrite filter_In. intros [_ H] ->. discriminate.
Qed.

End ParsingFacts.

(* ================================================================== *)
(** * The limit policy *)
(* ================================================================== *)

Module LimitsFacts.
Import Js Limits.

Lemma clampPull_below balance min max :
  balance < min -> clampPull balance min max = 0.
Proof. intros H. unfold clampPull. apply Z.ltb_lt in H. now rewrite H. Qed.

Lemma clampPull_above balance min max :
  min <= balance -> clampPull balance min max = Z.min balance max.
Proof.
  intros H. unfold clampPull.
  destruct (balance <? min) eqn:E; [apply Z.ltb_lt in E; lia | reflexivity].
Qed.

Lemma clampPull_le balance min max :
  0 <= balance -> clampPull balance min max <= balance.
Proof. intros H. unfold clampPull. destruct (balance <? min); lia. Qed.

Example clamp_5_2_3 : clampPull 5 2 3 = 3.
Proof. reflexivity. Qed.

Example clamp_1_2_3 : clampPull 1 2 3 = 0.
Proof. reflexivity. Qed.

Example clamp_10_0_10000 : clampPull 10 0 10000 = 10.
Proof. reflexivity. Qed.

Lemma getSkuLimits_nonneg lim sku :
  0 <= fst (getSkuLimits lim sku) /\ 0 <= snd (getSkuLimits lim sku).
Proof. unfold getSkuLimits. simpl. lia. Qed.

(** A per-SKU record with both bounds decides alone. *)
Lemma getSkuLimits_override lim sku a b :
  obj_get (skus lim) sku = Some {| rec_min := Some a; rec_max := Some b |} ->
  getSkuLimits lim sku = (Z.max 0 (Qfloor a), Z.max 0 (Qfloor b)).
Proof. intros H. unfold getSkuLimits, skuRec. now rewrite H. Qed.

Lemma orOne_inject (a : Z) : a <> 0 -> orOne (Some (inject_Z a)) = inject_Z a.
Proof.
  intros H. unfold orOne.
  destruct (Qeq_bool (inject_Z a) (0 # 1)) eqn:E; [|reflexivity].
  apply Qeq_bool_iff in E. unfold Qeq, inject_Z in E. simpl in E. lia.
Qed.

(** Without a record, positive integer defaults are returned as they are
    configured. *)
Lemma getSkuLimits_default_positive lim sku a b :
  obj_get (skus lim) sku = None ->
  defaultMin lim = Some (inject_Z a) -> defaultMax lim = Some (inject_Z b) ->
  0 < a -> 0 < b ->
  getSkuLimits lim sku = (a, b).
Proof.
  intros Hs Ha Hb Hpa Hpb. unfold getSkuLimits, skuRec.
  rewrite Hs, Ha, Hb. simpl rec_min. simpl rec_max. cbv iota.
  rewrite !orOne_inject by lia. rewrite !Qfloor_Z. f_equal; lia.
Qed.

(** C5.  The defaults stored by the setter for the arguments 0 and 0 are
    0 and 0, no record exists for SKU 123, and the limits resolved for it
    are 1 and 1. *)
Theorem getSkuLimits_zero_default :
  let lim := setDefault limits_fallback (0 # 1) (0 # 1) in
  defaultMin lim = Some (inject_Z 0)
  /\ defaultMax lim = Some (inject_Z 0)
  /\ obj_get (skus lim) "123" = None
  /\ getSkuLimits lim "123" = (1, 1).
Proof. repeat split. Qed.

End LimitsFacts.

(* ================================================================== *)
(** * Replan generation *)
(* ================================================================== *)

Module GenerateFacts.
Import Js Data Props Replan JsFacts.

(** [salesMap] holds, for every key with a row, the sum of its rows. *)
Lemma fold_sales_get rows : forall m k,
  obj_get
    (fold_left
       (fun salesMap it =>
          let key := makeKey (r_sku it) (r_size it) (r_color it) in
          obj_set salesMap key (getOr0 salesMap key + r_qty it))
       rows m) k
  = match rowsOf rows k with
    | [] => obj_get m k
    | _ => Some (getOr0 m k + sumQty (rowsOf rows k))
    end.
Proof.
  induction rows as [|r rows IH]; intros m k; [reflexivity|].
  cbn [fold_left]. rewrite IH. clear IH.
  unfold rowsOf. cbn [filter].
  set (kr := makeKey (r_sku r) (r_size r) (r_color r)).
  fold (rowsOf rows k).
  destruct (String.eqb_spec kr k) as [->|Hne].
  - unfold getOr0. rewrite obj_get_set_eq.
    destruct (rowsOf rows k) as [|r' rs'] eqn:E;
      cbn [sumQty fold_right]; f_equal; lia.
  - unfold getOr0. now rewrite (obj_get_set_ne _ _ _ _ Hne).
Qed.

Lemma buildSalesMap_get sales k :
  obj_get (buildSalesMap sales) k
  = match rowsOf sales k with
    | [] => None
    | _ => Some (sumQty (rowsOf sales k))
    end.
Proof.
  unfold buildSalesMap. rewrite fold_sales_get.
  destruct (rowsOf sales k); [reflexivity|]. reflexivity.
Qed.

Lemma buildSalesMap_NoDup sales : NoDup (obj_keys (buildSalesMap sales)).
Proof.
  unfold buildSalesMap.
  apply (fold_set_NoDup
           (fun _ it => makeKey (r_sku it) (r_size it) (r_color it))
           (fun m it =>
              getOr0 m (makeKey (r_sku it) (r_size it) (r_color it))
              + r_qty it)).
  constructor.
Qed.

(** The entries of [salesMap] are the keys with a row, with their sums. *)
Lemma buildSalesMap_In sales k q :
  In (k, q) (buildSalesMap sales)
  <-> rowsOf sales k <> [] /\ q = sumQty (rowsOf sales k).
Proof.
  split.
  - intros Hin.
    apply (In_obj_get _ _ _ (buildSalesMap_NoDup sales)) in Hin.
    rewrite buildSalesMap_get in Hin.
    destruct (rowsOf sales k); [discriminate|].
    injection Hin as <-. split; [discriminate | reflexivity].
  - intros [Hne ->]. apply obj_get_In. rewrite buildSalesMap_get.
    destruct (rowsOf sales k); [congruence | reflexivity].
Qed.

(** What the loop pushes for one entry of [salesMap]. *)
Lemma lineFor_spec lim stockItems cf key q l :
  In l (lineFor lim stockItems cf (key, q))
  <-> exists st,
        0 < q
        /\ obj_get stockItems key = Some st
        /\ passes cf (st_category st)
        /\ 0 < st_qty st - q
        /\ 0 < pullQty (lineOf lim key q st)
        /\ l = lineOf lim key q st.
Proof.
  unfold lineFor, lineOf. cbn [pullQty].
  destruct (q <=? 0) eqn:Eq.
  { apply Z.leb_le in Eq. split; [intros []|]. intros (st & H & _). lia. }
  apply Z.leb_gt in Eq.
  destruct (obj_get stockItems key) as [st|].
  2:{ split; [intros []|]. intros (st & _ & H & _). discriminate. }
  destruct (nonEmpty cf && negb (String.eqb (st_category st) cf))%bool eqn:Ec.
  { split; [intros []|]. intros (st' & _ & [= <-] & Hp & _).
    apply filter_passes in Hp. congruence. }
  apply filter_passes in Ec.
  destruct (st_qty st - q <=? 0) eqn:Eb.
  { apply Z.leb_le in Eb. split; [intros []|].
    intros (st' & _ & [= <-] & _ & Hb & _). lia. }
  apply Z.leb_gt in Eb.
  destruct (Limits.getSkuLimits lim (st_sku st)) as [mn mx] eqn:El.
  cbn [fst snd].
  destruct (Limits.clampPull (st_qty st - q) mn mx <=? 0) eqn:Ep.
  { apply Z.leb_le in Ep. split; [intros []|].
    intros (st' & _ & [= <-] & _ & _ & Hp & _). rewrite El in Hp.
    cbn [fst snd] in Hp. lia. }
  apply Z.leb_gt in Ep. split.
  - intros [<-|[]]. exists st. rewrite El. cbn [fst snd]. repeat split; auto.
  - intros (st' & _ & [= <-] & _ & _ & _ & ->). rewrite El. now left.
Qed.

Lemma lineFor_shape lim stockItems cf e :
  lineFor lim stockItems cf e = []
  \/ exists l, lineFor lim stockItems cf e = [l] /\ lineId l = fst e.
Proof.
  destruct e as [key q]. unfold lineFor.
  destruct (q <=? 0); [now left|].
  destruct (obj_get stockItems key) as [st|]; [|now left].
  destruct (nonEmpty cf && negb (String.eqb (st_category st) cf))%bool;
    [now left|].
  destruct (st_qty st - q <=? 0); [now left|].
  destruct (Limits.getSkuLimits lim (st_sku st)) as [mn mx].
  destruct (Limits.clampPull (st_qty st - q) mn mx <=? 0); [now left|].
  right. eexists. split; reflexivity.
Qed.

(** The comparator of the lines is the order of the specification. *)
Lemma compareLines_order collate a b :
  before (compareLines collate) a b <-> lineOrder collate a b.
Proof.
  unfold before, compareLines, lineOrder.
  destruct (balance b - balance a =? 0) eqn:E.
  - apply Z.eqb_eq in E. split.
    + intros H. right. split; [lia | exact H].
    + intros [H|[_ H]]; [lia | exact H].
  - apply Z.eqb_neq in E. split; [intros H; left; lia|].
    intros [H|[H _]]; lia.
Qed.

Lemma lineOrder_trans collate a b c :
  collation collate ->
  lineOrder collate a b -> lineOrder collate b c -> lineOrder collate a c.
Proof.
  unfold lineOrder. intros [_ Htrans] [H1|[H1 L1]] [H2|[H2 L2]];
    try (left; lia).
  right. split; [lia|]. eapply Htrans; eauto.
Qed.

Lemma compareLines_total collate a b :
  collation collate ->
  0 < compareLines collate a b -> compareLines collate b a <= 0.
Proof.
  unfold compareLines. intros [Htotal _].
  destruct (balance b - balance a =? 0) eqn:E.
  - apply Z.eqb_eq in E.
    replace (balance a - balance b) with 0 by lia. simpl. apply Htotal.
  - apply Z.eqb_neq in E. intros H.
    destruct (balance a - balance b =? 0) eqn:E'.
    + apply Z.eqb_eq in E'. lia.
    + lia.
Qed.

Lemma generateLines_sorted collate s cf sales :
  collation collate ->
  StronglySorted (lineOrder collate) (generateLines collate s cf sales).
Proof.
  intros Hc. unfold generateLines.
  apply (StronglySorted_impl (before (compareLines collate))).
  - intros a b. apply compareLines_order.
  - apply sortBy_sorted.
    + intros a b. now apply compareLines_total.
    + intros a b c Hab Hbc. apply compareLines_order.
      eapply (lineOrder_trans collate _ _ _ Hc);
        apply compareLines_order; eassumption.
Qed.

(** The order of the code units is a collation. *)
Lemma codeUnitCompare_collation : collation codeUnitCompare.
Proof.
  unfold codeUnitCompare. split.
  - intros a b. rewrite (String.compare_antisym b a).
    destruct (String.compare a b); simpl; lia.
  - intros a b c Hab Hbc.
    assert (H : String.compare a c <> Gt).
    { apply (string_compare_le_trans a b c).
      - intros E. rewrite E in Hab. lia.
      - intros E. rewrite E in Hbc. lia. }
    destruct (String.compare a c); [lia | lia | congruence].
Qed.

Lemma generateLines_NoDup collate s cf sales :
  NoDup (map lineId (generateLines collate s cf sales)).
Proof.
  unfold generateLines.
  eapply Permutation_NoDup.
  - apply Permutation_map. symmetry. apply sortBy_perm.
  - apply (flat_map_NoDup _ fst).
    + apply lineFor_shape.
    + apply buildSalesMap_NoDup.
Qed.

(** The lines of a run: one for every key sold in a positive quantity,
    held in the ledger, let through by the filter, with a positive balance
    and a positive pull. *)
Lemma generateLines_In collate s cf sales l :
  In l (generateLines collate s cf sales)
  <-> exists key st,
        rowsOf sales key <> []
        /\ 0 < sumQty (rowsOf sales key)
        /\ obj_get (items (stock s)) key = Some st
        /\ passes cf (st_category st)
        /\ 0 < st_qty st - sumQty (rowsOf sales key)
        /\ 0 < pullQty (lineOf (limits s) key (sumQty (rowsOf sales key)) st)
        /\ l = lineOf (limits s) key (sumQty (rowsOf sales key)) st.
Proof.
  unfold generateLines. rewrite sortBy_In, in_flat_map. split.
  - intros ([key q] & Hin & Hl).
    apply buildSalesMap_In in Hin. destruct Hin as [Hne ->].
    apply lineFor_spec in Hl. destruct Hl as (st & H).
    exists key, st. tauto.
  - intros (key & st & Hne & H).
    exists (key, sumQty (rowsOf sales key)). split.
    + apply buildSalesMap_In. auto.
    + apply lineFor_spec. exists st. tauto.
Qed.

Lemma replan_generate_ok collate s now cf name sales :
  updatedAt (stock s) <> None -> items (stock s) <> [] ->
  replan_generate collate s now cf name sales
  = (inr {| runId := makeRunId now; createdAt := now;
            categoryFilter := if nonEmpty cf then cf else "All";
            salesFileName := name;
            lines := generateLines collate s cf sales |},
     with_runs s
       ({| runId := makeRunId now; createdAt := now;
           categoryFilter := if nonEmpty cf then cf else "All";
           salesFileName := name;
           lines := generateLines collate s cf sales |} :: runs s)).
Proof.
  intros Hu Hi. unfold replan_generate.
  destruct (updatedAt (stock s)); [|congruence].
  destruct (items (stock s)); [congruence|]. reflexivity.
Qed.

Lemma replan_generate_lines collate s now cf name sales run s' :
  replan_generate collate s now cf name sales = (inr run, s') ->
  lines run = generateLines collate s cf sales /\ s' = with_runs s (run :: runs s).
Proof.
  unfold replan_generate.
  destruct (updatedAt (stock s)); [|discriminate].
  destruct (items (stock s)); [discriminate|].
  intros [= <- <-]. split; reflexivity.
Qed.

End GenerateFacts.

(* ================================================================== *)
(** * Replan generation: the lines of a run *)
(* ================================================================== *)

Module GenerateTheorems.
Import Js Data Props Replan JsFacts GenerateFacts.

Example scenario_generate :
  fst (replan_generate codeUnitCompare Demo.stocked13 2000 "" "sales.xlsx" Demo.salesRows)
  = inr {| runId := "RUN-2000"; createdAt := 2000; categoryFilter := "All";
           salesFileName := "sales.xlsx"; lines := [Demo.plannedLine] |}.
Proof. vm_compute. reflexivity. Qed.

(** C1, amended.  On a loaded, non-empty ledger, generation returns a run
    that is put first in the history and whose lines are exactly, one
    each, those of the inventory keys that have sales rows with a positive
    summed quantity, are held in the ledger, pass the category filter when
    one is set, have balance = stockQty - salesQty > 0 and have
    pullQty = clamp(balance, min, max) > 0 under the limits resolved for
    the SKU; the lines are sorted by descending balance, ties by ascending
    SKU in the order that [localeCompare] gives in the default locale of
    the host, whatever that collation is (it is the lexicographic order of
    the code units on SKUs of ASCII digits, and not on all SKUs). *)
Theorem generate_lines_exactly collate s now cf name sales :
  updatedAt (stock s) <> None ->
  items (stock s) <> [] ->
  exists run,
    replan_generate collate s now cf name sales
    = (inr run, with_runs s (run :: runs s))
    /\ (forall l,
          In l (lines run)
          <-> exists key st,
                rowsOf sales key <> []
                /\ 0 < sumQty (rowsOf sales key)
                /\ obj_get (items (stock s)) key = Some st
                /\ passes cf (st_category st)
                /\ 0 < st_qty st - sumQty (rowsOf sales key)
                /\ 0 < Limits.clampPull
                         (st_qty st - sumQty (rowsOf sales key))
                         (fst (Limits.getSkuLimits (limits s) (st_sku st)))
                         (snd (Limits.getSkuLimits (limits s) (st_sku st)))
                /\ l = lineOf (limits s) key (sumQty (rowsOf sales key)) st)
    /\ NoDup (map lineId (lines run))
    /\ (collation collate -> StronglySorted (lineOrder collate) (lines run)).
Proof.
  intros Hu Hi. eexists. split; [apply replan_generate_ok; assumption|].
  cbn [lines]. split; [|split].
  - intros l. apply generateLines_In.
  - apply generateLines_NoDup.
  - apply generateLines_sorted.
Qed.

Lemma generate_lines_exactly_witness :
  updatedAt (stock Demo.stocked13) <> None
  /\ items (stock Demo.stocked13) <> []
  /\ exists run,
       replan_generate codeUnitCompare Demo.stocked13 2000 "" "sales.xlsx" Demo.salesRows
       = (inr run, with_runs Demo.stocked13 (run :: runs Demo.stocked13))
       /\ NoDup (map lineId (lines run))
       /\ StronglySorted (lineOrder codeUnitCompare) (lines run).
Proof.
  assert (Hu : updatedAt (stock Demo.stocked13) <> None) by discriminate.
  assert (Hi : items (stock Demo.stocked13) <> []) by discriminate.
  split; [exact Hu|]. split; [exact Hi|].
  destruct (generate_lines_exactly codeUnitCompare Demo.stocked13 2000 ""
              "sales.xlsx" Demo.salesRows Hu Hi)
    as (run & Hrun & _ & Hnd & Hs).
  exists run. split; [exact Hrun|]. split; [exact Hnd|].
  exact (Hs codeUnitCompare_collation).
Defined.

(** C1, as stated, fails: the key 1||M||Red has a sales row, is held in the
    ledger, passes the (unset) filter, has balance 10 and pull 1, and the
    run has no line. *)
Lemma generate_zero_sales_counterexample :
  exists run st,
    fst (replan_generate codeUnitCompare Demo.stocked 2000 "" "sales.csv" Demo.zeroSales)
    = inr run
    /\ rowsOf Demo.zeroSales "1||M||Red" <> []
    /\ obj_get (items (stock Demo.stocked)) "1||M||Red" = Some st
    /\ passes "" (st_category st)
    /\ st_qty st - sumQty (rowsOf Demo.zeroSales "1||M||Red") = 10
    /\ Limits.clampPull
         (st_qty st - sumQty (rowsOf Demo.zeroSales "1||M||Red"))
         (fst (Limits.getSkuLimits (limits Demo.stocked) (st_sku st)))
         (snd (Limits.getSkuLimits (limits Demo.stocked) (st_sku st))) = 1
    /\ lines run = [].
Proof.
  eexists. eexists.
  split; [vm_compute; reflexivity|].
  split; [discriminate|].
  split; [vm_compute; reflexivity|].
  split; [left; reflexivity|].
  split; [reflexivity|].
  split; reflexivity.
Qed.

(** C8.  Every line of a generated run has pullQty <= balance <= stockQty,
    as recorded on the line. *)
Theorem generated_line_bounds collate s now cf name sales run s' l :
  replan_generate collate s now cf name sales = (inr run, s') ->
  In l (lines run) ->
  pullQty l <= balance l /\ balance l <= stockQty l.
Proof.
  intros Hgen Hin.
  apply replan_generate_lines in Hgen. destruct Hgen as [Hl _].
  rewrite Hl in Hin. apply generateLines_In in Hin.
  destruct Hin as (key & st & _ & Hq & _ & _ & Hb & _ & ->).
  unfold lineOf. cbn [pullQty balance stockQty]. split.
  - apply LimitsFacts.clampPull_le. lia.
  - lia.
Qed.

Lemma generated_line_bounds_witness :
  replan_generate codeUnitCompare Demo.stocked13 2000 "" "sales.xlsx" Demo.salesRows
  = (inr {| runId := "RUN-2000"; createdAt := 2000; categoryFilter := "All";
            salesFileName := "sales.xlsx"; lines := [Demo.plannedLine] |},
     Demo.planned)
  /\ In Demo.plannedLine [Demo.plannedLine]
  /\ pullQty Demo.plannedLine <= balance Demo.plannedLine
  /\ balance Demo.plannedLine <= stockQty Demo.plannedLine.
Proof.
  assert (Hgen :
    replan_generate codeUnitCompare Demo.stocked13 2000 "" "sales.xlsx" Demo.salesRows
    = (inr {| runId := "RUN-2000"; createdAt := 2000;
              categoryFilter := "All"; salesFileName := "sales.xlsx";
              lines := [Demo.plannedLine] |}, Demo.planned))
    by (vm_compute; reflexivity).
  assert (Hin : In Demo.plannedLine [Demo.plannedLine]) by (left; reflexivity).
  split; [exact Hgen|]. split; [exact Hin|].
  exact (generated_line_bounds _ _ _ _ _ _ _ _ _ Hgen Hin).
Defined.

(** C10.  A key whose summed sales quantity is <= 0 gets no line in the
    run, whatever the ledger holds for it; every line of the run has
    salesQty > 0, the sum of the sales rows of its key, and so a balance
    strictly below stockQty. *)
Theorem generate_skips_unsold collate s now cf name sales run s' :
  replan_generate collate s now cf name sales = (inr run, s') ->
  (forall key,
      sumQty (rowsOf sales key) <= 0 ->
      forall l, In l (lines run) -> lineId l <> key)
  /\ (forall l,
        In l (lines run) ->
        salesQty l = sumQty (rowsOf sales (lineId l))
        /\ 0 < salesQty l
        /\ balance l < stockQty l).
Proof.
  intros Hgen.
  apply replan_generate_lines in Hgen. destruct Hgen as [Hl _].
  rewrite Hl. split.
  - intros key Hle l Hin Heq.
    apply generateLines_In in Hin.
    destruct Hin as (key' & st & _ & Hq & _ & _ & _ & _ & ->).
    cbn [lineOf lineId] in Heq. subst key'. lia.
  - intros l Hin. apply generateLines_In in Hin.
    destruct Hin as (key & st & _ & Hq & _ & _ & _ & _ & ->).
    unfold lineOf. cbn [salesQty lineId balance stockQty]. lia.
Qed.

Lemma generate_skips_unsold_witness :
  replan_generate codeUnitCompare Demo.stocked13 2000 "" "sales.xlsx" Demo.salesRows
  = (inr {| runId := "RUN-2000"; createdAt := 2000; categoryFilter := "All";
            salesFileName := "sales.xlsx"; lines := [Demo.plannedLine] |},
     Demo.planned)
  /\ obj_get (items (stock Demo.stocked13)) "2||L||Blue"
     = Some {| st_sku := "2"; st_size := "L"; st_color := "Blue";
               st_category := "Tops"; st_qty := 3 |}
  /\ sumQty (rowsOf Demo.salesRows "2||L||Blue") <= 0
  /\ forall l, In l [Demo.plannedLine] -> lineId l <> "2||L||Blue".
Proof.
  assert (Hgen :
    replan_generate codeUnitCompare Demo.stocked13 2000 "" "sales.xlsx" Demo.salesRows
    = (inr {| runId := "RUN-2000"; createdAt := 2000;
              categoryFilter := "All"; salesFileName := "sales.xlsx";
              lines := [Demo.plannedLine] |}, Demo.planned))
    by (vm_compute; reflexivity).
  assert (Hle : sumQty (rowsOf Demo.salesRows "2||L||Blue") <= 0)
    by (vm_compute; discriminate).
  split; [exact Hgen|]. split; [reflexivity|]. split; [exact Hle|].
  exact (proj1 (generate_skips_unsold _ _ _ _ _ _ _ _ Hgen) "2||L||Blue" Hle).
Defined.

End GenerateTheorems.

(* ================================================================== *)
(** * Execution of one line *)
(* ================================================================== *)

Module ExecuteFacts.
Import Js Data Props JsFacts.

(** Follows a handler down one of its tests. *)
Ltac branch :=
  match goal with
  | |- context [if ?b then _ else _] => destruct b eqn:?
  | |- context [match ?x with Some _ => _ | None => _ end] =>
      destruct x eqn:?
  end.

Lemma nonEmpty_true s : s <> "" -> nonEmpty s = true.
Proof. destruct s; simpl; congruence. Qed.

Lemma nonNegative_set items k st :
  nonNegative items -> 0 <= st_qty st -> nonNegative (obj_set items k st).
Proof.
  intros Hn Hq k' st' Hin.
  destruct (In_obj_set _ _ _ _ _ Hin) as [H|[_ ->]]; [eauto | exact Hq].
Qed.

(** ** Replan *)

Lemma replan_execute_found s now rid lid run line :
  rid <> "" -> lid <> "" ->
  find (Replan.isRun rid) (runs s) = Some run ->
  find (Replan.isLine lid) (lines run) = Some line ->
  Replan.replan_execute s now rid lid
  = if isDone (status line) then (Replan.AlreadyExecuted line, s) else
    match obj_get (items (stock s)) lid with
    | None => (Replan.Failed 400 ItemNotInStock, s)
    | Some st =>
        if st_qty st <? pullQty line
        then (Replan.Failed 400 (InsufficientStock (st_qty st) (pullQty line)), s)
        else (Replan.Executed (Replan.markDone now line)
                              (st_qty st - pullQty line),
              replanPulled s now rid lid st (pullQty line))
    end.
Proof.
  intros Hr Hl Hrun Hline. unfold Replan.replan_execute.
  rewrite (nonEmpty_true _ Hr), (nonEmpty_true _ Hl). cbn [negb orb].
  fold (Replan.isRun rid). rewrite Hrun. fold (Replan.isLine lid). rewrite Hline.
  reflexivity.
Qed.

Lemma replanPulled_line s now rid lid st need run line :
  find (Replan.isRun rid) (runs s) = Some run ->
  find (Replan.isLine lid) (lines run) = Some line ->
  exists run',
    find (Replan.isRun rid) (runs (replanPulled s now rid lid st need)) = Some run'
    /\ find (Replan.isLine lid) (lines run') = Some (Replan.markDone now line).
Proof.
  intros Hrun Hline. eexists. split.
  - unfold replanPulled. cbn [runs Replan.with_runs].
    apply (find_update_first _ _ _ _ Hrun). intros y Hy. exact Hy.
  - cbn [lines Replan.with_lines].
    apply (find_update_first _ _ _ _ Hline). intros y Hy. exact Hy.
Qed.


(** ** New collection *)

Lemma newcollection_execute_found s now lid line :
  lid <> "" ->
  find (NewC.isLine lid) (nc_items (newCollection s)) = Some line ->
  NewC.newcollection_execute s now lid
  = if isDone (nc_status line) then (NewC.AlreadyExecuted line, s) else
    match obj_get (items (stock s)) lid with
    | None => (NewC.Failed 400 ItemNotInStock, s)
    | Some st =>
        if st_qty st <? nc_qty line
        then (NewC.Failed 400 (InsufficientStock (st_qty st) (nc_qty line)), s)
        else (NewC.Executed (NewC.markDone now line) (st_qty st - nc_qty line),
              newPulled s now lid st (nc_qty line))
    end.
Proof.
  intros Hl Hline. unfold NewC.newcollection_execute.
  rewrite (nonEmpty_true _ Hl). cbn [negb].
  fold (NewC.isLine lid). rewrite Hline. reflexivity.
Qed.


End ExecuteFacts.

Module ExecuteTheorems.
Import Js Data Props JsFacts ExecuteFacts.

Example scenario_execute :
  fst (Replan.replan_execute Demo.planned 3000 "RUN-2000" "1||M||Red")
  = Replan.Executed (Replan.markDone 3000 Demo.plannedLine) 7
  /\ obj_get (items (stock Demo.pulled)) "1||M||Red"
     = Some {| st_sku := "1"; st_size := "M"; st_color := "Red";
               st_category := "Dresses"; st_qty := 7 |}.
Proof. split; vm_compute; reflexivity. Qed.



(** C3.  Executing a line that is Done, replan or new-collection, reports
    success and leaves the whole store, ledger and lines, as it was; so a
    second execution answers as the first and yields the same store. *)
Theorem execute_done_line :
  (forall s now now' rid lid run line,
      rid <> "" -> lid <> "" ->
      find (Replan.isRun rid) (runs s) = Some run ->
      find (Replan.isLine lid) (lines run) = Some line ->
      status line = Done ->
      Replan.replan_execute s now rid lid = (Replan.AlreadyExecuted line, s)
      /\ Replan.isOk (fst (Replan.replan_execute s now rid lid)) = true
      /\ Replan.replan_execute
           (snd (Replan.replan_execute s now rid lid)) now' rid lid
         = (Replan.AlreadyExecuted line, s))
  /\ (forall s now now' lid line,
      lid <> "" ->
      find (NewC.isLine lid) (nc_items (newCollection s)) = Some line ->
      nc_status line = Done ->
      NewC.newcollection_execute s now lid = (NewC.AlreadyExecuted line, s)
      /\ NewC.isOk (fst (NewC.newcollection_execute s now lid)) = true
      /\ NewC.newcollection_execute
           (snd (NewC.newcollection_execute s now lid)) now' lid
         = (NewC.AlreadyExecuted line, s)).
Proof.
  split.
  - intros s now now' rid lid run line Hr Hl Hrun Hline Hst.
    assert (H : forall t, Replan.replan_execute s t rid lid
                          = (Replan.AlreadyExecuted line, s)).
    { intros t. rewrite (replan_execute_found _ _ _ _ _ _ Hr Hl Hrun Hline).
      now rewrite Hst. }
    rewrite (H now). cbn [fst snd]. rewrite (H now'). auto.
  - intros s now now' lid line Hl Hline Hst.
    assert (H : forall t, NewC.newcollection_execute s t lid
                          = (NewC.AlreadyExecuted line, s)).
    { intros t. rewrite (newcollection_execute_found _ _ _ _ Hl Hline).
      now rewrite Hst. }
    rewrite (H now). cbn [fst snd]. rewrite (H now'). auto.
Qed.

Lemma execute_done_line_witness :
  find (Replan.isRun "RUN-2000") (runs Demo.pulled)
  = Some {| runId := "RUN-2000"; createdAt := 2000; categoryFilter := "All";
            salesFileName := "sales.xlsx";
            lines := [Replan.markDone 3000 Demo.plannedLine] |}
  /\ Replan.replan_execute Demo.pulled 4000 "RUN-2000" "1||M||Red"
     = (Replan.AlreadyExecuted (Replan.markDone 3000 Demo.plannedLine),
        Demo.pulled)
  /\ find (NewC.isLine "1||M||Red") (nc_items (newCollection Demo.shelved))
     = Some (NewC.markDone 3000 Demo.arrival)
  /\ NewC.newcollection_execute Demo.shelved 4000 "1||M||Red"
     = (NewC.AlreadyExecuted (NewC.markDone 3000 Demo.arrival), Demo.shelved).
Proof.
  assert (Hr : "RUN-2000" <> "") by discriminate.
  assert (Hl : "1||M||Red" <> "") by discriminate.
  split; [reflexivity|].
  split.
  { exact (proj1 (proj1 execute_done_line Demo.pulled 4000 5000 "RUN-2000"
                    "1||M||Red" _ (Replan.markDone 3000 Demo.plannedLine)
                    Hr Hl eq_refl eq_refl eq_refl)). }
  split; [reflexivity|].
  exact (proj1 (proj2 execute_done_line Demo.shelved 4000 5000 "1||M||Red"
                  (NewC.markDone 3000 Demo.arrival) Hl eq_refl eq_refl)).
Defined.

(** A line that was just executed is Done: executing it again changes
    nothing and reports success. *)
Lemma replan_execute_again s now now' rid lid run line st :
  rid <> "" -> lid <> "" ->
  find (Replan.isRun rid) (runs s) = Some run ->
  find (Replan.isLine lid) (lines run) = Some line ->
  status line = Pending ->
  obj_get (items (stock s)) lid = Some st ->
  pullQty line <= st_qty st ->
  let s1 := snd (Replan.replan_execute s now rid lid) in
  Replan.replan_execute s1 now' rid lid
  = (Replan.AlreadyExecuted (Replan.markDone now line), s1).
Proof.
  intros Hr Hl Hrun Hline Hst Hget Hle s1. subst s1.
  rewrite (replan_execute_found _ _ _ _ _ _ Hr Hl Hrun Hline), Hst, Hget.
  cbn [isDone].
  destruct (st_qty st <? pullQty line) eqn:Elt;
    [apply Z.ltb_lt in Elt; lia|]. cbn [snd].
  destruct (replanPulled_line s now rid lid st (pullQty line) run line
              Hrun Hline) as (run' & H1 & H2).
  rewrite (replan_execute_found _ _ _ _ _ _ Hr Hl H1 H2). reflexivity.
Qed.

End ExecuteTheorems.

(* ================================================================== *)
(** * Stock update: the snapshot and the new-collection batch *)
(* ================================================================== *)

Module StockFacts.
Import Js Data Props JsFacts Stock.

Lemma buildSnapshot_NoDup parsed : NoDup (obj_keys (buildSnapshot parsed)).
Proof.
  unfold buildSnapshot.
  apply (fold_set_NoDup
           (fun _ it => makeKey (r_sku it) (r_size it) (r_color it))
           (fun _ it =>
              {| st_sku := r_sku it; st_size := r_size it;
                 st_color := r_color it; st_category := r_category it;
                 st_qty := r_qty it |})).
  constructor.
Qed.

(** Every item of the snapshot carries the quantity of a row. *)
Lemma fold_snapshot_qty parsed : forall acc k st,
  In (k, st)
     (fold_left
        (fun newItems it =>
           obj_set newItems (makeKey (r_sku it) (r_size it) (r_color it))
             {| st_sku := r_sku it; st_size := r_size it;
                st_color := r_color it; st_category := r_category it;
                st_qty := r_qty it |})
        parsed acc) ->
  In (k, st) acc \/ exists r, In r parsed /\ st_qty st = r_qty r.
Proof.
  induction parsed as [|r parsed IH]; intros acc k st Hin; [now left|].
  cbn [fold_left] in Hin. apply IH in Hin.
  destruct Hin as [Hin|(r' & Hr' & Hq)].
  - apply In_obj_set in Hin. destruct Hin as [Hin|[_ ->]].
    + now left.
    + right. exists r. split; [now left | reflexivity].
  - right. exists r'. split; [now right | exact Hq].
Qed.

Lemma buildSnapshot_nonNegative parsed :
  (forall r, In r parsed -> 0 <= r_qty r) -> nonNegative (buildSnapshot parsed).
Proof.
  intros Hrows k st Hin. apply fold_snapshot_qty in Hin.
  destruct Hin as [[]|(r & Hr & ->)]. auto.
Qed.

Lemma baseLines_In newItems x :
  In x (baseLines newItems)
  <-> exists key st,
        obj_get newItems key = Some st /\ 1 <= st_qty st
        /\ x = pendingLine key st.
Proof.
  unfold baseLines. rewrite in_flat_map. split.
  - intros (key & _ & Hx).
    destruct (obj_get newItems key) as [st|] eqn:E; [|destruct Hx].
    destruct (1 <=? st_qty st) eqn:Eq; [|destruct Hx].
    destruct Hx as [<-|[]]. apply Z.leb_le in Eq. eauto.
  - intros (key & st & Hget & Hq & ->). exists key. split.
    + apply obj_get_keys. eauto.
    + rewrite Hget. apply Z.leb_le in Hq. rewrite Hq. now left.
Qed.

Lemma updateLines_In oldItems newItems x :
  In x (updateLines oldItems newItems)
  <-> exists key st,
        obj_get oldItems key = None
        /\ obj_get newItems key = Some st /\ 1 <= st_qty st
        /\ x = pendingLine key st.
Proof.
  unfold updateLines. rewrite in_flat_map. split.
  - intros (key & _ & Hx).
    destruct (obj_get oldItems key) as [old|] eqn:Eo; [destruct Hx|].
    destruct (obj_get newItems key) as [st|] eqn:E; [|destruct Hx].
    destruct (1 <=? st_qty st) eqn:Eq; [|destruct Hx].
    destruct Hx as [<-|[]]. apply Z.leb_le in Eq. eauto 6.
  - intros (key & st & Hold & Hget & Hq & ->). exists key. split.
    + apply obj_get_keys. eauto.
    + rewrite Hold, Hget. apply Z.leb_le in Hq. rewrite Hq. now left.
Qed.

Lemma baseLines_NoDup newItems :
  NoDup (obj_keys newItems) -> NoDup (map nc_lineId (baseLines newItems)).
Proof.
  intros Hnd. unfold baseLines.
  apply (flat_map_NoDup _ (fun k : string => k)); [|now rewrite map_id].
  intros key. destruct (obj_get newItems key) as [st|]; [|now left].
  destruct (1 <=? st_qty st); [|now left].
  right. eexists. split; reflexivity.
Qed.

Lemma updateLines_NoDup oldItems newItems :
  NoDup (obj_keys newItems) ->
  NoDup (map nc_lineId (updateLines oldItems newItems)).
Proof.
  intros Hnd. unfold updateLines.
  apply (flat_map_NoDup _ (fun k : string => k)); [|now rewrite map_id].
  intros key. destruct (obj_get oldItems key); [now left|].
  destruct (obj_get newItems key) as [st|]; [|now left].
  destruct (1 <=? st_qty st); [|now left].
  right. eexists. split; reflexivity.
Qed.

Lemma stock_update_base s now name parsed :
  items (stock s) = [] ->
  newCollection (snd (stock_update s now name parsed))
  = {| nc_createdAt := Some now; mode := Some BASE_PENDING_ALL;
       nc_items := baseLines (buildSnapshot parsed) |}.
Proof. intros H. unfold stock_update. rewrite H. reflexivity. Qed.

Lemma stock_update_new s now name parsed :
  items (stock s) <> [] ->
  newCollection (snd (stock_update s now name parsed))
  = {| nc_createdAt := Some now; mode := Some UPDATE_PENDING_NEW_ONLY;
       nc_items := updateLines (items (stock s)) (buildSnapshot parsed) |}.
Proof.
  intros H. unfold stock_update.
  destruct (items (stock s)); [congruence | reflexivity].
Qed.

Lemma stock_update_items s now name parsed :
  stock (snd (stock_update s now name parsed))
  = {| updatedAt := Some now; sourceFileName := Some name;
       items := buildSnapshot parsed |}.
Proof. reflexivity. Qed.

End StockFacts.

Module StockTheorems.
Import Js Data Props JsFacts Stock StockFacts.

(** Clearing, then a stock file with three in-stock keys: a base batch of
    three Pending lines; the same file with one more key: an update batch
    of one Pending line. *)
Example scenario_new_collection :
  let rows3 := Demo.stockRows' in
  let rows4 := (rows3 ++ [Demo.row "Tops" "4" "S" "Pink" 1])%list in
  let s1 := snd (stock_update (stock_clear Demo.pulled 500) 1000 "a.csv" rows3) in
  let s2 := snd (stock_update s1 2000 "b.csv" rows4) in
  mode (newCollection s1) = Some BASE_PENDING_ALL
  /\ map nc_lineId (nc_items (newCollection s1))
     = ["1||M||Red"; "2||L||Blue"; "3||S||Green"]
  /\ mode (newCollection s2) = Some UPDATE_PENDING_NEW_ONLY
  /\ nc_items (newCollection s2)
     = [ {| nc_lineId := "4||S||Pink"; nc_category := "Tops"; nc_sku := "4";
            nc_size := "S"; nc_color := "Pink"; nc_qty := 1;
            nc_status := Pending; nc_executedAt := None |} ].
Proof. repeat split. Qed.

(** C7.  A stock upload replaces the new-collection batch by one built
    from the new snapshot alone.  When the prior ledger was empty the mode
    is BaseAll and the lines are, one each, those of the keys of the new
    snapshot whose quantity is at least 1.  When the prior ledger was not
    empty the mode is UpdateNewOnly and the lines are, one each, those of
    the keys absent from the prior ledger whose new quantity is at least 1;
    a key the prior ledger held has no line.  Every line is Pending with
    quantity 1. *)
Theorem stock_update_batch s now name parsed :
  let s' := snd (stock_update s now name parsed) in
  let nc := newCollection s' in
  items (stock s') = buildSnapshot parsed
  /\ nc_createdAt nc = Some now
  /\ NoDup (map nc_lineId (nc_items nc))
  /\ (forall x, In x (nc_items nc) ->
        nc_status x = Pending /\ nc_qty x = 1 /\ nc_executedAt x = None)
  /\ (items (stock s) = [] ->
        mode nc = Some BASE_PENDING_ALL
        /\ forall x,
             In x (nc_items nc)
             <-> exists key st,
                   obj_get (items (stock s')) key = Some st
                   /\ 1 <= st_qty st
                   /\ x = pendingLine key st)
  /\ (items (stock s) <> [] ->
        mode nc = Some UPDATE_PENDING_NEW_ONLY
        /\ (forall x,
              In x (nc_items nc)
              <-> exists key st,
                    obj_get (items (stock s)) key = None
                    /\ obj_get (items (stock s')) key = Some st
                    /\ 1 <= st_qty st
                    /\ x = pendingLine key st)
        /\ (forall x key old,
              In x (nc_items nc) ->
              obj_get (items (stock s)) key = Some old ->
              nc_lineId x <> key)).
Proof.
  intros s' nc. subst s' nc.
  split; [reflexivity|].
  destruct (items (stock s)) as [|e old] eqn:Eold.
  - rewrite (stock_update_base _ _ _ _ Eold), stock_update_items.
    cbn [nc_createdAt nc_items mode items].
    split; [reflexivity|].
    split; [apply baseLines_NoDup, buildSnapshot_NoDup|].
    split.
    { intros x Hx. apply baseLines_In in Hx.
      destruct Hx as (key & st & _ & _ & ->). repeat split. }
    split; [|congruence].
    intros _. split; [reflexivity|]. intros x. apply baseLines_In.
  - assert (Hne : items (stock s) <> []) by congruence.
    rewrite (stock_update_new _ _ _ _ Hne), stock_update_items.
    cbn [nc_createdAt nc_items mode items]. rewrite Eold.
    split; [reflexivity|].
    split; [apply updateLines_NoDup, buildSnapshot_NoDup|].
    split.
    { intros x Hx. apply updateLines_In in Hx.
      destruct Hx as (key & st & _ & _ & _ & ->). repeat split. }
    split; [congruence|].
    intros _. split; [reflexivity|]. split.
    + intros x. apply updateLines_In.
    + intros x key o Hx Hold Heq. apply updateLines_In in Hx.
      destruct Hx as (key' & st & Habs & _ & _ & ->).
      cbn [nc_lineId pendingLine] in Heq. congruence.
Qed.

Lemma stock_update_batch_witness :
  items (stock emptyStore) = []
  /\ mode (newCollection
             (snd (stock_update emptyStore 1000 "stock.xlsx" Demo.stockRows)))
     = Some BASE_PENDING_ALL
  /\ items (stock Demo.stocked) <> []
  /\ mode (newCollection
             (snd (stock_update Demo.stocked 2000 "more.xlsx" Demo.stockRows')))
     = Some UPDATE_PENDING_NEW_ONLY.
Proof.
  assert (Hne : items (stock Demo.stocked) <> []) by discriminate.
  split; [reflexivity|].
  split.
  { exact (proj1 (proj1 (proj2 (proj2 (proj2 (proj2
             (stock_update_batch emptyStore 1000 "stock.xlsx" Demo.stockRows)))))
             eq_refl)). }
  split; [exact Hne|].
  exact (proj1 (proj2 (proj2 (proj2 (proj2 (proj2
           (stock_update_batch Demo.stocked 2000 "more.xlsx" Demo.stockRows')))))
           Hne)).
Defined.

End StockTheorems.

(* ================================================================== *)
(** * The ledger never goes negative through execution *)
(* ================================================================== *)

Module LedgerFacts.
Import Js Data Props JsFacts ExecuteFacts.

Lemma replan_execute_nonNegative s now rid lid :
  nonNegative (items (stock s)) ->
  nonNegative (items (stock (snd (Replan.replan_execute s now rid lid)))).
Proof.
  intros Hn. unfold Replan.replan_execute.
  destruct (negb (nonEmpty rid) || negb (nonEmpty lid))%bool; [exact Hn|].
  destruct (find (Replan.isRun rid) (runs s)) as [run|]; [|exact Hn].
  destruct (find (Replan.isLine lid) (lines run)) as [line|]; [|exact Hn].
  destruct (isDone (status line)); [exact Hn|].
  destruct (obj_get (items (stock s)) lid) as [st|]; [|exact Hn].
  destruct (st_qty st <? pullQty line) eqn:E; [exact Hn|].
  apply Z.ltb_ge in E. cbn [snd]. apply nonNegative_set; [exact Hn|].
  cbn [with_qty st_qty]. lia.
Qed.

Lemma newcollection_execute_nonNegative s now lid :
  nonNegative (items (stock s)) ->
  nonNegative (items (stock (snd (NewC.newcollection_execute s now lid)))).
Proof.
  intros Hn. unfold NewC.newcollection_execute.
  destruct (negb (nonEmpty lid)); [exact Hn|].
  destruct (find (NewC.isLine lid) (nc_items (newCollection s))) as [line|];
    [|exact Hn].
  destruct (isDone (nc_status line)); [exact Hn|].
  destruct (obj_get (items (stock s)) lid) as [st|]; [|exact Hn].
  destruct (st_qty st <? nc_qty line) eqn:E; [exact Hn|].
  apply Z.ltb_ge in E. cbn [snd]. apply nonNegative_set; [exact Hn|].
  cbn [with_qty st_qty]. lia.
Qed.

(** A turn of the bulk loop that pulls takes exactly the need from the
    key of the line, and not below zero; any other turn leaves the ledger
    and the line as they are. *)
Lemma replan_step_spec now items line items' line' turn :
  Replan.executeAll_step now items line = (items', line', turn) ->
  match turn with
  | Pulled =>
      exists st,
        status line = Pending
        /\ obj_get items (lineId line) = Some st
        /\ 0 < pullQty line <= st_qty st
        /\ items' = obj_set items (lineId line)
                            (with_qty st (st_qty st - pullQty line))
        /\ line' = Replan.markDone now line
  | _ => items' = items /\ line' = line
  end.
Proof.
  unfold Replan.executeAll_step.
  destruct (status line) eqn:Es; cbn [isDone];
    [|intros [= <- <- <-]; auto].
  destruct (obj_get items (lineId line)) as [st|];
    [|intros [= <- <- <-]; auto].
  destruct (pullQty line <=? 0) eqn:E0; [intros [= <- <- <-]; auto|].
  destruct (st_qty st <? pullQty line) eqn:E1; intros [= <- <- <-]; auto.
  apply Z.leb_gt in E0. apply Z.ltb_ge in E1.
  exists st. repeat split; auto; lia.
Qed.

Lemma newc_step_spec now items line items' line' turn :
  NewC.executeAll_step now items line = (items', line', turn) ->
  match turn with
  | Pulled =>
      exists st,
        nc_status line = Pending
        /\ obj_get items (nc_lineId line) = Some st
        /\ 0 < nc_qty line <= st_qty st
        /\ items' = obj_set items (nc_lineId line)
                            (with_qty st (st_qty st - nc_qty line))
        /\ line' = NewC.markDone now line
  | _ => items' = items /\ line' = line
  end.
Proof.
  unfold NewC.executeAll_step.
  destruct (nc_status line) eqn:Es; cbn [isDone];
    [|intros [= <- <- <-]; auto].
  destruct (obj_get items (nc_lineId line)) as [st|];
    [|intros [= <- <- <-]; auto].
  destruct (nc_qty line <=? 0) eqn:E0; [intros [= <- <- <-]; auto|].
  destruct (st_qty st <? nc_qty line) eqn:E1; intros [= <- <- <-]; auto.
  apply Z.leb_gt in E0. apply Z.ltb_ge in E1.
  exists st. repeat split; auto; lia.
Qed.

Lemma replan_step_nonNegative now items line items' line' turn :
  Replan.executeAll_step now items line = (items', line', turn) ->
  nonNegative items -> nonNegative items'.
Proof.
  intros Hstep Hn. apply replan_step_spec in Hstep.
  destruct turn; try (destruct Hstep as [-> _]; exact Hn).
  destruct Hstep as (st & _ & _ & Hq & -> & _).
  apply nonNegative_set; [exact Hn|]. cbn [with_qty st_qty]. lia.
Qed.

Lemma newc_step_nonNegative now items line items' line' turn :
  NewC.executeAll_step now items line = (items', line', turn) ->
  nonNegative items -> nonNegative items'.
Proof.
  intros Hstep Hn. apply newc_step_spec in Hstep.
  destruct turn; try (destruct Hstep as [-> _]; exact Hn).
  destruct Hstep as (st & _ & _ & Hq & -> & _).
  apply nonNegative_set; [exact Hn|]. cbn [with_qty st_qty]. lia.
Qed.

Lemma replan_loop_nonNegative now lines : forall items,
  nonNegative items ->
  nonNegative (Replan.b_items (Replan.executeAll_loop now items lines)).
Proof.
  induction lines as [|line rest IH]; intros items Hn; [exact Hn|].
  cbn [Replan.executeAll_loop].
  destruct (Replan.executeAll_step now items line) as [[items1 line1] turn]
    eqn:Estep.
  cbn [Replan.b_items]. apply IH.
  eapply replan_step_nonNegative; eassumption.
Qed.

Lemma newc_loop_nonNegative now lines : forall items,
  nonNegative items ->
  nonNegative (NewC.b_items (NewC.executeAll_loop now items lines)).
Proof.
  induction lines as [|line rest IH]; intros items Hn; [exact Hn|].
  cbn [NewC.executeAll_loop].
  destruct (NewC.executeAll_step now items line) as [[items1 line1] turn]
    eqn:Estep.
  cbn [NewC.b_items]. apply IH.
  eapply newc_step_nonNegative; eassumption.
Qed.

Lemma replan_executeAll_nonNegative s now rid :
  nonNegative (items (stock s)) ->
  nonNegative (items (stock (snd (Replan.replan_executeAll s now rid)))).
Proof.
  intros Hn. unfold Replan.replan_executeAll.
  destruct (negb (nonEmpty rid)); [exact Hn|].
  destruct (find (Replan.isRun rid) (runs s)) as [run|]; [|exact Hn].
  cbn [snd]. now apply replan_loop_nonNegative.
Qed.

Lemma newcollection_executeAll_nonNegative s now :
  nonNegative (items (stock s)) ->
  nonNegative (items (stock (snd (NewC.newcollection_executeAll s now)))).
Proof. intros Hn. now apply newc_loop_nonNegative. Qed.

(** A successful single execution takes exactly the need. *)
Lemma replan_execute_decrement s now rid lid line q :
  fst (Replan.replan_execute s now rid lid) = Replan.Executed line q ->
  exists st,
    obj_get (items (stock s)) lid = Some st
    /\ q = st_qty st - pullQty line
    /\ 0 <= q
    /\ obj_get (items (stock (snd (Replan.replan_execute s now rid lid)))) lid
       = Some (with_qty st q).
Proof.
  unfold Replan.replan_execute.
  destruct (negb (nonEmpty rid) || negb (nonEmpty lid))%bool; [discriminate|].
  destruct (find (Replan.isRun rid) (runs s)) as [run|]; [|discriminate].
  destruct (find (Replan.isLine lid) (lines run)) as [line0|]; [|discriminate].
  destruct (isDone (status line0)); [discriminate|].
  destruct (obj_get (items (stock s)) lid) as [st|]; [|discriminate].
  destruct (st_qty st <? pullQty line0) eqn:E; [discriminate|].
  apply Z.ltb_ge in E. cbn [fst snd]. intros [= <- <-].
  exists st. cbn [Replan.markDone pullQty].
  repeat split; [lia|]. apply obj_get_set_eq.
Qed.

Lemma newcollection_execute_decrement s now lid line q :
  fst (NewC.newcollection_execute s now lid) = NewC.Executed line q ->
  exists st,
    obj_get (items (stock s)) lid = Some st
    /\ q = st_qty st - nc_qty line
    /\ 0 <= q
    /\ obj_get (items (stock (snd (NewC.newcollection_execute s now lid)))) lid
       = Some (with_qty st q).
Proof.
  unfold NewC.newcollection_execute.
  destruct (negb (nonEmpty lid)); [discriminate|].
  destruct (find (NewC.isLine lid) (nc_items (newCollection s))) as [line0|];
    [|discriminate].
  destruct (isDone (nc_status line0)); [discriminate|].
  destruct (obj_get (items (stock s)) lid) as [st|]; [|discriminate].
  destruct (st_qty st <? nc_qty line0) eqn:E; [discriminate|].
  apply Z.ltb_ge in E. cbn [fst snd]. intros [= <- <-].
  exists st. cbn [NewC.markDone nc_qty].
  repeat split; [lia|]. apply obj_get_set_eq.
Qed.

End LedgerFacts.

Module LedgerTheorems.
Import Js Data Props JsFacts ExecuteFacts LedgerFacts.

(** C4, as stated, fails: after the upload of a stock file whose row for
    1||M||Red carries the quantity -5, the ledger holds that key with a
    negative quantity. *)
Lemma stock_update_negative_counterexample :
  exists st,
    obj_get
      (items (stock (snd (Stock.stock_update emptyStore 1000 "stock.csv"
                            Demo.badRows))))
      "1||M||Red" = Some st
    /\ st_qty st < 0.
Proof. eexists. split; [reflexivity|]. reflexivity. Qed.

(** C4, amended.  Execution never takes a quantity below zero: when every
    item of the ledger has qty >= 0, so has every item after a single-line
    execution and after a bulk execution, replan or new-collection, and
    every pull, single or a turn of the bulk loop, replaces the quantity
    of the key of the line by that quantity minus the need of the line,
    which is not negative.  A snapshot replace stores the uploaded
    quantities: every item has qty >= 0 after it when every aggregated row
    of the upload has. *)
Theorem ledger_never_negative :
  (forall s now name parsed,
      (forall r, In r parsed -> 0 <= r_qty r) ->
      nonNegative (items (stock (snd (Stock.stock_update s now name parsed)))))
  /\ (forall s now rid lid,
        nonNegative (items (stock s)) ->
        nonNegative
          (items (stock (snd (Replan.replan_execute s now rid lid)))))
  /\ (forall s now lid,
        nonNegative (items (stock s)) ->
        nonNegative
          (items (stock (snd (NewC.newcollection_execute s now lid)))))
  /\ (forall s now rid,
        nonNegative (items (stock s)) ->
        nonNegative
          (items (stock (snd (Replan.replan_executeAll s now rid)))))
  /\ (forall s now,
        nonNegative (items (stock s)) ->
        nonNegative
          (items (stock (snd (NewC.newcollection_executeAll s now)))))
  /\ (forall s now rid lid line q,
        fst (Replan.replan_execute s now rid lid) = Replan.Executed line q ->
        exists st,
          obj_get (items (stock s)) lid = Some st
          /\ q = st_qty st - pullQty line
          /\ 0 <= q
          /\ obj_get
               (items (stock (snd (Replan.replan_execute s now rid lid)))) lid
             = Some {| st_sku := st_sku st; st_size := st_size st;
                       st_color := st_color st;
                       st_category := st_category st;
                       st_qty := q |})
  /\ (forall s now lid line q,
        fst (NewC.newcollection_execute s now lid) = NewC.Executed line q ->
        exists st,
          obj_get (items (stock s)) lid = Some st
          /\ q = st_qty st - nc_qty line
          /\ 0 <= q
          /\ obj_get
               (items (stock (snd (NewC.newcollection_execute s now lid)))) lid
             = Some {| st_sku := st_sku st; st_size := st_size st;
                       st_color := st_color st;
                       st_category := st_category st;
                       st_qty := q |})
  /\ (forall now items line items' line',
        Replan.executeAll_step now items line = (items', line', Pulled) ->
        exists st,
          obj_get items (lineId line) = Some st
          /\ 0 <= st_qty st - pullQty line
          /\ obj_get items' (lineId line)
             = Some {| st_sku := st_sku st; st_size := st_size st;
                       st_color := st_color st;
                       st_category := st_category st;
                       st_qty := st_qty st - pullQty line |})
  /\ (forall now items line items' line',
        NewC.executeAll_step now items line = (items', line', Pulled) ->
        exists st,
          obj_get items (nc_lineId line) = Some st
          /\ 0 <= st_qty st - nc_qty line
          /\ obj_get items' (nc_lineId line)
             = Some {| st_sku := st_sku st; st_size := st_size st;
                       st_color := st_color st;
                       st_category := st_category st;
                       st_qty := st_qty st - nc_qty line |}).
Proof.
  split.
  { intros s now name parsed Hrows. rewrite StockFacts.stock_update_items.
    now apply StockFacts.buildSnapshot_nonNegative. }
  split; [exact replan_execute_nonNegative|].
  split; [exact newcollection_execute_nonNegative|].
  split; [exact replan_executeAll_nonNegative|].
  split; [exact newcollection_executeAll_nonNegative|].
  split; [exact replan_execute_decrement|].
  split; [exact newcollection_execute_decrement|].
  split.
  - intros now items line items' line' Hstep.
    apply replan_step_spec in Hstep.
    destruct Hstep as (st & _ & Hget & Hq & -> & _).
    exists st. split; [exact Hget|]. split; [lia|]. apply obj_get_set_eq.
  - intros now items line items' line' Hstep.
    apply newc_step_spec in Hstep.
    destruct Hstep as (st & _ & Hget & Hq & -> & _).
    exists st. split; [exact Hget|]. split; [lia|]. apply obj_get_set_eq.
Qed.

Lemma demo_nonNegative : nonNegative (items (stock Demo.planned)).
Proof.
  intros k st [[= <- <-]|[[= <- <-]|[]]]; cbn; lia.
Qed.

Lemma ledger_never_negative_witness :
  nonNegative (items (stock Demo.planned))
  /\ nonNegative
       (items (stock (snd (Replan.replan_execute Demo.planned 3000
                             "RUN-2000" "1||M||Red"))))
  /\ nonNegative
       (items (stock (snd (Replan.replan_executeAll Demo.planned 3000
                             "RUN-2000"))))
  /\ fst (Replan.replan_execute Demo.planned 3000 "RUN-2000" "1||M||Red")
     = Replan.Executed (Replan.markDone 3000 Demo.plannedLine) 7
  /\ exists st,
       obj_get (items (stock Demo.planned)) "1||M||Red" = Some st
       /\ 7 = st_qty st - pullQty (Replan.markDone 3000 Demo.plannedLine)
       /\ 0 <= 7
       /\ obj_get (items (stock Demo.pulled)) "1||M||Red"
          = Some (with_qty st 7).
Proof.
  split; [exact demo_nonNegative|].
  split.
  { exact (proj1 (proj2 ledger_never_negative) Demo.planned 3000 "RUN-2000"
             "1||M||Red" demo_nonNegative). }
  split.
  { exact (proj1 (proj2 (proj2 (proj2 ledger_never_negative))) Demo.planned
             3000 "RUN-2000" demo_nonNegative). }
  split; [reflexivity|].
  exact (proj1 (proj2 (proj2 (proj2 (proj2 (proj2 ledger_never_negative)))))
           Demo.planned 3000 "RUN-2000" "1||M||Red" _ 7 eq_refl).
Defined.

End LedgerTheorems.

(* ================================================================== *)
(** * Dashboard: the stale list *)
(* ================================================================== *)

Module DashboardFacts.
Import Js Data Props JsFacts Dashboard.

Lemma getOr0_set m k v k' :
  getOr0 (obj_set m k v) k' = if String.eqb k k' then v else getOr0 m k'.
Proof.
  unfold getOr0. rewrite obj_get_set. now destruct (String.eqb k k').
Qed.

(** ** [lastBySku] holds the latest time of every key *)

Lemma noteLine_get category m l key :
  getOr0 (noteLine category m l) key
  = fold_left Z.max (doneTime category key l) (getOr0 m key).
Proof.
  unfold noteLine, doneTime.
  destruct (status l); [reflexivity|].
  destruct (executedAt l) as [t|]; [|reflexivity].
  destruct (negb (nonEmpty category) || String.eqb (Data.category l) category)%bool;
    [|reflexivity].
  cbn [andb]. rewrite getOr0_set.
  destruct (String.eqb_spec
              (skuKey (Data.category l) (sku l) (size l) (color l)) key)
    as [->|Hne]; reflexivity.
Qed.

Lemma noteLines_get category ls : forall m key,
  getOr0 (fold_left (noteLine category) ls m) key
  = fold_left Z.max (flat_map (doneTime category key) ls) (getOr0 m key).
Proof.
  induction ls as [|l ls IH]; intros m key; [reflexivity|].
  cbn [fold_left flat_map]. rewrite IH, fold_left_app, noteLine_get.
  reflexivity.
Qed.

Lemma noteRuns_get category rs : forall m key,
  getOr0
    (fold_left (fun m run => fold_left (noteLine category) (lines run) m) rs m)
    key
  = fold_left Z.max (doneTimes category key rs) (getOr0 m key).
Proof.
  induction rs as [|run rs IH]; intros m key; [reflexivity|].
  cbn [fold_left]. unfold doneTimes. cbn [flat_map].
  rewrite IH, fold_left_app, noteLines_get. reflexivity.
Qed.

Lemma buildLastBySku_get category rs key :
  getOr0 (buildLastBySku category rs) key
  = latest (doneTimes category key rs).
Proof. unfold buildLastBySku, latest. now rewrite noteRuns_get. Qed.

(** ** The latest of a list of times *)

Lemma fold_max_ge ts : forall a, a <= fold_left Z.max ts a.
Proof.
  induction ts as [|t ts IH]; intros a; cbn; [lia|].
  specialize (IH (Z.max a t)). lia.
Qed.

Lemma fold_max_upper ts : forall a t, In t ts -> t <= fold_left Z.max ts a.
Proof.
  induction ts as [|t0 ts IH]; intros a t; cbn; [tauto|].
  intros [->|Hin]; [|auto].
  pose proof (fold_max_ge ts (Z.max a t)). lia.
Qed.

Lemma fold_max_In ts : forall a,
  fold_left Z.max ts a = a \/ In (fold_left Z.max ts a) ts.
Proof.
  induction ts as [|t ts IH]; intros a; cbn; [now left|].
  destruct (IH (Z.max a t)) as [H|H]; [|now right; right].
  rewrite H. destruct (Z.max_spec a t) as [[_ ->]|[_ ->]]; auto.
Qed.

Lemma latest_upper ts t : In t ts -> t <= latest ts.
Proof. apply fold_max_upper. Qed.

Lemma latest_nonneg ts : 0 <= latest ts.
Proof. apply fold_max_ge. Qed.

Lemma latest_In ts : latest ts = 0 \/ In (latest ts) ts.
Proof. apply fold_max_In. Qed.

(** With times after the epoch, the latest is 0 exactly when there is no
    time. *)
Lemma latest_zero ts :
  (forall t, In t ts -> 0 < t) -> (latest ts = 0 <-> ts = []).
Proof.
  intros Hpos. split.
  - intros H0. destruct ts as [|t ts]; [reflexivity|].
    pose proof (latest_upper (t :: ts) t (or_introl eq_refl)).
    specialize (Hpos t (or_introl eq_refl)). lia.
  - intros ->. reflexivity.
Qed.

(** ** One turn of the loop over the ledger *)

Lemma staleFor_In category lastBySku cutoff stockItems key e :
  In e (staleFor category lastBySku cutoff stockItems key)
  <-> exists st,
        obj_get stockItems key = Some st
        /\ 0 < st_qty st
        /\ passes category (st_category st)
        /\ (getOr0 lastBySku
              (skuKey (st_category st) (st_sku st) (st_size st) (st_color st))
            = 0
            \/ getOr0 lastBySku
                 (skuKey (st_category st) (st_sku st) (st_size st)
                         (st_color st))
               < cutoff)
        /\ e = staleOf st
                 (getOr0 lastBySku
                    (skuKey (st_category st) (st_sku st) (st_size st)
                            (st_color st))).
Proof.
  unfold staleFor.
  destruct (obj_get stockItems key) as [st|].
  2:{ split; [intros []|]. intros (st & H & _). discriminate. }
  set (last := getOr0 lastBySku
                 (skuKey (st_category st) (st_sku st) (st_size st)
                         (st_color st))).
  destruct (st_qty st <=? 0) eqn:Eq.
  { apply Z.leb_le in Eq. split; [intros []|].
    intros (st' & [= <-] & H & _). lia. }
  apply Z.leb_gt in Eq.
  destruct (nonEmpty category
            && negb (String.eqb (st_category st) category))%bool eqn:Ec.
  { split; [intros []|]. intros (st' & [= <-] & _ & Hp & _).
    apply filter_passes in Hp. congruence. }
  apply filter_passes in Ec.
  destruct ((last =? 0) || (last <? cutoff))%bool eqn:El.
  - apply orb_true_iff in El. rewrite Z.eqb_eq, Z.ltb_lt in El. split.
    + intros [<-|[]]. exists st. repeat split; auto.
    + intros (st' & [= <-] & _ & _ & _ & ->). now left.
  - apply orb_false_iff in El. rewrite Z.eqb_neq, Z.ltb_ge in El.
    split; [intros []|].
    intros (st' & [= <-] & _ & _ & H & _). fold last in H. lia.
Qed.

(** ** The order of the sort *)

Lemma compareStale_order a b : before compareStale a b <-> staleOrder a b.
Proof.
  unfold before, compareStale, staleOrder.
  destruct (lastExecutedAt a) as [x|], (lastExecutedAt b) as [y|];
    split; intros H; try exact I; try tauto; lia.
Qed.

Lemma compareStale_total a b : 0 < compareStale a b -> compareStale b a <= 0.
Proof.
  unfold compareStale.
  destruct (lastExecutedAt a) as [x|], (lastExecutedAt b) as [y|]; lia.
Qed.

Lemma staleOrder_trans a b c : staleOrder a b -> staleOrder b c -> staleOrder a c.
Proof.
  unfold staleOrder.
  destruct (lastExecutedAt a), (lastExecutedAt b), (lastExecutedAt c);
    try tauto; lia.
Qed.

Lemma noReplanAll_sorted s now arg category :
  StronglySorted staleOrder (noReplanAll s now arg category).
Proof.
  unfold noReplanAll.
  apply (StronglySorted_impl (before compareStale)).
  - intros a b. apply compareStale_order.
  - apply sortBy_sorted.
    + apply compareStale_total.
    + intros a b c Hab Hbc. apply compareStale_order.
      eapply staleOrder_trans; apply compareStale_order; eassumption.
Qed.

Lemma noReplanAll_In s now arg category e :
  In e (noReplanAll s now arg category)
  <-> exists key st,
        obj_get (items (stock s)) key = Some st
        /\ 0 < st_qty st
        /\ passes category (st_category st)
        /\ (latest (doneTimes category
                      (skuKey (st_category st) (st_sku st) (st_size st)
                              (st_color st)) (runs s)) = 0
            \/ latest (doneTimes category
                         (skuKey (st_category st) (st_sku st) (st_size st)
                                 (st_color st)) (runs s))
               < now - staleDaysOf arg * 24 * 3600 * 1000)
        /\ e = staleOf st
                 (latest (doneTimes category
                            (skuKey (st_category st) (st_sku st) (st_size st)
                                    (st_color st)) (runs s))).
Proof.
  unfold noReplanAll. rewrite sortBy_In, in_flat_map. split.
  - intros (key & _ & He). apply staleFor_In in He.
    destruct He as (st & H). rewrite !buildLastBySku_get in H.
    exists key, st. exact H.
  - intros (key & st & Hget & H). exists key. split.
    + apply obj_get_keys. eauto.
    + apply staleFor_In. exists st. rewrite !buildLastBySku_get. tauto.
Qed.

End DashboardFacts.

Module DashboardTheorems.
Import Js Data Props JsFacts Dashboard DashboardFacts.

(** The times recorded under a key are those of the Done lines of the
    whole history that carry the key (and the category of the filter,
    when one is set). *)
Lemma doneTimes_In category key rs t :
  In t (doneTimes category key rs)
  <-> exists run l,
        In run rs /\ In l (lines run)
        /\ status l = Done /\ executedAt l = Some t
        /\ passes category (Data.category l)
        /\ skuKey (Data.category l) (sku l) (size l) (color l) = key.
Proof.
  unfold doneTimes. rewrite in_flat_map. split.
  - intros (run & Hrun & Ht). apply in_flat_map in Ht.
    destruct Ht as (l & Hl & Ht). exists run, l.
    unfold doneTime in Ht.
    destruct (status l); [destruct Ht|].
    destruct (executedAt l) as [t'|]; [|destruct Ht].
    destruct (negb (nonEmpty category)
              || String.eqb (Data.category l) category)%bool eqn:Ec;
      [|destruct Ht].
    destruct (String.eqb_spec
                (skuKey (Data.category l) (sku l) (size l) (color l)) key)
      as [Hk|Hk]; [|destruct Ht].
    destruct Ht as [<-|[]]. repeat split; auto.
    apply filter_passes.
    destruct (nonEmpty category),
             (String.eqb (Data.category l) category);
      simpl in *; congruence.
  - intros (run & l & Hrun & Hl & Hs & He & Hp & Hk).
    exists run. split; [exact Hrun|]. apply in_flat_map.
    exists l. split; [exact Hl|]. unfold doneTime. rewrite Hs, He.
    apply filter_passes in Hp.
    replace (negb (nonEmpty category)
             || String.eqb (Data.category l) category)%bool with true.
    + rewrite Hk, String.eqb_refl. now left.
    + destruct (nonEmpty category),
               (String.eqb (Data.category l) category);
        simpl in *; congruence.
Qed.

(** C6, amended.  Before truncation the stale list holds exactly the
    ledger items with qty > 0, of the category of the filter when one is
    set, whose latest Done execution, taken per dashboard key
    category||sku||size||color over all the runs of the history, is absent
    (0) or older than now - staleDays; each entry carries that time, null
    when absent.  The list is sorted ascending by that time with the
    never-executed entries first, and [noReplan] is its first 200
    entries. *)
Theorem noReplan_exactly s now arg category :
  let cutoff := now - staleDaysOf arg * 24 * 3600 * 1000 in
  let times := fun st =>
    doneTimes category
      (skuKey (st_category st) (st_sku st) (st_size st) (st_color st))
      (runs s) in
  (forall e,
      In e (noReplanAll s now arg category)
      <-> exists key st,
            obj_get (items (stock s)) key = Some st
            /\ 0 < st_qty st
            /\ passes category (st_category st)
            /\ (latest (times st) = 0 \/ latest (times st) < cutoff)
            /\ e = staleOf st (latest (times st)))
  /\ (forall st t,
        In t (times st)
        <-> exists run l,
              In run (runs s) /\ In l (lines run)
              /\ status l = Done /\ executedAt l = Some t
              /\ passes category (Data.category l)
              /\ skuKey (Data.category l) (sku l) (size l) (color l)
                 = skuKey (st_category st) (st_sku st) (st_size st)
                          (st_color st))
  /\ (forall st,
        (forall t, In t (times st) -> 0 < t) ->
        (latest (times st) = 0 <-> times st = [])
        /\ (times st <> [] ->
              In (latest (times st)) (times st)
              /\ forall t, In t (times st) -> t <= latest (times st)))
  /\ StronglySorted staleOrder (noReplanAll s now arg category)
  /\ noReplan s now arg category
     = firstn 200 (noReplanAll s now arg category)
  /\ (List.length (noReplan s now arg category) <= 200)%nat.
Proof.
  intros cutoff times. subst cutoff times.
  split; [intros e; apply noReplanAll_In|].
  split; [intros st t; apply doneTimes_In|].
  split.
  { intros st Hpos. split; [now apply latest_zero|].
    intros Hne. split; [|intros t; apply latest_upper].
    destruct (latest_In
                (doneTimes category
                   (skuKey (st_category st) (st_sku st) (st_size st)
                           (st_color st)) (runs s))) as [H0|Hin];
      [|exact Hin].
    apply (latest_zero _ Hpos) in H0. contradiction. }
  split; [apply noReplanAll_sorted|].
  split; [reflexivity|].
  unfold noReplan. apply firstn_le_length.
Qed.

Lemma noReplan_exactly_witness :
  let st := {| st_sku := "1"; st_size := "M"; st_color := "Red";
               st_category := "Dresses"; st_qty := 7 |} in
  let times := doneTimes "" (skuKey "Dresses" "1" "M" "Red")
                         (runs Demo.pulled) in
  (forall t, In t times -> 0 < t)
  /\ (latest times = 0 <-> times = [])
  /\ (times <> [] ->
        In (latest times) times /\ forall t, In t times -> t <= latest times).
Proof.
  intros st times.
  assert (Hpos : forall t, In t times -> 0 < t).
  { intros t [<-|[]]. reflexivity. }
  split; [exact Hpos|].
  exact (proj1 (proj2 (proj2 (noReplan_exactly Demo.pulled 5000 0 "")))
           st Hpos).
Defined.

(** C6, as stated, fails.  In the store below the key (1, M, Red) has a
    Done execution at time 3000, which is not older than the cutoff 2000;
    the ledger now holds the key under another category, and the stale
    list has it as never executed. *)
Lemma noReplan_category_counterexample :
  let s := Demo.recategorised in
  let now := 14 * 24 * 3600 * 1000 + 2000 in
  (exists run l,
      In run (runs s) /\ In l (lines run)
      /\ status l = Done /\ executedAt l = Some 3000
      /\ makeKey (sku l) (size l) (color l) = "1||M||Red"
      /\ now - staleDaysOf 0 * 24 * 3600 * 1000 <= 3000)
  /\ (exists st,
        obj_get (items (stock s)) (makeKey "1" "M" "Red") = Some st
        /\ 0 < st_qty st)
  /\ noReplan s now 0 ""
     = [ {| sl_category := "Outlet"; sl_sku := "1"; sl_size := "M";
            sl_color := "Red"; sl_stockQty := 7; lastExecutedAt := None |} ].
Proof.
  intros s now. split; [|split].
  - eexists. exists (Replan.markDone 3000 Demo.plannedLine).
    split; [left; reflexivity|].
    split; [left; reflexivity|].
    repeat split. vm_compute. discriminate.
  - eexists. split; [reflexivity|]. reflexivity.
  - vm_compute. reflexivity.
Qed.

End DashboardTheorems.

(* ================================================================== *)
(** * An invariant of the store *)
(* ================================================================== *)

Module StoreFacts.
Import Js Data Props JsFacts ExecuteFacts LedgerFacts.

Lemma replan_loop_empty now lines :
  Replan.b_items (Replan.executeAll_loop now [] lines) = [].
Proof.
  induction lines as [|line rest IH]; [reflexivity|].
  cbn [Replan.executeAll_loop]. unfold Replan.executeAll_step.
  destruct (isDone (status line)); cbn [obj_get Replan.b_items]; exact IH.
Qed.

Lemma newc_loop_empty now lines :
  NewC.b_items (NewC.executeAll_loop now [] lines) = [].
Proof.
  induction lines as [|line rest IH]; [reflexivity|].
  cbn [NewC.executeAll_loop]. unfold NewC.executeAll_step.
  destruct (isDone (nc_status line)); cbn [obj_get NewC.b_items]; exact IH.
Qed.

(** Execution keeps the time of the upload. *)
Lemma replan_execute_updatedAt s now rid lid :
  updatedAt (stock (snd (Replan.replan_execute s now rid lid)))
  = updatedAt (stock s).
Proof. unfold Replan.replan_execute. repeat branch; reflexivity. Qed.

Lemma newcollection_execute_updatedAt s now lid :
  updatedAt (stock (snd (NewC.newcollection_execute s now lid)))
  = updatedAt (stock s).
Proof. unfold NewC.newcollection_execute. repeat branch; reflexivity. Qed.

Lemma replan_executeAll_updatedAt s now rid :
  updatedAt (stock (snd (Replan.replan_executeAll s now rid)))
  = updatedAt (stock s).
Proof. unfold Replan.replan_executeAll. repeat branch; reflexivity. Qed.

(** Every store the handlers can reach has a ledger that is empty or
    carries the time of its upload: on such a store generation is refused
    only for an empty ledger. *)
Lemma reachable_loaded s : Reachable s -> loaded s.
Proof.
  unfold loaded. induction 1 as
    [ | s now name parsed _ _ | s now _ _ | s collate now cf name sales _ IH
      | s now rid lid _ IH | s now rid _ IH | s now lid _ IH | s now _ IH
      | s lim _ IH ].
  - intros H. now contradiction H.
  - intros _. discriminate.
  - intros _. discriminate.
  - unfold Replan.replan_generate.
    destruct (updatedAt (stock s)) eqn:Eu.
    + destruct (items (stock s)) eqn:Ei; cbn [snd stock];
        rewrite ?Eu; discriminate.
    + cbn [snd]. rewrite Eu. exact IH.
  - rewrite replan_execute_updatedAt. intros Hne. apply IH.
    intros He. apply Hne. clear Hne.
    unfold Replan.replan_execute.
    destruct (negb (nonEmpty rid) || negb (nonEmpty lid))%bool; [exact He|].
    destruct (find (Replan.isRun rid) (runs s)) as [run|]; [|exact He].
    destruct (find (Replan.isLine lid) (lines run)) as [line|]; [|exact He].
    destruct (isDone (status line)); [exact He|].
    rewrite He. exact He.
  - rewrite replan_executeAll_updatedAt. intros Hne. apply IH.
    intros He. apply Hne. clear Hne.
    unfold Replan.replan_executeAll.
    destruct (negb (nonEmpty rid)); [exact He|].
    destruct (find (Replan.isRun rid) (runs s)) as [run|]; [|exact He].
    cbn [snd]. cbn. rewrite He. apply replan_loop_empty.
  - rewrite newcollection_execute_updatedAt. intros Hne. apply IH.
    intros He. apply Hne. clear Hne.
    unfold NewC.newcollection_execute.
    destruct (negb (nonEmpty lid)); [exact He|].
    destruct (find (NewC.isLine lid) (nc_items (newCollection s)))
      as [line|]; [|exact He].
    destruct (isDone (nc_status line)); [exact He|].
    rewrite He. exact He.
  - intros Hne. apply IH. intros He. apply Hne. clear Hne.
    cbn. rewrite He. apply newc_loop_empty.
  - exact IH.
Qed.

End StoreFacts.

(* ================================================================== *)
(** * Bulk execution *)
(* ================================================================== *)

Module BulkFacts.
Import Js Data Props Sound JsFacts.

(** An assignment to a key the object holds keeps the list of its keys. *)
Lemma obj_set_keys {V : Type} (o : obj V) k v old :
  obj_get o k = Some old -> obj_keys (obj_set o k v) = obj_keys o.
Proof.
  induction o as [|[k0 v0] o IH]; simpl; [discriminate|].
  destruct (String.eqb_spec k0 k) as [->|Hne]; simpl; [reflexivity|].
  intros H. now rewrite IH.
Qed.

Lemma totalQty_set items k st v :
  obj_get items k = Some st ->
  totalQty (obj_set items k v) = totalQty items - st_qty st + st_qty v.
Proof.
  induction items as [|[k0 v0] items IH]; simpl; [discriminate|].
  destruct (String.eqb_spec k0 k) as [->|Hne]; simpl.
  - intros [= ->]. lia.
  - intros H. rewrite (IH H). lia.
Qed.

Lemma below_refl items : below items items.
Proof. intros k. destruct (obj_get items k); [lia | exact I]. Qed.

Lemma below_trans a b c : below a b -> below b c -> below a c.
Proof.
  intros Hab Hbc k. specialize (Hab k). specialize (Hbc k).
  destruct (obj_get a k), (obj_get b k), (obj_get c k);
    try tauto; lia.
Qed.

Lemma below_set items k st v :
  obj_get items k = Some st -> st_qty v <= st_qty st ->
  below (obj_set items k v) items.
Proof.
  intros Hget Hle k'. rewrite obj_get_set.
  destruct (String.eqb_spec k k') as [<-|Hne].
  - rewrite Hget. exact Hle.
  - destruct (obj_get items k'); [lia | exact I].
Qed.

Lemma wellKeyed_set items k st q :
  wellKeyed items -> obj_get items k = Some st ->
  wellKeyed (obj_set items k (with_qty st q)).
Proof.
  intros [Hnd Hkey] Hget. split; [now apply obj_set_NoDup|].
  intros k' st' Hin. apply In_obj_set in Hin.
  destruct Hin as [Hin|[-> ->]]; [auto|].
  apply obj_get_In in Hget. apply Hkey in Hget. exact Hget.
Qed.

Section Loop.
Context {L : Type}.
Variables (ident : L -> string) (need : L -> Z) (finished : L -> bool)
          (mark : time -> L -> L).
Hypothesis mark_ident : forall t l, ident (mark t l) = ident l.
Hypothesis mark_need : forall t l, need (mark t l) = need l.
Hypothesis mark_finished : forall t l, finished (mark t l) = true.

Local Abbreviation step := (Bulk.step ident need finished mark).
Local Abbreviation loop := (Bulk.loop ident need finished mark).
Local Abbreviation doneNeed := (Bulk.doneNeed need finished).
Local Abbreviation unfinished := (Bulk.unfinished finished).

(** What one turn does, by its outcome. *)
Lemma step_spec now items line items' line' turn :
  step now items line = (items', line', turn) ->
  match turn with
  | Pulled =>
      exists st,
        finished line = false
        /\ obj_get items (ident line) = Some st
        /\ 0 < need line <= st_qty st
        /\ items' = obj_set items (ident line)
                            (with_qty st (st_qty st - need line))
        /\ line' = mark now line
  | Skipped => finished line = true /\ items' = items /\ line' = line
  | Refused _ =>
      finished line = false /\ items' = items /\ line' = line
      /\ (obj_get items (ident line) = None
          \/ need line <= 0
          \/ exists st, obj_get items (ident line) = Some st
                        /\ st_qty st < need line)
  end.
Proof.
  unfold Bulk.step.
  destruct (finished line) eqn:Ef; [intros [= <- <- <-]; auto|].
  destruct (obj_get items (ident line)) as [st|] eqn:Eg;
    [|intros [= <- <- <-]; repeat split; auto].
  destruct (need line <=? 0) eqn:E0.
  { apply Z.leb_le in E0. intros [= <- <- <-]. repeat split; auto. }
  apply Z.leb_gt in E0.
  destruct (st_qty st <? need line) eqn:E1; intros [= <- <- <-].
  - apply Z.ltb_lt in E1. repeat split; auto. right. right. eauto.
  - apply Z.ltb_ge in E1. exists st. repeat split; auto.
Qed.

Lemma step_below now items line items' line' turn :
  step now items line = (items', line', turn) -> below items' items.
Proof.
  intros Hs. apply step_spec in Hs. destruct turn.
  - destruct Hs as (_ & -> & _). apply below_refl.
  - destruct Hs as (_ & -> & _). apply below_refl.
  - destruct Hs as (st & _ & Hget & Hq & -> & _).
    apply (below_set _ _ _ _ Hget). cbn [with_qty st_qty]. lia.
Qed.

Lemma step_keys now items line items' line' turn :
  step now items line = (items', line', turn) ->
  obj_keys items' = obj_keys items.
Proof.
  intros Hs. apply step_spec in Hs. destruct turn.
  - now destruct Hs as (_ & -> & _).
  - now destruct Hs as (_ & -> & _).
  - destruct Hs as (st & _ & Hget & _ & -> & _).
    eapply obj_set_keys; eassumption.
Qed.

Lemma step_untouched now items line items' line' turn k :
  step now items line = (items', line', turn) ->
  k <> ident line -> obj_get items' k = obj_get items k.
Proof.
  intros Hs Hne. apply step_spec in Hs. destruct turn.
  - now destruct Hs as (_ & -> & _).
  - now destruct Hs as (_ & -> & _).
  - destruct Hs as (st & _ & _ & _ & -> & _).
    apply obj_get_set_ne. congruence.
Qed.

Lemma step_wellKeyed now items line items' line' turn :
  step now items line = (items', line', turn) ->
  wellKeyed items -> wellKeyed items'.
Proof.
  intros Hs Hw. apply step_spec in Hs. destruct turn.
  - now destruct Hs as (_ & -> & _).
  - now destruct Hs as (_ & -> & _).
  - destruct Hs as (st & _ & Hget & _ & -> & _).
    now apply wellKeyed_set.
Qed.

(** A line that is not pulled is not pulled from a ledger that holds no
    more. *)
Lemma step_again now now' items items2 line turn :
  step now items line = (items, line, turn) ->
  turn <> Pulled ->
  below items2 items ->
  exists turn',
    step now' items2 line = (items2, line, turn') /\ turn' <> Pulled.
Proof.
  intros Hs Hturn Hb. apply step_spec in Hs. unfold Bulk.step.
  destruct turn as [|f|]; [| |congruence].
  - destruct Hs as (-> & _). eexists. split; [reflexivity|discriminate].
  - destruct Hs as (-> & _ & _ & Hcause).
    specialize (Hb (ident line)).
    destruct (obj_get items2 (ident line)) as [st2|];
      [|eexists; split; [reflexivity|discriminate]].
    destruct (need line <=? 0) eqn:E0;
      [eexists; split; [reflexivity|discriminate]|].
    apply Z.leb_gt in E0.
    destruct Hcause as [Hnone|[Hle|(st & Hget & Hlt)]].
    + rewrite Hnone in Hb. destruct Hb.
    + lia.
    + rewrite Hget in Hb.
      destruct (st_qty st2 <? need line) eqn:E1;
        [eexists; split; [reflexivity|discriminate]|].
      apply Z.ltb_ge in E1. lia.
Qed.

Ltac open_loop Hl :=
  cbn [Bulk.loop] in Hl;
  match type of Hl with
  | context [Bulk.step _ _ _ _ ?now ?items ?line] =>
      let items1 := fresh "items1" in
      let line1 := fresh "line1" in
      let turn := fresh "turn" in
      let Es := fresh "Es" in
      destruct (Bulk.step ident need finished mark now items line)
        as [[items1 line1] turn] eqn:Es
  end;
  match type of Hl with
  | context [Bulk.loop _ _ _ _ ?now ?items1 ?rest] =>
      let itemsR := fresh "itemsR" in
      let linesR := fresh "linesR" in
      let nR := fresh "nR" in
      let fsR := fresh "fsR" in
      let El := fresh "El" in
      destruct (Bulk.loop ident need finished mark now items1 rest)
        as [[[itemsR linesR] nR] fsR] eqn:El
  end;
  injection Hl as <- <- <- <-.

Lemma loop_below now lines : forall items itemsF linesF n fs,
  loop now items lines = (itemsF, linesF, n, fs) -> below itemsF items.
Proof.
  induction lines as [|line rest IH]; intros items itemsF linesF n fs Hl.
  - injection Hl as <- <- <- <-. apply below_refl.
  - open_loop Hl.
    eapply below_trans; [eapply IH; eassumption|].
    eapply step_below; eassumption.
Qed.

Lemma loop_keys now lines : forall items itemsF linesF n fs,
  loop now items lines = (itemsF, linesF, n, fs) ->
  obj_keys itemsF = obj_keys items.
Proof.
  induction lines as [|line rest IH]; intros items itemsF linesF n fs Hl.
  - now injection Hl as <- <- <- <-.
  - open_loop Hl. rewrite (IH _ _ _ _ _ El).
    eapply step_keys; eassumption.
Qed.

Lemma loop_wellKeyed now lines : forall items itemsF linesF n fs,
  loop now items lines = (itemsF, linesF, n, fs) ->
  wellKeyed items -> wellKeyed itemsF.
Proof.
  induction lines as [|line rest IH]; intros items itemsF linesF n fs Hl Hw.
  - now injection Hl as <- <- <- <-.
  - open_loop Hl. eapply IH; [eassumption|].
    eapply step_wellKeyed; eassumption.
Qed.

Lemma loop_untouched now lines : forall items itemsF linesF n fs k,
  loop now items lines = (itemsF, linesF, n, fs) ->
  ~ In k (map ident lines) -> obj_get itemsF k = obj_get items k.
Proof.
  induction lines as [|line rest IH]; intros items itemsF linesF n fs k Hl Hk.
  - now injection Hl as <- <- <- <-.
  - open_loop Hl. simpl in Hk.
    rewrite (IH _ _ _ _ _ k El) by tauto.
    eapply step_untouched; [eassumption|]. intros ->. tauto.
Qed.

(** The lines after the loop: each as it was, or marked. *)
Lemma loop_lines now lines : forall items itemsF linesF n fs,
  loop now items lines = (itemsF, linesF, n, fs) ->
  Forall2 (fun l l' => l' = l \/ (finished l = false /\ l' = mark now l))
          lines linesF.
Proof.
  induction lines as [|line rest IH]; intros items itemsF linesF n fs Hl.
  - injection Hl as <- <- <- <-. constructor.
  - open_loop Hl. constructor; [|eapply IH; eassumption].
    apply step_spec in Es. destruct turn.
    + destruct Es as (_ & _ & ->). now left.
    + destruct Es as (_ & _ & -> & _). now left.
    + destruct Es as (st & Hf & _ & _ & _ & ->). now right.
Qed.

(** Every line that was not Done is counted once, as executed or as
    failed. *)
Lemma loop_count now lines : forall items itemsF linesF n fs,
  loop now items lines = (itemsF, linesF, n, fs) ->
  (n + List.length fs = unfinished lines)%nat.
Proof.
  induction lines as [|line rest IH]; intros items itemsF linesF n fs Hl.
  - now injection Hl as <- <- <- <-.
  - open_loop Hl. specialize (IH _ _ _ _ _ El).
    unfold Bulk.unfinished in *. cbn [filter].
    apply step_spec in Es. destruct turn.
    + destruct Es as (-> & _). cbn. exact IH.
    + destruct Es as (-> & _). cbn. lia.
    + destruct Es as (st & -> & _). cbn. lia.
Qed.

(** What leaves the ledger is what the lines newly Done needed. *)
Lemma loop_total now lines : forall items itemsF linesF n fs,
  loop now items lines = (itemsF, linesF, n, fs) ->
  totalQty items - totalQty itemsF = doneNeed linesF - doneNeed lines.
Proof.
  induction lines as [|line rest IH]; intros items itemsF linesF n fs Hl.
  - injection Hl as <- <- <- <-. cbn. lia.
  - open_loop Hl. specialize (IH _ _ _ _ _ El).
    unfold Bulk.doneNeed in *. cbn [fold_right].
    apply step_spec in Es. destruct turn.
    + destruct Es as (Hf & -> & ->). rewrite Hf. lia.
    + destruct Es as (Hf & -> & -> & _). rewrite Hf. lia.
    + destruct Es as (st & Hf & Hget & _ & -> & ->).
      rewrite Hf, mark_finished, mark_need.
      rewrite (totalQty_set _ _ _ _ Hget) in IH.
      cbn [with_qty st_qty] in IH. lia.
Qed.

(** A second pass, over a ledger that holds no more than the first pass
    left, pulls nothing. *)
Lemma loop_again now now' lines : forall items itemsF linesF n fs items2,
  loop now items lines = (itemsF, linesF, n, fs) ->
  below items2 itemsF ->
  exists fs', loop now' items2 linesF = (items2, linesF, O, fs').
Proof.
  induction lines as [|line rest IH];
    intros items itemsF linesF n fs items2 Hl Hb.
  - injection Hl as <- <- <- <-. eexists. reflexivity.
  - open_loop Hl.
    destruct (IH _ _ _ _ _ items2 El Hb) as (fs' & Hrest).
    assert (Hhead : exists turn',
               step now' items2 line1 = (items2, line1, turn')
               /\ turn' <> Pulled).
    { pose proof Es as Hspec. apply step_spec in Hspec.
      destruct turn.
      - destruct Hspec as (_ & -> & ->).
        eapply step_again; [exact Es|discriminate|].
        eapply below_trans; [exact Hb|]. eapply loop_below; eassumption.
      - destruct Hspec as (_ & -> & -> & _).
        eapply step_again; [exact Es|discriminate|].
        eapply below_trans; [exact Hb|]. eapply loop_below; eassumption.
      - destruct Hspec as (st & _ & _ & _ & _ & ->).
        unfold Bulk.step. rewrite mark_finished.
        eexists. split; [reflexivity|discriminate]. }
    destruct Hhead as (turn' & Hstep & Hnp).
    cbn [Bulk.loop]. rewrite Hstep, Hrest.
    destruct turn'; [eexists; reflexivity | eexists; reflexivity | congruence].
Qed.

(** Over lines with distinct keys, each held in a sufficient quantity,
    the loop pulls every line. *)
Lemma loop_all now lines : forall items itemsF linesF n fs,
  NoDup (map ident lines) ->
  (forall l, In l lines ->
     finished l = false
     /\ exists st, obj_get items (ident l) = Some st
                   /\ 0 < need l <= st_qty st) ->
  loop now items lines = (itemsF, linesF, n, fs) ->
  linesF = map (mark now) lines
  /\ n = List.length lines
  /\ fs = []
  /\ forall l, In l lines ->
       exists st, obj_get items (ident l) = Some st
                  /\ obj_get itemsF (ident l)
                     = Some (with_qty st (st_qty st - need l)).
Proof.
  induction lines as [|line rest IH];
    intros items itemsF linesF n fs Hnd Hok Hl.
  - injection Hl as <- <- <- <-. repeat split. intros l [].
  - open_loop Hl.
    inversion Hnd as [|? ? Hnotin Hnd']; subst.
    destruct (Hok line (or_introl eq_refl)) as (Hf & st & Hget & Hq).
    assert (Hstep : items1 = obj_set items (ident line)
                               (with_qty st (st_qty st - need line))
                    /\ line1 = mark now line /\ turn = Pulled).
    { unfold Bulk.step in Es. rewrite Hf, Hget in Es.
      destruct (need line <=? 0) eqn:E0; [apply Z.leb_le in E0; lia|].
      destruct (st_qty st <? need line) eqn:E1;
        [apply Z.ltb_lt in E1; lia|].
      injection Es as <- <- <-. auto. }
    destruct Hstep as (Hi1 & -> & ->).
    assert (Hok' : forall l, In l rest ->
              finished l = false
              /\ exists st0, obj_get items1 (ident l) = Some st0
                             /\ 0 < need l <= st_qty st0).
    { intros l Hin. destruct (Hok l (or_intror Hin)) as (Hfl & st0 & Hg & Hq0).
      split; [exact Hfl|]. exists st0. split; [|exact Hq0].
      rewrite Hi1, obj_get_set_ne; [exact Hg|].
      intros Heq. apply Hnotin. rewrite Heq. now apply in_map. }
    destruct (IH _ _ _ _ _ Hnd' Hok' El) as (-> & -> & -> & Hfinal).
    repeat split.
    intros l [<-|Hin].
    + exists st. split; [exact Hget|].
      rewrite (loop_untouched _ _ _ _ _ _ _ _ El Hnotin), Hi1.
      apply obj_get_set_eq.
    + destruct (Hfinal l Hin) as (st0 & Hg1 & HgF).
      destruct (Hok l (or_intror Hin)) as (_ & st1 & Hg & _).
      exists st1. split; [exact Hg|].
      rewrite Hi1, obj_get_set_ne in Hg1.
      * rewrite Hg in Hg1. injection Hg1 as <-. exact HgF.
      * intros Heq. apply Hnotin. rewrite Heq. now apply in_map.
Qed.

End Loop.

End BulkFacts.

Module BulkTransfer.
Import Js Data Props Sound JsFacts BulkFacts.

(** The loops of the two handlers are the loop of [Bulk]. *)
Lemma replan_step_bulk now items line :
  Replan.executeAll_step now items line
  = Bulk.step lineId pullQty (fun l => isDone (status l)) Replan.markDone
              now items line.
Proof.
  unfold Replan.executeAll_step, Bulk.step.
  destruct (isDone (status line)); [reflexivity|].
  destruct (obj_get items (lineId line)); reflexivity.
Qed.

Lemma newc_step_bulk now items line :
  NewC.executeAll_step now items line
  = Bulk.step nc_lineId nc_qty (fun x => isDone (nc_status x)) NewC.markDone
              now items line.
Proof.
  unfold NewC.executeAll_step, Bulk.step.
  destruct (isDone (nc_status line)); [reflexivity|].
  destruct (obj_get items (nc_lineId line)); reflexivity.
Qed.

Lemma replan_loop_bulk now lines : forall items,
  Bulk.loop lineId pullQty (fun l => isDone (status l)) Replan.markDone
            now items lines
  = (Replan.b_items (Replan.executeAll_loop now items lines),
     Replan.b_lines (Replan.executeAll_loop now items lines),
     Replan.executed (Replan.executeAll_loop now items lines),
     Replan.failures (Replan.executeAll_loop now items lines)).
Proof.
  induction lines as [|line rest IH]; intros items; [reflexivity|].
  cbn [Bulk.loop Replan.executeAll_loop]. rewrite replan_step_bulk.
  destruct (Bulk.step lineId pullQty (fun l => isDone (status l))
              Replan.markDone now items line) as [[items1 line1] turn].
  rewrite IH. reflexivity.
Qed.

Lemma newc_loop_bulk now lines : forall items,
  Bulk.loop nc_lineId nc_qty (fun x => isDone (nc_status x)) NewC.markDone
            now items lines
  = (NewC.b_items (NewC.executeAll_loop now items lines),
     NewC.b_lines (NewC.executeAll_loop now items lines),
     NewC.executed (NewC.executeAll_loop now items lines),
     NewC.failures (NewC.executeAll_loop now items lines)).
Proof.
  induction lines as [|line rest IH]; intros items; [reflexivity|].
  cbn [Bulk.loop NewC.executeAll_loop]. rewrite newc_step_bulk.
  destruct (Bulk.step nc_lineId nc_qty (fun x => isDone (nc_status x))
              NewC.markDone now items line) as [[items1 line1] turn].
  rewrite IH. reflexivity.
Qed.

Lemma isDone_false_pending st : isDone st = false -> st = Pending.
Proof. destruct st; [reflexivity | discriminate]. Qed.

(** A loop is given by its four fields. *)
Lemma replan_bulk_eta (b : Replan.Bulk) :
  b = {| Replan.b_items := Replan.b_items b; Replan.b_lines := Replan.b_lines b;
         Replan.executed := Replan.executed b;
         Replan.failures := Replan.failures b |}.
Proof. now destruct b. Qed.

Lemma doneNeed_replan ls :
  Bulk.doneNeed pullQty (fun l => isDone (status l)) ls = doneQty ls.
Proof. reflexivity. Qed.

Lemma update_first_again {A : Type} (p : A -> bool) (f : A -> A) l :
  (forall x, p x = true -> p (f x) = true) ->
  (forall x, f (f x) = f x) ->
  update_first p f (update_first p f l) = update_first p f l.
Proof.
  intros Hp Hf. induction l as [|x l IH]; simpl; [reflexivity|].
  destruct (p x) eqn:E; simpl.
  - now rewrite (Hp _ E), Hf.
  - now rewrite E, IH.
Qed.

(** The element found changes as [R] allows; the others stay. *)
Lemma update_first_Forall2 {A : Type} (R : A -> A -> Prop) (p : A -> bool)
    (f : A -> A) l :
  (forall x, R x x) ->
  (forall x, find p l = Some x -> R x (f x)) ->
  Forall2 R l (update_first p f l).
Proof.
  intros Hrefl. induction l as [|x l IH]; simpl; intros Hf; [constructor|].
  destruct (p x) eqn:E.
  - constructor; [now apply Hf|]. clear -Hrefl.
    induction l; constructor; auto.
  - constructor; [apply Hrefl | now apply IH].
Qed.

End BulkTransfer.

Module BulkTheorems.
Import Js Data Props Sound JsFacts ExecuteFacts BulkFacts BulkTransfer.

Lemma replan_markDone_laws :
  (forall t l, lineId (Replan.markDone t l) = lineId l)
  /\ (forall t l, pullQty (Replan.markDone t l) = pullQty l)
  /\ (forall t l, isDone (status (Replan.markDone t l)) = true).
Proof. repeat split. Qed.

Lemma newc_markDone_laws :
  (forall t x, nc_lineId (NewC.markDone t x) = nc_lineId x)
  /\ (forall t x, nc_qty (NewC.markDone t x) = nc_qty x)
  /\ (forall t x, isDone (nc_status (NewC.markDone t x)) = true).
Proof. repeat split. Qed.

(** A second pass of the loop of a run leaves ledger and lines as the
    first pass left them. *)
Lemma replan_loop_again now now' items lines :
  let b := Replan.executeAll_loop now items lines in
  let b' := Replan.executeAll_loop now' (Replan.b_items b) (Replan.b_lines b) in
  Replan.b_items b' = Replan.b_items b
  /\ Replan.b_lines b' = Replan.b_lines b
  /\ Replan.executed b' = O.
Proof.
  intros b b'.
  destruct replan_markDone_laws as (H1 & H2 & H3).
  destruct (loop_again lineId pullQty (fun l => isDone (status l))
              Replan.markDone H3 now now' lines items _ _ _ _
              (Replan.b_items b) (replan_loop_bulk now lines items)
              (below_refl _)) as (fs' & Hl).
  rewrite replan_loop_bulk in Hl. fold b in Hl. fold b' in Hl.
  injection Hl as -> -> -> _. auto.
Qed.

Lemma newc_loop_again now now' items lines :
  let b := NewC.executeAll_loop now items lines in
  let b' := NewC.executeAll_loop now' (NewC.b_items b) (NewC.b_lines b) in
  NewC.b_items b' = NewC.b_items b
  /\ NewC.b_lines b' = NewC.b_lines b
  /\ NewC.executed b' = O.
Proof.
  intros b b'.
  destruct newc_markDone_laws as (H1 & H2 & H3).
  destruct (loop_again nc_lineId nc_qty (fun x => isDone (nc_status x))
              NewC.markDone H3 now now' lines items _ _ _ _
              (NewC.b_items b) (newc_loop_bulk now lines items)
              (below_refl _)) as (fs' & Hl).
  rewrite newc_loop_bulk in Hl. fold b in Hl. fold b' in Hl.
  injection Hl as -> -> -> _. auto.
Qed.

Lemma replan_executeAll_found s now rid run :
  nonEmpty rid = true ->
  find (Replan.isRun rid) (runs s) = Some run ->
  Replan.replan_executeAll s now rid
  = (inr (Replan.executeAll_loop now (items (stock s)) (lines run)),
     Replan.with_runs
       (with_stock s
          (with_items (stock s)
             (Replan.b_items
                (Replan.executeAll_loop now (items (stock s)) (lines run)))))
       (update_first (Replan.isRun rid)
          (fun r => Replan.with_lines r
             (Replan.b_lines
                (Replan.executeAll_loop now (items (stock s)) (lines run))))
          (runs s))).
Proof.
  intros Hr Hf. unfold Replan.replan_executeAll. now rewrite Hr, Hf.
Qed.

Lemma replan_executeAll_refused s now rid :
  nonEmpty rid = false \/ find (Replan.isRun rid) (runs s) = None ->
  exists e, Replan.replan_executeAll s now rid = (inl e, s).
Proof.
  unfold Replan.replan_executeAll. intros [H|H].
  - rewrite H. eexists. reflexivity.
  - destruct (negb (nonEmpty rid)); [eexists; reflexivity|].
    rewrite H. eexists. reflexivity.
Qed.

(** X1.  Bulk execution settles in one pass: a second executeAll of the
    same run, or of the batch, at any later time pulls nothing and leaves
    the whole store as the first left it.  The lines the first pass
    refused are refused again, because the ledger only went down. *)
Theorem executeAll_settles :
  (forall s now now' rid,
      let s1 := snd (Replan.replan_executeAll s now rid) in
      snd (Replan.replan_executeAll s1 now' rid) = s1
      /\ match fst (Replan.replan_executeAll s1 now' rid) with
         | inr b => Replan.executed b = O
         | inl _ => True
         end)
  /\ (forall s now now',
      let s1 := snd (NewC.newcollection_executeAll s now) in
      snd (NewC.newcollection_executeAll s1 now') = s1
      /\ NewC.executed (fst (NewC.newcollection_executeAll s1 now')) = O).
Proof.
  split.
  - intros s now now' rid s1. subst s1.
    destruct (nonEmpty rid) eqn:Er.
    2:{ destruct (replan_executeAll_refused s now rid (or_introl Er))
          as (e & ->). cbn [snd].
        destruct (replan_executeAll_refused s now' rid (or_introl Er))
          as (e' & ->). cbn [fst snd]. auto. }
    destruct (find (Replan.isRun rid) (runs s)) as [run|] eqn:Ef.
    2:{ destruct (replan_executeAll_refused s now rid (or_intror Ef))
          as (e & ->). cbn [snd].
        destruct (replan_executeAll_refused s now' rid (or_intror Ef))
          as (e' & ->). cbn [fst snd]. auto. }
    rewrite (replan_executeAll_found _ _ _ _ Er Ef). cbn [snd].
    set (b := Replan.executeAll_loop now (items (stock s)) (lines run)).
    rewrite (replan_executeAll_found _ now' rid
               (Replan.with_lines run (Replan.b_lines b)) Er).
    2:{ cbn [runs Replan.with_runs].
        apply (find_update_first (Replan.isRun rid)
                 (fun r => Replan.with_lines r (Replan.b_lines b)) _ _ Ef).
        intros y Hy. exact Hy. }
    cbn [fst snd lines Replan.with_lines stock items with_stock with_items
         Replan.with_runs runs].
    destruct (replan_loop_again now now' (items (stock s)) (lines run))
      as (Hi & Hl & He).
    cbv zeta in Hi, Hl, He. fold b in Hi, Hl, He. rewrite Hi, Hl, He.
    split; [|reflexivity].
    unfold Replan.with_runs, with_stock, with_items. cbn.
    rewrite update_first_again;
      [reflexivity | intros x Hx; exact Hx | reflexivity].
  - intros s now now' s1. subst s1.
    unfold NewC.newcollection_executeAll.
    cbn [fst snd stock items newCollection nc_items NewC.with_newCollection
         NewC.with_lines with_stock with_items].
    destruct (newc_loop_again now now' (items (stock s))
                (nc_items (newCollection s))) as (Hi & Hl & He).
    cbv zeta in Hi, Hl, He. rewrite Hi, Hl, He.
    split; reflexivity.
Qed.

Lemma lineStep_of now ls ls' :
  Forall2 (fun l l' => l' = l
                       \/ (isDone (status l) = false
                           /\ l' = Replan.markDone now l)) ls ls' ->
  Forall2 (lineStep now) ls ls'.
Proof.
  induction 1 as [|l l' ls ls' [H|[H1 H2]] _ IH]; constructor; auto.
  - now left.
  - right. split; [now apply isDone_false_pending | exact H2].
Qed.

Lemma newLineStep_of now ls ls' :
  Forall2 (fun x x' => x' = x
                       \/ (isDone (nc_status x) = false
                           /\ x' = NewC.markDone now x)) ls ls' ->
  Forall2 (newLineStep now) ls ls'.
Proof.
  induction 1 as [|l l' ls ls' [H|[H1 H2]] _ IH]; constructor; auto.
  - now left.
  - right. split; [now apply isDone_false_pending | exact H2].
Qed.

(** X2.  Bulk execution accounts for every line: the lines executed and
    the failures reported are together the lines that were not Done;
    every line comes back as it was or, if it was Pending, marked Done at
    the time of the pass; the ledger keeps its keys, and the quantity
    that left it is the need of the lines newly Done. *)
Theorem executeAll_accounts :
  (forall s now rid run,
      rid <> "" ->
      find (Replan.isRun rid) (runs s) = Some run ->
      exists b s',
        Replan.replan_executeAll s now rid = (inr b, s')
        /\ (Replan.executed b + List.length (Replan.failures b)
            = pendingCount (lines run))%nat
        /\ Forall2 (lineStep now) (lines run) (Replan.b_lines b)
        /\ find (Replan.isRun rid) (runs s')
           = Some (Replan.with_lines run (Replan.b_lines b))
        /\ obj_keys (items (stock s')) = obj_keys (items (stock s))
        /\ totalQty (items (stock s)) - totalQty (items (stock s'))
           = doneQty (Replan.b_lines b) - doneQty (lines run))
  /\ (forall s now,
      let b := fst (NewC.newcollection_executeAll s now) in
      let s' := snd (NewC.newcollection_executeAll s now) in
      (NewC.executed b + List.length (NewC.failures b)
       = newPendingCount (nc_items (newCollection s)))%nat
      /\ Forall2 (newLineStep now) (nc_items (newCollection s))
                 (nc_items (newCollection s'))
      /\ obj_keys (items (stock s')) = obj_keys (items (stock s))
      /\ totalQty (items (stock s)) - totalQty (items (stock s'))
         = newDoneQty (nc_items (newCollection s'))
           - newDoneQty (nc_items (newCollection s))).
Proof.
  split.
  - intros s now rid run Hr Hf.
    rewrite (replan_executeAll_found _ _ _ _ (nonEmpty_true _ Hr) Hf).
    eexists. eexists. split; [reflexivity|].
    pose proof (replan_loop_bulk now (lines run) (items (stock s))) as Hb.
    destruct replan_markDone_laws as (H1 & H2 & H3).
    split; [exact (loop_count _ _ _ _ _ _ _ _ _ _ _ Hb)|].
    split; [apply lineStep_of; exact (loop_lines _ _ _ _ _ _ _ _ _ _ _ Hb)|].
    split.
    { cbn [runs Replan.with_runs].
      apply (find_update_first (Replan.isRun rid)
               (fun r => Replan.with_lines r _) _ _ Hf).
      intros y Hy. exact Hy. }
    split; [exact (loop_keys _ _ _ _ _ _ _ _ _ _ _ Hb)|].
    exact (loop_total _ _ _ _ H2 H3 _ _ _ _ _ _ _ Hb).
  - intros s now b s'. subst b s'.
    unfold NewC.newcollection_executeAll.
    cbn [fst snd stock items newCollection nc_items NewC.with_newCollection
         NewC.with_lines with_stock with_items].
    pose proof (newc_loop_bulk now (nc_items (newCollection s))
                  (items (stock s))) as Hb.
    destruct newc_markDone_laws as (H1 & H2 & H3).
    split; [exact (loop_count _ _ _ _ _ _ _ _ _ _ _ Hb)|].
    split; [apply newLineStep_of; exact (loop_lines _ _ _ _ _ _ _ _ _ _ _ Hb)|].
    split; [exact (loop_keys _ _ _ _ _ _ _ _ _ _ _ Hb)|].
    exact (loop_total _ _ _ _ H2 H3 _ _ _ _ _ _ _ Hb).
Qed.

Lemma executeAll_accounts_witness :
  find (Replan.isRun "RUN-2000") (runs Demo.planned)
  = Some {| runId := "RUN-2000"; createdAt := 2000; categoryFilter := "All";
            salesFileName := "sales.xlsx"; lines := [Demo.plannedLine] |}
  /\ exists b s',
       Replan.replan_executeAll Demo.planned 3000 "RUN-2000" = (inr b, s')
       /\ (Replan.executed b + List.length (Replan.failures b) = 1)%nat
       /\ totalQty (items (stock Demo.planned)) - totalQty (items (stock s'))
          = doneQty (Replan.b_lines b) - 0.
Proof.
  assert (Hr : "RUN-2000" <> "") by discriminate.
  split; [reflexivity|].
  destruct (proj1 executeAll_accounts Demo.planned 3000 "RUN-2000" _ Hr
              eq_refl) as (b & s' & H1 & H2 & _ & _ & _ & H6).
  exists b, s'. split; [exact H1|]. split; [exact H2 | exact H6].
Defined.

End BulkTheorems.

(* ================================================================== *)
(** * Trimming *)
(* ================================================================== *)

Module TrimFacts.
Import Js Data Requests.

Lemma ascii_not_ws2 a b :
  (code a < 128)%nat -> isWs2 a b = false /\ isWs2 b a = false.
Proof.
  intros Ha. unfold isWs2. split; apply andb_false_iff.
  - left. apply Nat.eqb_neq. lia.
  - right. apply Nat.eqb_neq. lia.
Qed.

Lemma ws3_first a b c : isWs3 a b c = true -> (128 <= code a)%nat.
Proof.
  unfold isWs3. rewrite !orb_true_iff, !andb_true_iff, !Nat.eqb_eq. lia.
Qed.

Lemma ws3_last a b c : isWs3 a b c = true -> (128 <= code c)%nat.
Proof.
  unfold isWs3.
  rewrite !orb_true_iff, !andb_true_iff, !orb_true_iff, !andb_true_iff,
          !Nat.eqb_eq, !Nat.leb_le. lia.
Qed.

Lemma dropSpaces_solid w2 w3 a r :
  isWs1 a = false ->
  (forall b, w2 a b = false) -> (forall b c, w3 a b c = false) ->
  dropSpaces w2 w3 (String a r) = String a r.
Proof.
  intros H1 H2 H3. cbn [dropSpaces]. rewrite H1.
  destruct r as [|b r2]; [reflexivity|]. rewrite H2.
  destruct r2 as [|c r3]; [reflexivity|]. now rewrite H3.
Qed.

Lemma solidChar_spec c :
  solidChar c = true -> isWs1 c = false /\ (code c < 128)%nat.
Proof.
  unfold solidChar. intros H. apply andb_true_iff in H. destruct H as [H1 H2].
  apply negb_true_iff in H1. apply Nat.ltb_lt in H2. auto.
Qed.

Lemma trimStart_solid a r : solidChar a = true -> trimStart (String a r) = String a r.
Proof.
  intros H. destruct (solidChar_spec a H) as [H1 H2].
  apply dropSpaces_solid; [exact H1 | |].
  - intros b. apply (ascii_not_ws2 a b H2).
  - intros b c. destruct (isWs3 a b c) eqn:E; [|reflexivity].
    apply ws3_first in E. lia.
Qed.

Lemma reverse_involutive s : reverse (reverse s) = s.
Proof.
  unfold reverse.
  now rewrite list_ascii_of_string_of_list_ascii, rev_involutive,
              string_of_list_ascii_of_string.
Qed.

Lemma trimEnd_solid s : solid s = true -> trimEnd s = s.
Proof.
  intros Hs. unfold trimEnd.
  assert (H : dropSpaces (fun a b => isWs2 b a) (fun a b c => isWs3 c b a)
                (reverse s) = reverse s).
  { unfold reverse. unfold solid in Hs. rewrite forallb_forall in Hs.
    destruct (rev (list_ascii_of_string s)) as [|z l] eqn:E; [reflexivity|].
    assert (Hz : solidChar z = true).
    { apply Hs. apply in_rev. rewrite E. now left. }
    destruct (solidChar_spec z Hz) as [H1 H2].
    cbn [string_of_list_ascii]. apply dropSpaces_solid; [exact H1 | |].
    - intros b. apply (ascii_not_ws2 z b H2).
    - intros b c. destruct (isWs3 c b z) eqn:E3; [|reflexivity].
      apply ws3_last in E3. lia. }
  rewrite H. apply reverse_involutive.
Qed.

(** Trimming leaves a text of ASCII characters other than white space as
    it is. *)
Lemma trim_solid s : solid s = true -> trim s = s.
Proof.
  intros Hs. unfold trim.
  assert (H : trimStart s = s).
  { destruct s as [|a r]; [reflexivity|].
    apply trimStart_solid. unfold solid in Hs. cbn in Hs.
    now apply andb_true_iff in Hs. }
  rewrite H. now apply trimEnd_solid.
Qed.

Lemma solid_app a b : solid (a ++ b) = (solid a && solid b)%bool.
Proof.
  induction a as [|c a IH]; [reflexivity|].
  unfold solid in *. cbn [append list_ascii_of_string forallb].
  now rewrite IH, andb_assoc.
Qed.

Lemma solid_uint d : solid (NilEmpty.string_of_uint d) = true.
Proof. induction d; cbn; auto. Qed.

Lemma solid_int n : solid (NilZero.string_of_int (Z.to_int n)) = true.
Proof.
  destruct n as [|p|p]; cbn [Z.to_int NilZero.string_of_int].
  - reflexivity.
  - unfold NilZero.string_of_uint.
    destruct (Pos.to_uint p); [reflexivity | apply solid_uint ..].
  - change (solid (String "-" (NilZero.string_of_uint (Pos.to_uint p))) = true).
    unfold NilZero.string_of_uint.
    destruct (Pos.to_uint p) eqn:E; [reflexivity | ..];
      change (String "-" ?x) with ("-" ++ x)%string;
      rewrite solid_app, solid_uint; reflexivity.
Qed.

(** The identifier of a run is what a request can carry. *)
Lemma trim_makeRunId now : trim (Replan.makeRunId now) = Replan.makeRunId now.
Proof.
  apply trim_solid. unfold Replan.makeRunId.
  now rewrite solid_app, solid_int.
Qed.

Lemma trimmed_spec s : trimmed s = true <-> trim s = s.
Proof. unfold trimmed. apply String.eqb_eq. Qed.

End TrimFacts.

(* ================================================================== *)
(** * How generation and execution compose *)
(* ================================================================== *)

Module ComposeFacts.
Import Js Data Props Sound JsFacts ExecuteFacts GenerateFacts BulkFacts
       BulkTransfer.

Lemma makeKey_nonEmpty sku size color : makeKey sku size color <> "".
Proof. unfold makeKey. destruct sku; discriminate. Qed.

(** In an array whose elements have distinct keys, [find] by the key of
    an element finds that element. *)
Lemma find_by_key {A : Type} (key : A -> string) (l : list A) x :
  NoDup (map key l) -> In x l ->
  find (fun y => String.eqb (key y) (key x)) l = Some x.
Proof.
  induction l as [|y l IH]; simpl; [tauto|].
  intros Hnd [->|Hin].
  - now rewrite String.eqb_refl.
  - inversion Hnd as [|? ? Hnotin Hnd']; subst.
    destruct (String.eqb_spec (key y) (key x)) as [Heq|Hne]; [|auto].
    exfalso. apply Hnotin. rewrite Heq. now apply in_map.
Qed.

(** A line of a new run stands for a key the ledger holds in a quantity
    that covers its pull. *)
Lemma generateLines_ready collate s cf sales l :
  In l (Replan.generateLines collate s cf sales) ->
  status l = Pending
  /\ lineId l <> ""
  /\ exists st,
       obj_get (items (stock s)) (lineId l) = Some st
       /\ st_qty st = stockQty l
       /\ 0 < pullQty l <= st_qty st.
Proof.
  intros Hin. apply generateLines_In in Hin.
  destruct Hin as (key & st & Hrows & Hq & Hget & _ & Hb & Hp & ->).
  cbn [lineOf status lineId stockQty pullQty] in *.
  split; [reflexivity|]. split.
  - destruct (rowsOf sales key) as [|r rs] eqn:E; [congruence|].
    assert (Hr : In r (rowsOf sales key)) by (rewrite E; now left).
    unfold rowsOf in Hr. apply filter_In in Hr. destruct Hr as [_ Hk].
    apply String.eqb_eq in Hk. rewrite <- Hk. apply makeKey_nonEmpty.
  - exists st. split; [exact Hget|]. split; [reflexivity|].
    split; [exact Hp|].
    pose proof (LimitsFacts.clampPull_le
                  (st_qty st - sumQty (rowsOf sales key))
                  (fst (Limits.getSkuLimits (limits s) (st_sku st)))
                  (snd (Limits.getSkuLimits (limits s) (st_sku st)))).
    lia.
Qed.

Lemma makeRunId_nonEmpty now : Replan.makeRunId now <> "".
Proof. unfold Replan.makeRunId. discriminate. Qed.

End ComposeFacts.

Module ComposeTheorems.
Import Js Data Props Sound JsFacts ExecuteFacts GenerateFacts BulkFacts
       BulkTransfer ComposeFacts Requests TrimFacts.

(** X3.  A run that was just generated can be executed in full: the
    request that carries the identifier of the run and that of one of its
    lines succeeds, when trimming leaves the identifier of the line as it
    is, and reports stockQty - pullQty; and the request to execute the
    whole run executes every line with no failure, leaves every line Done
    at the time of the request and stockQty - pullQty under the key of
    every line. *)
Theorem fresh_run_executes collate s now now' cf name sales run s1 :
  Replan.replan_generate collate s now cf name sales = (inr run, s1) ->
  (forall l, In l (lines run) ->
     trimmed (lineId l) = true ->
     fst (replan_execute_request s1 now' (runId run) (lineId l))
     = Replan.Executed (Replan.markDone now' l) (stockQty l - pullQty l))
  /\ exists b s2,
       replan_executeAll_request s1 now' (runId run) = (inr b, s2)
       /\ Replan.executed b = List.length (lines run)
       /\ Replan.failures b = []
       /\ Replan.b_lines b = map (Replan.markDone now') (lines run)
       /\ Forall (fun l' => status l' = Done /\ executedAt l' = Some now')
                 (Replan.b_lines b)
       /\ forall l, In l (lines run) ->
            exists st,
              obj_get (items (stock s)) (lineId l) = Some st
              /\ st_qty st = stockQty l
              /\ obj_get (items (stock s2)) (lineId l)
                 = Some {| st_sku := st_sku st; st_size := st_size st;
                           st_color := st_color st;
                           st_category := st_category st;
                           st_qty := stockQty l - pullQty l |}.
Proof.
  intros Hgen. unfold replan_execute_request, replan_executeAll_request.
  assert (Hshape := Hgen). unfold Replan.replan_generate in Hshape.
  destruct (updatedAt (stock s)) as [u|] eqn:Eu; [|discriminate].
  destruct (items (stock s)) as [|e its] eqn:Ei; [discriminate|].
  injection Hshape as <- <-.
  cbn [runId lines]. rewrite <- Ei. rewrite trim_makeRunId.
  assert (Hfind : find (Replan.isRun (Replan.makeRunId now))
                    (runs {| stock := stock s;
                             runs := {| runId := Replan.makeRunId now;
                                        createdAt := now;
                                        categoryFilter :=
                                          if nonEmpty cf then cf else "All";
                                        salesFileName := name;
                                        lines :=
                                          Replan.generateLines collate s cf
                                                               sales |}
                                     :: runs s;
                             newCollection := newCollection s;
                             limits := limits s |})
                  = Some {| runId := Replan.makeRunId now;
                            createdAt := now;
                            categoryFilter :=
                              if nonEmpty cf then cf else "All";
                            salesFileName := name;
                            lines :=
                              Replan.generateLines collate s cf sales |}).
  { cbn [runs find]. unfold Replan.isRun at 1. cbn [runId].
    now rewrite String.eqb_refl. }
  split.
  - intros l Hin Htrim. apply trimmed_spec in Htrim. rewrite Htrim.
    destruct (generateLines_ready _ _ _ _ _ Hin)
      as (Hst & Hid & st & Hget & Hsq & Hq).
    rewrite (replan_execute_found _ _ _ _ _ l (makeRunId_nonEmpty now) Hid
               Hfind).
    2:{ cbn [lines]. apply (find_by_key lineId); [|exact Hin].
        apply generateLines_NoDup. }
    rewrite Hst. cbn [isDone stock items]. rewrite Hget.
    destruct (st_qty st <? pullQty l) eqn:E;
      [apply Z.ltb_lt in E; lia|].
    cbn [fst]. now rewrite Hsq.
  - rewrite (BulkTheorems.replan_executeAll_found _ now' _ _
               (nonEmpty_true _ (makeRunId_nonEmpty now)) Hfind).
    eexists. eexists. split; [reflexivity|].
    cbn [lines stock items].
    pose proof (replan_loop_bulk now'
                  (Replan.generateLines collate s cf sales)
                  (items (stock s))) as Hb.
    apply (loop_all lineId pullQty (fun l => isDone (status l))
             Replan.markDone) in Hb.
    + destruct Hb as (H1 & H2 & H3 & H4).
      split; [exact H2|]. split; [exact H3|]. split; [exact H1|].
      split.
      { rewrite H1. apply Forall_forall. intros l' Hl'.
        apply in_map_iff in Hl'. destruct Hl' as [l [<- _]].
        split; reflexivity. }
      intros l Hin. destruct (H4 l Hin) as (st & Hg & HgF).
      destruct (generateLines_ready _ _ _ _ _ Hin)
        as (_ & _ & st' & Hget & Hsq & _).
      rewrite Hg in Hget. injection Hget as <-.
      exists st. split; [exact Hg|]. split; [exact Hsq|].
      rewrite <- Hsq. exact HgF.
    + apply generateLines_NoDup.
    + intros l Hin.
      destruct (generateLines_ready _ _ _ _ _ Hin)
        as (Hst & _ & st & Hget & _ & Hq).
      rewrite Hst. split; [reflexivity|]. eauto.
Qed.

Lemma fresh_run_executes_witness :
  Replan.replan_generate codeUnitCompare Demo.stocked13 2000 ""
    "sales.xlsx" Demo.salesRows
  = (inr {| runId := "RUN-2000"; createdAt := 2000; categoryFilter := "All";
            salesFileName := "sales.xlsx"; lines := [Demo.plannedLine] |},
     Demo.planned)
  /\ trimmed (lineId Demo.plannedLine) = true
  /\ fst (replan_execute_request Demo.planned 3000 "RUN-2000" "1||M||Red")
     = Replan.Executed (Replan.markDone 3000 Demo.plannedLine) 7.
Proof.
  assert (Hgen :
    Replan.replan_generate codeUnitCompare Demo.stocked13 2000 ""
      "sales.xlsx" Demo.salesRows
    = (inr {| runId := "RUN-2000"; createdAt := 2000;
              categoryFilter := "All"; salesFileName := "sales.xlsx";
              lines := [Demo.plannedLine] |}, Demo.planned))
    by (vm_compute; reflexivity).
  split; [exact Hgen|]. split; [reflexivity|].
  exact (proj1 (fresh_run_executes _ _ _ 3000 _ _ _ _ _ Hgen) Demo.plannedLine
           (or_introl eq_refl) eq_refl).
Defined.

End ComposeTheorems.

(* ================================================================== *)
(** * What execution never does *)
(* ================================================================== *)

Module MarkFacts.
Import Js Data Props Sound JsFacts ExecuteFacts BulkFacts BulkTransfer.

Lemma Forall2_refl {A : Type} (R : A -> A -> Prop) l :
  (forall x, R x x) -> Forall2 R l l.
Proof. intros H. induction l; constructor; auto. Qed.

Lemma lineStep_refl now l : lineStep now l l.
Proof. now left. Qed.

Lemma newLineStep_refl now x : newLineStep now x x.
Proof. now left. Qed.

Lemma runStep_refl now r : runStep now r r.
Proof.
  repeat split. apply Forall2_refl. apply lineStep_refl.
Qed.

Lemma runStep_lines now r ls :
  Forall2 (lineStep now) (lines r) ls -> runStep now r (Replan.with_lines r ls).
Proof. intros H. repeat split. exact H. Qed.

(** No run with the identifier, no line with the identifier. *)
Lemma find_absent {A : Type} (p : A -> bool) l :
  (forall x, In x l -> p x = false) -> find p l = None.
Proof.
  induction l as [|x l IH]; simpl; intros H; [reflexivity|].
  rewrite (H x (or_introl eq_refl)). apply IH. auto.
Qed.

(** Single execution tests [have < need] only: it lowers the quantity of
    the key when the need of the line found is not negative, which the
    bulk loop checks and single execution does not. *)
Lemma replan_execute_steps s now rid lid :
  Forall2 (runStep now) (runs s)
          (runs (snd (Replan.replan_execute s now rid lid)))
  /\ obj_keys (items (stock (snd (Replan.replan_execute s now rid lid))))
     = obj_keys (items (stock s))
  /\ ((forall run line,
         find (Replan.isRun rid) (runs s) = Some run ->
         find (Replan.isLine lid) (lines run) = Some line ->
         0 <= pullQty line) ->
      below (items (stock (snd (Replan.replan_execute s now rid lid))))
            (items (stock s)))
  /\ newCollection (snd (Replan.replan_execute s now rid lid))
     = newCollection s
  /\ limits (snd (Replan.replan_execute s now rid lid)) = limits s.
Proof.
  assert (Hsame : Forall2 (runStep now) (runs s) (runs s)
                  /\ obj_keys (items (stock s)) = obj_keys (items (stock s))
                  /\ ((forall run line,
                         find (Replan.isRun rid) (runs s) = Some run ->
                         find (Replan.isLine lid) (lines run) = Some line ->
                         0 <= pullQty line) ->
                      below (items (stock s)) (items (stock s)))
                  /\ newCollection s = newCollection s
                  /\ limits s = limits s).
  { split; [apply Forall2_refl, runStep_refl|].
    split; [reflexivity|]. split; [intros _; apply below_refl|]. auto. }
  unfold Replan.replan_execute.
  destruct (negb (nonEmpty rid) || negb (nonEmpty lid))%bool; [exact Hsame|].
  destruct (find (Replan.isRun rid) (runs s)) as [run|] eqn:Er;
    [|exact Hsame].
  destruct (find (Replan.isLine lid) (lines run)) as [line|] eqn:El;
    [|exact Hsame].
  destruct (isDone (status line)) eqn:Ed; [exact Hsame|].
  destruct (obj_get (items (stock s)) lid) as [st|] eqn:Eg; [|exact Hsame].
  destruct (st_qty st <? pullQty line) eqn:Eq; [exact Hsame|].
  apply Z.ltb_ge in Eq. clear Hsame.
  cbn [snd runs stock items newCollection limits Replan.with_runs with_stock
       with_items].
  split.
  { apply update_first_Forall2; [apply runStep_refl|].
    intros x Hx. rewrite Er in Hx. injection Hx as <-.
    apply runStep_lines.
    apply update_first_Forall2; [apply lineStep_refl|].
    intros y Hy. rewrite El in Hy. injection Hy as <-.
    right. split; [now apply isDone_false_pending | reflexivity]. }
  split; [eapply obj_set_keys; eassumption|].
  split; [|auto].
  intros Hneed. specialize (Hneed run line eq_refl El).
  apply (below_set _ _ _ _ Eg). cbn [with_qty st_qty]. lia.
Qed.

Lemma newcollection_execute_steps s now lid :
  Forall2 (newLineStep now) (nc_items (newCollection s))
          (nc_items (newCollection (snd (NewC.newcollection_execute s now lid))))
  /\ obj_keys (items (stock (snd (NewC.newcollection_execute s now lid))))
     = obj_keys (items (stock s))
  /\ ((forall line,
         find (NewC.isLine lid) (nc_items (newCollection s)) = Some line ->
         0 <= nc_qty line) ->
      below (items (stock (snd (NewC.newcollection_execute s now lid))))
            (items (stock s)))
  /\ runs (snd (NewC.newcollection_execute s now lid)) = runs s
  /\ limits (snd (NewC.newcollection_execute s now lid)) = limits s.
Proof.
  assert (Hsame : Forall2 (newLineStep now) (nc_items (newCollection s))
                          (nc_items (newCollection s))
                  /\ obj_keys (items (stock s)) = obj_keys (items (stock s))
                  /\ ((forall line,
                         find (NewC.isLine lid) (nc_items (newCollection s))
                         = Some line ->
                         0 <= nc_qty line) ->
                      below (items (stock s)) (items (stock s)))
                  /\ runs s = runs s
                  /\ limits s = limits s).
  { split; [apply Forall2_refl, newLineStep_refl|].
    split; [reflexivity|]. split; [intros _; apply below_refl|]. auto. }
  unfold NewC.newcollection_execute.
  destruct (negb (nonEmpty lid)); [exact Hsame|].
  destruct (find (NewC.isLine lid) (nc_items (newCollection s)))
    as [line|] eqn:El; [|exact Hsame].
  destruct (isDone (nc_status line)) eqn:Ed; [exact Hsame|].
  destruct (obj_get (items (stock s)) lid) as [st|] eqn:Eg; [|exact Hsame].
  destruct (st_qty st <? nc_qty line) eqn:Eq; [exact Hsame|].
  apply Z.ltb_ge in Eq. clear Hsame.
  cbn [snd runs stock items newCollection limits nc_items
       NewC.with_newCollection NewC.with_lines with_stock with_items].
  split.
  { apply update_first_Forall2; [apply newLineStep_refl|].
    intros y Hy. rewrite El in Hy. injection Hy as <-.
    right. split; [now apply isDone_false_pending | reflexivity]. }
  split; [eapply obj_set_keys; eassumption|].
  split; [|auto].
  intros Hneed. specialize (Hneed line eq_refl).
  apply (below_set _ _ _ _ Eg). cbn [with_qty st_qty]. lia.
Qed.

End MarkFacts.

(* ================================================================== *)
(** * Invariants of the store *)
(* ================================================================== *)

Module SoundFacts.
Import Js Data Props Sound JsFacts ExecuteFacts GenerateFacts StockFacts
       BulkFacts BulkTransfer MarkFacts.

(** ** Bulk execution, as steps of the lines *)

Lemma replan_executeAll_steps s now rid :
  Forall2 (runStep now) (runs s)
          (runs (snd (Replan.replan_executeAll s now rid)))
  /\ obj_keys (items (stock (snd (Replan.replan_executeAll s now rid))))
     = obj_keys (items (stock s))
  /\ below (items (stock (snd (Replan.replan_executeAll s now rid))))
           (items (stock s))
  /\ (wellKeyed (items (stock s)) ->
      wellKeyed (items (stock (snd (Replan.replan_executeAll s now rid)))))
  /\ newCollection (snd (Replan.replan_executeAll s now rid))
     = newCollection s
  /\ limits (snd (Replan.replan_executeAll s now rid)) = limits s.
Proof.
  assert (Hsame : Forall2 (runStep now) (runs s) (runs s)
                  /\ obj_keys (items (stock s)) = obj_keys (items (stock s))
                  /\ below (items (stock s)) (items (stock s))
                  /\ (wellKeyed (items (stock s)) ->
                      wellKeyed (items (stock s)))
                  /\ newCollection s = newCollection s
                  /\ limits s = limits s).
  { split; [apply Forall2_refl, runStep_refl|].
    split; [reflexivity|]. split; [apply below_refl|]. auto. }
  unfold Replan.replan_executeAll.
  destruct (negb (nonEmpty rid)); [exact Hsame|].
  destruct (find (Replan.isRun rid) (runs s)) as [run|] eqn:Er;
    [|exact Hsame].
  clear Hsame.
  cbn [snd runs stock items newCollection limits Replan.with_runs with_stock
       with_items].
  pose proof (replan_loop_bulk now (lines run) (items (stock s))) as Hb.
  split.
  { apply update_first_Forall2; [apply runStep_refl|].
    intros x Hx. rewrite Er in Hx. injection Hx as <-.
    apply runStep_lines. apply BulkTheorems.lineStep_of.
    exact (loop_lines _ _ _ _ _ _ _ _ _ _ _ Hb). }
  split; [exact (loop_keys _ _ _ _ _ _ _ _ _ _ _ Hb)|].
  split; [exact (loop_below _ _ _ _ _ _ _ _ _ _ _ Hb)|].
  split; [exact (loop_wellKeyed _ _ _ _ _ _ _ _ _ _ _ Hb)|].
  auto.
Qed.

Lemma newcollection_executeAll_steps s now :
  Forall2 (newLineStep now) (nc_items (newCollection s))
          (nc_items (newCollection (snd (NewC.newcollection_executeAll s now))))
  /\ obj_keys (items (stock (snd (NewC.newcollection_executeAll s now))))
     = obj_keys (items (stock s))
  /\ below (items (stock (snd (NewC.newcollection_executeAll s now))))
           (items (stock s))
  /\ (wellKeyed (items (stock s)) ->
      wellKeyed (items (stock (snd (NewC.newcollection_executeAll s now)))))
  /\ runs (snd (NewC.newcollection_executeAll s now)) = runs s
  /\ limits (snd (NewC.newcollection_executeAll s now)) = limits s.
Proof.
  unfold NewC.newcollection_executeAll.
  cbn [snd runs stock items newCollection limits nc_items
       NewC.with_newCollection NewC.with_lines with_stock with_items].
  pose proof (newc_loop_bulk now (nc_items (newCollection s))
                (items (stock s))) as Hb.
  split; [apply BulkTheorems.newLineStep_of; exact (loop_lines _ _ _ _ _ _ _ _ _ _ _ Hb)|].
  split; [exact (loop_keys _ _ _ _ _ _ _ _ _ _ _ Hb)|].
  split; [exact (loop_below _ _ _ _ _ _ _ _ _ _ _ Hb)|].
  split; [exact (loop_wellKeyed _ _ _ _ _ _ _ _ _ _ _ Hb)|].
  auto.
Qed.

Lemma replan_execute_wellKeyed s now rid lid :
  wellKeyed (items (stock s)) ->
  wellKeyed (items (stock (snd (Replan.replan_execute s now rid lid)))).
Proof.
  intros Hw. unfold Replan.replan_execute.
  repeat branch; try exact Hw.
  cbn [snd stock items Replan.with_runs with_stock with_items].
  now apply wellKeyed_set.
Qed.

Lemma newcollection_execute_wellKeyed s now lid :
  wellKeyed (items (stock s)) ->
  wellKeyed (items (stock (snd (NewC.newcollection_execute s now lid)))).
Proof.
  intros Hw. unfold NewC.newcollection_execute.
  repeat branch; try exact Hw.
  cbn [snd stock items NewC.with_newCollection with_stock with_items].
  now apply wellKeyed_set.
Qed.

(** ** The steps keep the lines sound *)

Lemma dated_done now : dated Done (Some now).
Proof. discriminate. Qed.

Lemma lineStep_sound now l l' : lineStep now l l' -> lineSound l -> lineSound l'.
Proof.
  intros [->|[_ ->]] Hs; [exact Hs|].
  destruct Hs as (H1 & H2 & H3 & H4 & H5 & _).
  repeat split; auto. discriminate.
Qed.

Lemma lineStep_id now l l' : lineStep now l l' -> lineId l' = lineId l.
Proof. intros [->|[_ ->]]; reflexivity. Qed.

Lemma lineSteps_ids now ls ls' :
  Forall2 (lineStep now) ls ls' -> map lineId ls' = map lineId ls.
Proof.
  induction 1 as [|l l' ls ls' H _ IH]; simpl; [reflexivity|].
  now rewrite (lineStep_id _ _ _ H), IH.
Qed.

Lemma lineSteps_sound now ls ls' :
  Forall2 (lineStep now) ls ls' -> Forall lineSound ls -> Forall lineSound ls'.
Proof.
  induction 1 as [|l l' ls ls' H _ IH]; intros Hs; [constructor|].
  inversion Hs; subst. constructor; [eapply lineStep_sound; eauto | auto].
Qed.

Lemma runStep_sound now r r' : runStep now r r' -> runSound r -> runSound r'.
Proof.
  intros (_ & _ & _ & _ & Hl) [Hnd Hs]. split.
  - now rewrite (lineSteps_ids _ _ _ Hl).
  - eapply lineSteps_sound; eassumption.
Qed.

Lemma runSteps_sound now rs rs' :
  Forall2 (runStep now) rs rs' -> Forall runSound rs -> Forall runSound rs'.
Proof.
  induction 1 as [|r r' rs rs' H _ IH]; intros Hs; [constructor|].
  inversion Hs; subst. constructor; [eapply runStep_sound; eauto | auto].
Qed.

Lemma newLineStep_sound now items items' x x' :
  obj_keys items' = obj_keys items ->
  newLineStep now x x' -> newLineSound items x -> newLineSound items' x'.
Proof.
  intros Hk Hstep (H1 & H2 & H3 & H4). unfold newLineSound. rewrite Hk.
  destruct Hstep as [->|[_ ->]]; [auto|].
  repeat split; auto. discriminate.
Qed.

Lemma newLineSteps_ids now ls ls' :
  Forall2 (newLineStep now) ls ls' -> map nc_lineId ls' = map nc_lineId ls.
Proof.
  induction 1 as [|l l' ls ls' H _ IH]; simpl; [reflexivity|].
  rewrite IH. destruct H as [->|[_ ->]]; reflexivity.
Qed.

Lemma newLineSteps_sound now items items' ls ls' :
  obj_keys items' = obj_keys items ->
  Forall2 (newLineStep now) ls ls' ->
  Forall (newLineSound items) ls -> Forall (newLineSound items') ls'.
Proof.
  intros Hk. induction 1 as [|l l' ls ls' H _ IH]; intros Hs; [constructor|].
  inversion Hs; subst.
  constructor; [eapply newLineStep_sound; eauto | auto].
Qed.

Lemma newLines_keys items items' ls :
  obj_keys items' = obj_keys items ->
  Forall (newLineSound items) ls -> Forall (newLineSound items') ls.
Proof.
  intros Hk Hs. eapply Forall_impl; [|exact Hs].
  intros x (H1 & H2). split; [now rewrite Hk | exact H2].
Qed.

(** ** A new snapshot, a new run *)

Lemma fold_snapshot_key parsed : forall acc k st,
  In (k, st)
     (fold_left
        (fun newItems it =>
           obj_set newItems (makeKey (r_sku it) (r_size it) (r_color it))
             {| st_sku := r_sku it; st_size := r_size it;
                st_color := r_color it; st_category := r_category it;
                st_qty := r_qty it |})
        parsed acc) ->
  In (k, st) acc \/ k = makeKey (st_sku st) (st_size st) (st_color st).
Proof.
  induction parsed as [|r parsed IH]; intros acc k st Hin; [now left|].
  cbn [fold_left] in Hin. apply IH in Hin.
  destruct Hin as [Hin|Hk]; [|now right].
  apply In_obj_set in Hin. destruct Hin as [Hin|[-> ->]]; [now left|].
  right. reflexivity.
Qed.

Lemma buildSnapshot_wellKeyed parsed : wellKeyed (Stock.buildSnapshot parsed).
Proof.
  split; [apply buildSnapshot_NoDup|].
  intros k st Hin. apply fold_snapshot_key in Hin.
  destruct Hin as [[]|Hk]. exact Hk.
Qed.

Lemma pendingLine_sound items key st :
  wellKeyed items -> obj_get items key = Some st ->
  newLineSound items (Stock.pendingLine key st).
Proof.
  intros [_ Hkey] Hget. repeat split.
  - apply obj_get_keys. eauto.
  - cbn. apply Hkey. now apply obj_get_In.
Qed.

Lemma generateLines_sound collate s cf sales :
  wellKeyed (items (stock s)) ->
  Forall lineSound (Replan.generateLines collate s cf sales).
Proof.
  intros [_ Hkey]. apply Forall_forall. intros l Hin.
  apply generateLines_In in Hin.
  destruct Hin as (key & st & _ & Hq & Hget & _ & Hb & Hp & ->).
  unfold lineSound, lineOf.
  cbn [salesQty pullQty balance stockQty lineId sku size color status
       executedAt dated].
  repeat split; auto.
  - apply LimitsFacts.clampPull_le. lia.
  - apply Hkey. now apply obj_get_In.
Qed.

(** ** Every reachable store is sound *)

Lemma reachable_sound s : Reachable s -> sound s.
Proof.
  induction 1 as
    [ | s now name parsed _ IH | s now _ IH | s collate now cf name sales _ IH
      | s now rid lid _ IH | s now rid _ IH | s now lid _ IH | s now _ IH
      | s lim _ IH ].
  - repeat split; try constructor. intros k st [].
  - destruct IH as (_ & _ & Hruns).
    pose proof (buildSnapshot_wellKeyed parsed) as Hw.
    split; [exact Hw|]. split; [|exact Hruns].
    unfold batchSound. rewrite stock_update_items. cbn [items].
    destruct (items (stock s)) as [|e old] eqn:Eold.
    + rewrite (stock_update_base _ _ _ _ Eold). cbn [nc_items].
      split; [apply baseLines_NoDup, buildSnapshot_NoDup|].
      apply Forall_forall. intros x Hx. apply baseLines_In in Hx.
      destruct Hx as (key & st & Hget & _ & ->).
      now apply pendingLine_sound.
    + assert (Hne : items (stock s) <> []) by congruence.
      rewrite (stock_update_new _ _ _ _ Hne). cbn [nc_items].
      split; [apply updateLines_NoDup, buildSnapshot_NoDup|].
      apply Forall_forall. intros x Hx. apply updateLines_In in Hx.
      destruct Hx as (key & st & _ & Hget & _ & ->).
      now apply pendingLine_sound.
  - repeat split; try constructor. intros k st [].
  - destruct IH as (Hw & Hb & Hruns).
    assert (Hs : sound s) by (split; [exact Hw|split; [exact Hb|exact Hruns]]).
    unfold Replan.replan_generate.
    destruct (updatedAt (stock s)); [|exact Hs].
    destruct (items (stock s)) eqn:Ei; [exact Hs|].
    clear Hs. rewrite <- Ei in *. cbn [snd].
    split; [exact Hw|]. split; [exact Hb|].
    cbn [runs]. constructor; [|exact Hruns].
    split; cbn [lines];
      [apply generateLines_NoDup | now apply generateLines_sound].
  - destruct IH as (Hw & [Hnd Hb] & Hruns).
    destruct (replan_execute_steps s now rid lid)
      as (Hsteps & Hkeys & _ & Hnc & _).
    split; [now apply replan_execute_wellKeyed|]. split.
    + unfold batchSound. rewrite Hnc. split; [exact Hnd|].
      eapply newLines_keys; eassumption.
    + eapply runSteps_sound; eassumption.
  - destruct IH as (Hw & [Hnd Hb] & Hruns).
    destruct (replan_executeAll_steps s now rid)
      as (Hsteps & Hkeys & _ & Hwk & Hnc & _).
    split; [auto|]. split.
    + unfold batchSound. rewrite Hnc. split; [exact Hnd|].
      eapply newLines_keys; eassumption.
    + eapply runSteps_sound; eassumption.
  - destruct IH as (Hw & [Hnd Hb] & Hruns).
    destruct (newcollection_execute_steps s now lid)
      as (Hsteps & Hkeys & _ & Hr & _).
    split; [now apply newcollection_execute_wellKeyed|]. split.
    + split; [now rewrite (newLineSteps_ids _ _ _ Hsteps)|].
      eapply newLineSteps_sound; eassumption.
    + now rewrite Hr.
  - destruct IH as (Hw & [Hnd Hb] & Hruns).
    destruct (newcollection_executeAll_steps s now)
      as (Hsteps & Hkeys & _ & Hwk & Hr & _).
    split; [auto|]. split.
    + split; [now rewrite (newLineSteps_ids _ _ _ Hsteps)|].
      eapply newLineSteps_sound; eassumption.
    + now rewrite Hr.
  - exact IH.
Qed.

End SoundFacts.

Module SoundTheorems.
Import Js Data Props Sound JsFacts ExecuteFacts BulkFacts BulkTransfer
       MarkFacts SoundFacts.

Lemma demo_pulled_reachable : Reachable Demo.pulled.
Proof.
  apply reach_execute. apply reach_generate.
  apply (reach_limits Demo.stocked). apply reach_update. apply reach_empty.
Qed.

Lemma demo_shelved_reachable : Reachable Demo.shelved.
Proof. apply reach_new_execute. apply reach_update. apply reach_empty. Qed.

(** X4.  In every store the handlers can reach, the ledger holds each key
    once and every item sits under the key sku||size||color made of its
    own fields: uploads, clears and executions never duplicate a key or
    detach an item from its key. *)
Theorem reachable_ledger_keyed s :
  Reachable s ->
  NoDup (obj_keys (items (stock s)))
  /\ forall k st,
       obj_get (items (stock s)) k = Some st ->
       k = makeKey (st_sku st) (st_size st) (st_color st).
Proof.
  intros Hr. destruct (reachable_sound s Hr) as ([Hnd Hkey] & _).
  split; [exact Hnd|]. intros k st Hget. apply Hkey.
  now apply obj_get_In.
Qed.

Lemma reachable_ledger_keyed_witness :
  Reachable Demo.pulled
  /\ NoDup (obj_keys (items (stock Demo.pulled)))
  /\ forall k st,
       obj_get (items (stock Demo.pulled)) k = Some st ->
       k = makeKey (st_sku st) (st_size st) (st_color st).
Proof.
  split; [exact demo_pulled_reachable|].
  exact (reachable_ledger_keyed Demo.pulled demo_pulled_reachable).
Defined.

(** X5.  In every reachable store, every line of every run of the history
    still has what it was generated with, whether it has been executed or
    not: salesQty > 0, 0 < pullQty <= balance = stockQty - salesQty, a
    lineId that is the key of its own SKU, size and color, an execution
    time exactly when it is Done; and the lines of a run have distinct
    ids. *)
Theorem reachable_runs_sound s run :
  Reachable s ->
  In run (runs s) ->
  NoDup (map lineId (lines run))
  /\ forall l,
       In l (lines run) ->
       0 < salesQty l
       /\ 0 < pullQty l <= balance l
       /\ balance l = stockQty l - salesQty l
       /\ lineId l = makeKey (sku l) (size l) (color l)
       /\ (status l = Done <-> executedAt l <> None).
Proof.
  intros Hr Hin. destruct (reachable_sound s Hr) as (_ & _ & Hruns).
  rewrite Forall_forall in Hruns. destruct (Hruns run Hin) as [Hnd Hls].
  split; [exact Hnd|]. intros l Hl. rewrite Forall_forall in Hls.
  destruct (Hls l Hl) as (H1 & H2 & H3 & H4 & H5 & H6).
  repeat split; auto.
  - intros Hd. rewrite Hd in H6. exact H6.
  - intros Hne. destruct (status l); [|reflexivity].
    cbn in H6. contradiction.
Qed.

Lemma reachable_runs_sound_witness :
  Reachable Demo.pulled
  /\ In {| runId := "RUN-2000"; createdAt := 2000; categoryFilter := "All";
           salesFileName := "sales.xlsx";
           lines := [Replan.markDone 3000 Demo.plannedLine] |}
        (runs Demo.pulled)
  /\ NoDup (map lineId [Replan.markDone 3000 Demo.plannedLine]).
Proof.
  assert (Hin : In {| runId := "RUN-2000"; createdAt := 2000;
                      categoryFilter := "All"; salesFileName := "sales.xlsx";
                      lines := [Replan.markDone 3000 Demo.plannedLine] |}
                   (runs Demo.pulled)) by (left; reflexivity).
  split; [exact demo_pulled_reachable|]. split; [exact Hin|].
  exact (proj1 (reachable_runs_sound Demo.pulled _ demo_pulled_reachable Hin)).
Defined.

(** X6.  In every reachable store the lines of the new-collection batch
    have distinct ids, quantity 1, and stand for keys the ledger holds.
    So executing a batch line is never refused for an item missing from
    the stock, and a Pending batch line is refused only when its key is
    held in a quantity below 1. *)
Theorem reachable_batch_in_ledger s :
  Reachable s ->
  NoDup (map nc_lineId (nc_items (newCollection s)))
  /\ (forall x,
        In x (nc_items (newCollection s)) ->
        nc_qty x = 1
        /\ nc_lineId x = makeKey (nc_sku x) (nc_size x) (nc_color x)
        /\ (nc_status x = Done <-> nc_executedAt x <> None)
        /\ exists st, obj_get (items (stock s)) (nc_lineId x) = Some st)
  /\ (forall now lid,
        fst (NewC.newcollection_execute s now lid)
        <> NewC.Failed 400 ItemNotInStock)
  /\ (forall now lid x,
        find (NewC.isLine lid) (nc_items (newCollection s)) = Some x ->
        lid <> "" ->
        nc_status x = Pending ->
        NewC.isOk (fst (NewC.newcollection_execute s now lid)) = false ->
        exists st, obj_get (items (stock s)) lid = Some st /\ st_qty st < 1).
Proof.
  intros Hr. destruct (reachable_sound s Hr) as (_ & [Hnd Hb] & _).
  rewrite Forall_forall in Hb.
  assert (Hheld : forall lid x,
            find (NewC.isLine lid) (nc_items (newCollection s)) = Some x ->
            nc_qty x = 1
            /\ exists st, obj_get (items (stock s)) lid = Some st).
  { intros lid x Hf. apply find_some in Hf. destruct Hf as [Hin Hid].
    apply String.eqb_eq in Hid. rewrite <- Hid.
    destruct (Hb x Hin) as (Hk & Hq & _). split; [exact Hq|].
    now apply obj_get_keys. }
  split; [exact Hnd|]. split; [|split].
  - intros x Hin. destruct (Hb x Hin) as (Hk & Hq & Hid & Hd).
    split; [exact Hq|]. split; [exact Hid|]. split.
    + split.
      * intros E. rewrite E in Hd. exact Hd.
      * intros Hne. destruct (nc_status x); [|reflexivity].
        cbn in Hd. contradiction.
    + now apply obj_get_keys.
  - intros now lid. unfold NewC.newcollection_execute.
    destruct (negb (nonEmpty lid)); [discriminate|].
    destruct (find (NewC.isLine lid) (nc_items (newCollection s)))
      as [x|] eqn:Ef; [|discriminate].
    destruct (isDone (nc_status x)); [discriminate|].
    destruct (Hheld lid x Ef) as (_ & st & Hget). rewrite Hget.
    destruct (st_qty st <? nc_qty x); discriminate.
  - intros now lid x Hf Hl Hst Hfail.
    destruct (Hheld lid x Hf) as (Hq & st & Hget).
    rewrite (newcollection_execute_found _ _ _ _ Hl Hf), Hst, Hget, Hq in Hfail.
    cbn [isDone] in Hfail.
    destruct (st_qty st <? 1) eqn:E; [|discriminate].
    apply Z.ltb_lt in E. eauto.
Qed.

Lemma reachable_batch_in_ledger_witness :
  Reachable Demo.shelved
  /\ NoDup (map nc_lineId (nc_items (newCollection Demo.shelved)))
  /\ forall now lid,
       fst (NewC.newcollection_execute Demo.shelved now lid)
       <> NewC.Failed 400 ItemNotInStock.
Proof.
  split; [exact demo_shelved_reachable|].
  split.
  - exact (proj1 (reachable_batch_in_ledger Demo.shelved
                    demo_shelved_reachable)).
  - exact (proj1 (proj2 (proj2 (reachable_batch_in_ledger Demo.shelved
                                   demo_shelved_reachable)))).
Defined.

(** X7.  On a reachable store no execution, single or bulk, of a run or
    of the batch, adds, removes or reorders a run or a line, or changes a
    line otherwise than by marking a Pending line Done at the time of the
    call; none adds or removes a key of the ledger or raises a quantity;
    executing a run leaves the batch alone and executing the batch leaves
    the runs alone. *)
Theorem execution_only_marks s now :
  Reachable s ->
  (forall rid lid,
      let s' := snd (Replan.replan_execute s now rid lid) in
      Forall2 (runStep now) (runs s) (runs s')
      /\ obj_keys (items (stock s')) = obj_keys (items (stock s))
      /\ below (items (stock s')) (items (stock s))
      /\ newCollection s' = newCollection s)
  /\ (forall rid,
      let s' := snd (Replan.replan_executeAll s now rid) in
      Forall2 (runStep now) (runs s) (runs s')
      /\ obj_keys (items (stock s')) = obj_keys (items (stock s))
      /\ below (items (stock s')) (items (stock s))
      /\ newCollection s' = newCollection s)
  /\ (forall lid,
      let s' := snd (NewC.newcollection_execute s now lid) in
      Forall2 (newLineStep now) (nc_items (newCollection s))
              (nc_items (newCollection s'))
      /\ obj_keys (items (stock s')) = obj_keys (items (stock s))
      /\ below (items (stock s')) (items (stock s))
      /\ runs s' = runs s)
  /\ (let s' := snd (NewC.newcollection_executeAll s now) in
      Forall2 (newLineStep now) (nc_items (newCollection s))
              (nc_items (newCollection s'))
      /\ obj_keys (items (stock s')) = obj_keys (items (stock s))
      /\ below (items (stock s')) (items (stock s))
      /\ runs s' = runs s).
Proof.
  intros Hr. destruct (reachable_sound s Hr) as (_ & [_ Hb] & Hruns).
  rewrite Forall_forall in Hb, Hruns.
  split; [|split; [|split]].
  - intros rid lid s'. subst s'.
    destruct (replan_execute_steps s now rid lid)
      as (H1 & H2 & H3 & H4 & _).
    split; [exact H1|]. split; [exact H2|]. split; [|exact H4].
    apply H3. intros run line Hf Hl.
    apply find_some in Hf. destruct Hf as [Hin _].
    apply find_some in Hl. destruct Hl as [Hlin _].
    destruct (Hruns run Hin) as [_ Hls]. rewrite Forall_forall in Hls.
    destruct (Hls line Hlin) as (_ & Hp & _). lia.
  - intros rid s'. subst s'.
    destruct (replan_executeAll_steps s now rid)
      as (H1 & H2 & H3 & _ & H4 & _). auto.
  - intros lid s'. subst s'.
    destruct (newcollection_execute_steps s now lid)
      as (H1 & H2 & H3 & H4 & _).
    split; [exact H1|]. split; [exact H2|]. split; [|exact H4].
    apply H3. intros line Hf. apply find_some in Hf. destruct Hf as [Hin _].
    destruct (Hb line Hin) as (_ & Hq & _). lia.
  - intros s'. subst s'.
    destruct (newcollection_executeAll_steps s now)
      as (H1 & H2 & H3 & _ & H4 & _). auto.
Qed.

Lemma execution_only_marks_witness :
  Reachable Demo.planned
  /\ below (items (stock (snd (Replan.replan_execute Demo.planned 3000
                                 "RUN-2000" "1||M||Red"))))
           (items (stock Demo.planned)).
Proof.
  assert (Hr : Reachable Demo.planned).
  { apply reach_generate. apply (reach_limits Demo.stocked).
    apply reach_update. apply reach_empty. }
  split; [exact Hr|].
  exact (proj1 (proj2 (proj2 (proj1 (execution_only_marks Demo.planned 3000 Hr)
                                 "RUN-2000" "1||M||Red")))).
Defined.

End SoundTheorems.

(* ================================================================== *)
(** * Refusals of single execution *)
(* ================================================================== *)

Module RefusalTheorems.
Import Js Data Props Sound JsFacts ExecuteFacts MarkFacts.

(** X8.  Single execution of a replan line answers 400 for an empty
    identifier, 404 when no run has the run identifier, 404 when the run
    found has no line with the line identifier, and 400 when the line is
    Pending and the ledger does not hold its key; single execution of a
    batch line answers likewise.  Whatever the request, the store is
    changed only when the answer is Executed. *)
Theorem execute_refusals :
  (forall s now rid lid,
      (rid = "" \/ lid = "" ->
       Replan.replan_execute s now rid lid
       = (Replan.Failed 400 MissingField, s))
      /\ (rid <> "" -> lid <> "" ->
          (forall r, In r (runs s) -> runId r <> rid) ->
          Replan.replan_execute s now rid lid
          = (Replan.Failed 404 RunNotFound, s))
      /\ (forall run,
            rid <> "" -> lid <> "" ->
            find (Replan.isRun rid) (runs s) = Some run ->
            (forall l, In l (lines run) -> lineId l <> lid) ->
            Replan.replan_execute s now rid lid
            = (Replan.Failed 404 LineNotFound, s))
      /\ (forall run line,
            rid <> "" -> lid <> "" ->
            find (Replan.isRun rid) (runs s) = Some run ->
            find (Replan.isLine lid) (lines run) = Some line ->
            status line = Pending ->
            obj_get (items (stock s)) lid = None ->
            Replan.replan_execute s now rid lid
            = (Replan.Failed 400 ItemNotInStock, s))
      /\ ((exists line q,
             fst (Replan.replan_execute s now rid lid)
             = Replan.Executed line q)
          \/ snd (Replan.replan_execute s now rid lid) = s))
  /\ (forall s now lid,
      (lid = "" ->
       NewC.newcollection_execute s now lid
       = (NewC.Failed 400 MissingField, s))
      /\ (lid <> "" ->
          (forall x, In x (nc_items (newCollection s)) -> nc_lineId x <> lid) ->
          NewC.newcollection_execute s now lid
          = (NewC.Failed 404 LineNotFound, s))
      /\ (forall line,
            lid <> "" ->
            find (NewC.isLine lid) (nc_items (newCollection s)) = Some line ->
            nc_status line = Pending ->
            obj_get (items (stock s)) lid = None ->
            NewC.newcollection_execute s now lid
            = (NewC.Failed 400 ItemNotInStock, s))
      /\ ((exists line q,
             fst (NewC.newcollection_execute s now lid)
             = NewC.Executed line q)
          \/ snd (NewC.newcollection_execute s now lid) = s)).
Proof.
  split.
  - intros s now rid lid. split; [|split; [|split; [|split]]].
    + intros [-> | ->]; unfold Replan.replan_execute; cbn [nonEmpty negb orb];
        [reflexivity|]. now destruct (negb (nonEmpty rid)).
    + intros Hr Hl Hnone. unfold Replan.replan_execute.
      rewrite (nonEmpty_true _ Hr), (nonEmpty_true _ Hl). cbn [negb orb].
      rewrite find_absent; [reflexivity|].
      intros r Hin. apply String.eqb_neq. now apply Hnone.
    + intros run Hr Hl Hrun Hnone. unfold Replan.replan_execute.
      rewrite (nonEmpty_true _ Hr), (nonEmpty_true _ Hl). cbn [negb orb].
      rewrite Hrun, find_absent; [reflexivity|].
      intros l Hin. apply String.eqb_neq. now apply Hnone.
    + intros run line Hr Hl Hrun Hline Hst Hget.
      rewrite (replan_execute_found _ _ _ _ _ _ Hr Hl Hrun Hline).
      now rewrite Hst, Hget.
    + unfold Replan.replan_execute.
      repeat branch; try (right; reflexivity).
      left. eexists. eexists. reflexivity.
  - intros s now lid. split; [|split; [|split]].
    + intros ->. reflexivity.
    + intros Hl Hnone. unfold NewC.newcollection_execute.
      rewrite (nonEmpty_true _ Hl). cbn [negb].
      rewrite find_absent; [reflexivity|].
      intros x Hin. apply String.eqb_neq. now apply Hnone.
    + intros line Hl Hline Hst Hget.
      rewrite (newcollection_execute_found _ _ _ _ Hl Hline).
      now rewrite Hst, Hget.
    + unfold NewC.newcollection_execute.
      repeat branch; try (right; reflexivity).
      left. eexists. eexists. reflexivity.
Qed.

Lemma execute_refusals_witness :
  (forall r, In r (runs Demo.planned) -> runId r <> "RUN-1")
  /\ Replan.replan_execute Demo.planned 3000 "RUN-1" "1||M||Red"
     = (Replan.Failed 404 RunNotFound, Demo.planned).
Proof.
  assert (Hnone : forall r, In r (runs Demo.planned) -> runId r <> "RUN-1").
  { intros r [<-|[]]. discriminate. }
  assert (Hr : "RUN-1" <> "") by discriminate.
  assert (Hl : "1||M||Red" <> "") by discriminate.
  split; [exact Hnone|].
  exact (proj1 (proj2 (proj1 execute_refusals Demo.planned 3000 "RUN-1"
                         "1||M||Red")) Hr Hl Hnone).
Defined.

End RefusalTheorems.


(* ================================================================== *)
(** * Facts on row aggregation *)
(* ================================================================== *)

Module RowsFacts.
Import Js Data Props JsFacts Parsing Rows.

(** ** The SKU of a line *)

Lemma takeDigits_digits s : allDigits (fst (takeDigits s)) = true.
Proof.
  induction s as [|c r IH]; [reflexivity|]. cbn [takeDigits].
  destruct (isDigit c) eqn:E; [|reflexivity].
  destruct (takeDigits r) as [d t]. cbn [fst allDigits] in *.
  now rewrite E, IH.
Qed.

Lemma skuMatch_shape text sku :
  skuMatch text = Some sku -> sku <> "" /\ allDigits sku = true.
Proof.
  induction text as [|c r IH]; [discriminate|]. cbn [skuMatch].
  destruct (Ascii.eqb c "["); [|exact IH].
  pose proof (takeDigits_digits r) as Hd.
  destruct (takeDigits r) as [[|d ds] [|e t]]; try exact IH.
  destruct (Ascii.eqb e "]"); [|exact IH].
  intros [= <-]. split; [discriminate | exact Hd].
Qed.

Lemma parseTextLine_sku text sku :
  skuMatch text = Some sku -> p_sku (parseTextLine text) = sku.
Proof.
  intros H. unfold parseTextLine. rewrite H.
  destruct (rev (parenGroups None text)); [reflexivity|].
  now destruct (classify (partsOf s)).
Qed.

Lemma allDigits_noBar s : allDigits s = true -> noBar s = true.
Proof.
  induction s as [|c r IH]; [reflexivity|]. cbn [allDigits noBar].
  intros H. apply andb_true_iff in H. destruct H as [Hc Hr].
  rewrite (IH Hr), andb_true_r.
  destruct (Ascii.eqb_spec c "|") as [->|]; [discriminate Hc | reflexivity].
Qed.

(** ** The loop is a sum by key over the product lines *)

Lemma aggregate_products rows : forall cat agg,
  aggregate cat agg rows
  = fold_left
      (fun m p => obj_set m (keyOf p) (plus (getOr0 m (keyOf p)) (pr_qty p)))
      (products cat rows) agg.
Proof.
  induction rows as [|[raw qty] rest IH]; intros cat agg; [reflexivity|].
  cbn [aggregate products]. cbv zeta. unfold hasSku.
  destruct (nonEmpty (trim raw)) eqn:Et.
  - cbn [negb andb].
    destruct (skuMatch (trim raw)) as [sku|] eqn:Es.
    + cbn [negb].
      rewrite (parseTextLine_sku _ _ Es).
      destruct (skuMatch_shape _ _ Es) as [Hne _].
      destruct sku as [|a sku']; [congruence|]. cbn [nonEmpty negb].
      cbn [fold_left]. rewrite IH. unfold keyOf.
      cbn [pr_category pr_sku pr_size pr_color pr_qty].
      reflexivity.
    + cbn [negb]. apply IH.
  - cbn [negb andb].
    assert (Hempty : trim raw = "") by (now destruct (trim raw)).
    rewrite Hempty. cbn [skuMatch]. apply IH.
Qed.

Section GroupSum.
Context {A : Type}.
Variables (key : A -> string) (val : A -> Z).

(** Up to 2^53 a sum is exact. *)
Lemma plus_exact a b : Z.abs (a + b) <= 2 ^ 53 -> plus a b = a + b.
Proof.
  intros H. unfold plus, roundDouble. apply Z.leb_le in H. now rewrite H.
Qed.

(** Beyond, it is rounded. *)
Example plus_rounds : plus (2 ^ 53) 1 = 2 ^ 53 /\ plus (2 ^ 53) 3 = 2 ^ 53 + 4.
Proof. split; reflexivity. Qed.

(** The keys filed are keys of the elements, whatever is filed under
    them. *)
Lemma fold_set_keys {V : Type} (f : obj V -> A -> V) l : forall m k v,
  In (k, v) (fold_left (fun m a => obj_set m (key a) (f m a)) l m) ->
  (exists v', In (k, v') m) \/ exists a, In a l /\ key a = k.
Proof.
  induction l as [|a l IH]; intros m k v Hin; [left; eauto|].
  cbn [fold_left] in Hin. apply IH in Hin.
  destruct Hin as [[v' Hin]|[a' [Ha' Hk]]].
  - apply In_obj_set in Hin. destruct Hin as [Hin|[Hk _]].
    + left. eauto.
    + right. exists a. split; [now left | congruence].
  - right. exists a'. split; [now right | exact Hk].
Qed.

Lemma fold_keys_kept {V : Type} (f : obj V -> A -> V) l : forall m k,
  In k (obj_keys m) ->
  In k (obj_keys (fold_left (fun m a => obj_set m (key a) (f m a)) l m)).
Proof.
  induction l as [|a l IH]; intros m k Hin; [exact Hin|].
  cbn [fold_left]. apply IH. apply obj_keys_set. now right.
Qed.

(** When the values add up, in magnitude, to 2^53 at most on top of what
    the map holds, the sums of doubles are the sums. *)
Lemma fold_plus_exact l : forall m B,
  (forall k, Z.abs (getOr0 m k) <= B) ->
  B + fold_right (fun a acc => Z.abs (val a) + acc) 0 l <= 2 ^ 53 ->
  fold_left (fun m a => obj_set m (key a) (plus (getOr0 m (key a)) (val a)))
            l m
  = fold_left (fun m a => obj_set m (key a) (getOr0 m (key a) + val a)) l m.
Proof.
  induction l as [|a l IH]; intros m B Hm Hb; [reflexivity|].
  cbn [fold_left fold_right] in *.
  assert (Hrest : 0 <= fold_right (fun a acc => Z.abs (val a) + acc) 0 l).
  { clear. induction l as [|x l IH]; cbn [fold_right]; lia. }
  pose proof (Hm (key a)) as Ha.
  rewrite plus_exact by lia.
  apply (IH _ (B + Z.abs (val a))); [|lia].
  intros k. unfold getOr0 in *. rewrite obj_get_set.
  destruct (String.eqb (key a) k); [lia|].
  specialize (Hm k). lia.
Qed.

Lemma groupSum_get l : forall m k,
  obj_get
    (fold_left (fun m a => obj_set m (key a) (getOr0 m (key a) + val a)) l m)
    k
  = match pick key k l with
    | [] => obj_get m k
    | _ => Some (getOr0 m k + total val (pick key k l))
    end.
Proof.
  induction l as [|a l IH]; intros m k; [reflexivity|].
  cbn [fold_left]. rewrite IH. clear IH. unfold pick. cbn [filter].
  destruct (String.eqb_spec (key a) k) as [->|Hne].
  - unfold getOr0. rewrite obj_get_set_eq.
    destruct (filter (fun a0 => String.eqb (key a0) k) l);
      unfold total; cbn [fold_right]; f_equal; lia.
  - unfold getOr0. now rewrite (obj_get_set_ne _ _ _ _ Hne).
Qed.

Lemma groupSum_NoDup l :
  NoDup (obj_keys
           (fold_left
              (fun m a => obj_set m (key a) (getOr0 m (key a) + val a)) l [])).
Proof.
  apply (fold_set_NoDup (fun _ a => key a)
           (fun m a => getOr0 m (key a) + val a)).
  constructor.
Qed.

Lemma groupSum_In l k q :
  In (k, q)
     (fold_left (fun m a => obj_set m (key a) (getOr0 m (key a) + val a)) l [])
  <-> pick key k l <> [] /\ q = total val (pick key k l).
Proof.
  split.
  - intros Hin. apply (In_obj_get _ _ _ (groupSum_NoDup l)) in Hin.
    rewrite groupSum_get in Hin.
    destruct (pick key k l); [discriminate|].
    injection Hin as <-. split; [discriminate | reflexivity].
  - intros [Hne ->]. apply obj_get_In. rewrite groupSum_get.
    destruct (pick key k l); [congruence | reflexivity].
Qed.

End GroupSum.

(** ** Splitting a key *)

Lemma append_unit cur a x :
  ((cur ++ String a EmptyString) ++ x)%string = (cur ++ String a x)%string.
Proof. induction cur as [|c cur IH]; cbn; [reflexivity | now rewrite IH]. Qed.

Lemma append_empty cur : (cur ++ "")%string = cur.
Proof. induction cur as [|c cur IH]; cbn; [reflexivity | now rewrite IH]. Qed.

(** A piece without a bar, followed by the separator, is split off
    whole. *)
Lemma splitBars_plain x : forall cur y,
  noBar x = true ->
  splitBars cur (x ++ "||" ++ y) = (cur ++ x)%string :: splitBars "" y.
Proof.
  induction x as [|a x IH]; intros cur y Hx.
  - cbn. now rewrite append_empty.
  - cbn [noBar] in Hx. apply andb_true_iff in Hx. destruct Hx as [Ha Hx].
    change ((String a x ++ "||" ++ y)%string)
      with (String a (x ++ "||" ++ y)%string).
    cbn [splitBars].
    destruct ((x ++ "||" ++ y)%string) as [|b r] eqn:E.
    + destruct x; discriminate.
    + destruct (Ascii.eqb a "|"); [discriminate|]. cbn [andb].
      rewrite <- E, IH by exact Hx. now rewrite append_unit.
Qed.

Lemma splitBars_whole x : forall cur,
  noBar x = true -> splitBars cur x = [(cur ++ x)%string].
Proof.
  induction x as [|a x IH]; intros cur Hx.
  - cbn. now rewrite append_empty.
  - cbn [noBar] in Hx. apply andb_true_iff in Hx. destruct Hx as [Ha Hx].
    cbn [splitBars]. destruct x as [|b r] eqn:E; [reflexivity|].
    destruct (Ascii.eqb a "|"); [discriminate|]. cbn [andb].
    rewrite IH by exact Hx. now rewrite append_unit.
Qed.

(** The key of four fields without a bar splits back into them. *)
Lemma splitBars_aggKey c k z o :
  noBar c = true -> noBar k = true -> noBar z = true -> noBar o = true ->
  splitBars "" (aggKey c k z o) = [c; k; z; o].
Proof.
  intros Hc Hk Hz Ho. unfold aggKey.
  rewrite (splitBars_plain c "" _ Hc), (splitBars_plain k "" _ Hk),
          (splitBars_plain z "" _ Hz), (splitBars_whole o "" Ho).
  reflexivity.
Qed.

(** ** Every key has four parts *)

Lemma splitBars_length s : forall cur cur',
  List.length (splitBars cur s) = List.length (splitBars cur' s).
Proof.
  induction s as [|a r IH]; intros cur cur'; [reflexivity|].
  cbn [splitBars]. destruct r as [|b r']; [reflexivity|].
  destruct (Ascii.eqb a "|" && Ascii.eqb b "|")%bool.
  - reflexivity.
  - apply IH.
Qed.

Lemma bars_cur s cur : List.length (splitBars cur s) = bars s.
Proof. apply splitBars_length. Qed.

Lemma bars_pos s : (1 <= bars s)%nat.
Proof.
  unfold bars. generalize EmptyString as cur.
  induction s as [|a r IH]; intros cur; [cbn; lia|].
  cbn [splitBars]. destruct r as [|b r']; [cbn; lia|].
  destruct (Ascii.eqb a "|" && Ascii.eqb b "|")%bool; [cbn; lia | apply IH].
Qed.

Lemma bars_pair y : bars (String "|" (String "|" y)) = S (bars y).
Proof. reflexivity. Qed.

Lemma splitBars_two cur a b r :
  splitBars cur (String a (String b r))
  = if (Ascii.eqb a "|" && Ascii.eqb b "|")%bool
    then cur :: splitBars "" r
    else splitBars (cur ++ String a "") (String b r).
Proof. reflexivity. Qed.

(** One more character in front never loses a part, and adds one at
    most... *)
Lemma bars_cons_both s : forall a,
  (bars s <= bars (String a s) <= S (bars s))%nat.
Proof.
  induction s as [|b r IH]; intros a; [cbn; lia|].
  unfold bars at 2 3. rewrite splitBars_two.
  destruct (Ascii.eqb a "|" && Ascii.eqb b "|")%bool.
  - cbn [List.length]. fold (bars r). specialize (IH b). lia.
  - rewrite bars_cur. lia.
Qed.

Lemma bars_cons a s : (bars s <= bars (String a s))%nat.
Proof. apply bars_cons_both. Qed.

(** ... and one that is not a bar changes nothing. *)
Lemma bars_skip a r : Ascii.eqb a "|" = false -> bars (String a r) = bars r.
Proof.
  intros Ha. unfold bars at 1. cbn [splitBars]. destruct r as [|b r'].
  - reflexivity.
  - rewrite Ha. cbn [andb]. apply bars_cur.
Qed.

Lemma isDigit_noBar a : isDigit a = true -> Ascii.eqb a "|" = false.
Proof.
  intros Ha. destruct (Ascii.eqb_spec a "|") as [->|]; [discriminate Ha | reflexivity].
Qed.

Lemma bars_digits d : forall z, allDigits d = true -> bars (d ++ z) = bars z.
Proof.
  induction d as [|a d IH]; intros z Hd; [reflexivity|].
  cbn [allDigits] in Hd. apply andb_true_iff in Hd. destruct Hd as [Ha Hd].
  change ((String a d ++ z)%string) with (String a (d ++ z)%string).
  rewrite bars_skip, IH; auto using isDigit_noBar.
Qed.

(** The separator is found after any prefix when a digit follows it. *)
Lemma bars_sep_digit d y x :
  isDigit d = true ->
  (S (bars (String d y)) <= bars (x ++ "||" ++ String d y))%nat.
Proof.
  intros Hd. induction x as [|b x IH].
  - cbn [append]. rewrite bars_pair. lia.
  - change ((String b x ++ "||" ++ String d y)%string)
      with (String b (x ++ "||" ++ String d y)%string).
    pose proof (bars_cons b (x ++ "||" ++ String d y)). lia.
Qed.

(** It is found after any prefix, once at least. *)
Lemma bars_sep_any y x : (2 <= bars (x ++ "||" ++ y))%nat.
Proof.
  induction x as [|b x IH].
  - cbn [append]. rewrite bars_pair. pose proof (bars_pos y). lia.
  - change ((String b x ++ "||" ++ y)%string)
      with (String b (x ++ "||" ++ y)%string).
    pose proof (bars_cons b (x ++ "||" ++ y)). lia.
Qed.

Lemma bars_aggKey c k z o :
  k <> "" -> allDigits k = true -> (4 <= bars (aggKey c k z o))%nat.
Proof.
  intros Hne Hd. unfold aggKey.
  destruct k as [|d k']; [congruence|].
  assert (Hd0 : isDigit d = true).
  { cbn [allDigits] in Hd. now apply andb_true_iff in Hd. }
  pose proof (bars_sep_digit d (k' ++ "||" ++ z ++ "||" ++ o) c Hd0) as H.
  change (String d (k' ++ "||" ++ z ++ "||" ++ o)%string)
    with ((String d k' ++ "||" ++ z ++ "||" ++ o)%string) in H.
  rewrite (bars_digits (String d k') _ Hd) in H.
  change (("||" ++ z ++ "||" ++ o)%string)
    with (String "|" (String "|" (z ++ "||" ++ o)%string)) in H.
  rewrite bars_pair in H.
  pose proof (bars_sep_any o z) as H2.
  eapply Nat.le_trans; [|exact H]. lia.
Qed.

(** ** The products of the rows *)

Lemma products_sku rows : forall cat p,
  In p (products cat rows) -> pr_sku p <> "" /\ allDigits (pr_sku p) = true.
Proof.
  induction rows as [|[raw qty] rest IH]; intros cat p; [intros []|].
  cbn [products]. destruct (skuMatch (trim raw)) as [sku|] eqn:Es.
  - intros [<-|Hin]; [|eauto]. cbn [pr_sku].
    rewrite (parseTextLine_sku _ _ Es). now apply skuMatch_shape in Es.
  - apply IH.
Qed.

End RowsFacts.

Module RowsTheorems.
Import Js Data Props JsFacts Parsing Rows RowsFacts.

Lemma pick_In {A} (key : A -> string) k l :
  pick key k l <> [] -> exists a, In a l /\ key a = k.
Proof.
  unfold pick. destruct (filter _ l) as [|a r] eqn:E; [congruence|].
  intros _. assert (Hin : In a (a :: r)) by now left.
  rewrite <- E in Hin. apply filter_In in Hin. destruct Hin as [Hin Hk].
  apply String.eqb_eq in Hk. eauto.
Qed.

Lemma In_pick {A} (key : A -> string) a l :
  In a l -> pick key (key a) l <> [].
Proof.
  intros Hin. assert (H : In a (pick key (key a) l)).
  { apply filter_In. split; [exact Hin | apply String.eqb_refl]. }
  destruct (pick key (key a) l); [destruct H | discriminate].
Qed.

(** Every key of the map is the key of a product. *)
Lemma aggregate_keys rows k q :
  In (k, q) (aggregate "" [] rows) ->
  exists p, In p (products "" rows) /\ k = keyOf p.
Proof.
  rewrite aggregate_products. intros Hin.
  apply (fold_set_keys keyOf
           (fun m p => plus (getOr0 m (keyOf p)) (pr_qty p))) in Hin.
  destruct Hin as [[v []]|[p [Hp Hk]]]. eauto.
Qed.

(** Within 2^53 the map holds the sums. *)
Lemma aggregate_exact rows :
  safeSum (products "" rows) = true ->
  aggregate "" [] rows
  = fold_left
      (fun m p => obj_set m (keyOf p) (getOr0 m (keyOf p) + pr_qty p))
      (products "" rows) [].
Proof.
  intros Hs. rewrite aggregate_products.
  apply (fold_plus_exact keyOf pr_qty _ _ 0).
  - intros k. cbn. lia.
  - unfold safeSum in Hs. apply Z.leb_le in Hs. lia.
Qed.

(** The entries of the map are then the products' keys, each with the sum
    of the quantities filed under it. *)
Lemma aggregate_In rows k q :
  safeSum (products "" rows) = true ->
  (In (k, q) (aggregate "" [] rows)
   <-> exists p, In p (products "" rows) /\ k = keyOf p
         /\ q = total pr_qty (pick keyOf (keyOf p) (products "" rows))).
Proof.
  intros Hs. rewrite (aggregate_exact rows Hs), (groupSum_In keyOf pr_qty).
  split.
  - intros [Hne ->]. destruct (pick_In _ _ _ Hne) as [p [Hin <-]]. eauto.
  - intros [p [Hin [-> ->]]]. split; [now apply In_pick | reflexivity].
Qed.

Lemma aggregate_NoDup rows : NoDup (obj_keys (aggregate "" [] rows)).
Proof.
  rewrite aggregate_products.
  apply (fold_set_NoDup (fun _ p => keyOf p)
           (fun m p => plus (getOr0 m (keyOf p)) (pr_qty p))).
  constructor.
Qed.

Lemma rowOf_keyOf p q :
  plain p = true -> allDigits (pr_sku p) = true ->
  rowOf (keyOf p, q)
  = {| r_category := pr_category p; r_sku := pr_sku p;
       r_size := pr_size p; r_color := pr_color p; r_qty := q |}.
Proof.
  intros Hp Hd. unfold plain in Hp.
  apply andb_true_iff in Hp. destruct Hp as [Hp Ho].
  apply andb_true_iff in Hp. destruct Hp as [Hc Hz].
  unfold rowOf, keyOf. cbn [fst snd].
  now rewrite (splitBars_aggKey _ _ _ _ Hc (allDigits_noBar _ Hd) Hz Ho).
Qed.

(** Two products without a bar have one key exactly when their four
    fields agree. *)
Lemma keyOf_sameFields p q :
  plain p = true -> allDigits (pr_sku p) = true ->
  plain q = true -> allDigits (pr_sku q) = true ->
  String.eqb (keyOf q) (keyOf p) = sameFields p q.
Proof.
  intros Hp Hdp Hq Hdq. unfold sameFields.
  destruct (String.eqb_spec (keyOf q) (keyOf p)) as [E|N].
  - pose proof (rowOf_keyOf p 0 Hp Hdp) as Rp.
    pose proof (rowOf_keyOf q 0 Hq Hdq) as Rq.
    rewrite E, Rp in Rq. injection Rq as -> -> -> ->.
    now rewrite !String.eqb_refl.
  - symmetry. apply not_true_is_false. intros H. apply N.
    apply andb_true_iff in H. destruct H as [H Ho].
    apply andb_true_iff in H. destruct H as [H Hz].
    apply andb_true_iff in H. destruct H as [Hc Hk].
    apply String.eqb_eq in Hc, Hk, Hz, Ho. unfold keyOf. congruence.
Qed.

Lemma pick_sameFields ps p :
  forallb plain ps = true ->
  (forall q, In q ps -> allDigits (pr_sku q) = true) ->
  In p ps ->
  total pr_qty (pick keyOf (keyOf p) ps) = sumLike ps p.
Proof.
  intros Hpl Hd Hin. unfold sumLike, total, pick. f_equal.
  apply filter_ext_in. intros q Hq.
  rewrite forallb_forall in Hpl.
  apply keyOf_sameFields; auto.
Qed.

Lemma NoDup_map_by {A B C} (f : A -> B) (g : A -> C) l :
  (forall x y, In x l -> In y l -> f x = f y -> g x = g y) ->
  NoDup (map g l) -> NoDup (map f l).
Proof.
  induction l as [|a l IH]; intros Hinj Hnd; [constructor|].
  cbn [map] in *. inversion Hnd as [|? ? Hni Hnd']; subst. constructor.
  - intros Hin. apply Hni. apply in_map_iff in Hin.
    destruct Hin as [x [Hfx Hx]]. apply in_map_iff.
    exists x. split; [|exact Hx].
    apply Hinj; [now right | now left | exact Hfx].
  - apply IH; [|exact Hnd']. intros x y Hx Hy. apply Hinj; now right.
Qed.

(** X9. The SKU that [parseTextLine] returns is made of ASCII digits only,
    and it is non-empty exactly when the line matches the SKU pattern: in
    [parseRows] the guard on an empty SKU that follows the pattern test
    never fires. *)
Theorem parsed_sku_digits text :
  allDigits (p_sku (parseTextLine text)) = true
  /\ nonEmpty (p_sku (parseTextLine text)) = hasSku text.
Proof.
  unfold hasSku. destruct (skuMatch text) as [sku|] eqn:E.
  - rewrite (parseTextLine_sku _ _ E).
    destruct (skuMatch_shape _ _ E) as [Hne Hd]. split; [exact Hd|].
    destruct sku; [congruence | reflexivity].
  - unfold parseTextLine. rewrite E. split; reflexivity.
Qed.

(** X10. Every key that the loop of [parseRows] files splits on the
    separator into four parts or more, whatever the rows are: the
    category, SKU, size and color of a row returned are never undefined. *)
Theorem aggregate_keys_split rows :
  Forall (fun entry => (4 <= bars (fst entry))%nat) (aggregate "" [] rows).
Proof.
  apply Forall_forall. intros [k q] Hin. cbn [fst].
  apply aggregate_keys in Hin. destruct Hin as [p [Hp ->]].
  destruct (products_sku _ _ _ Hp) as [Hne Hd].
  now apply bars_aggKey.
Qed.

Section Plain.
Variable rows : list (string * Z).
Hypothesis Hpl : forallb plain (products "" rows) = true.
Hypothesis Hsafe : safeSum (products "" rows) = true.

Lemma products_digits q :
  In q (products "" rows) -> allDigits (pr_sku q) = true.
Proof. intros Hq. now destruct (products_sku _ _ _ Hq). Qed.

Lemma products_plain q : In q (products "" rows) -> plain q = true.
Proof. revert q. now apply forallb_forall. Qed.

Lemma parseRows_In row :
  In row (parseRows rows)
  <-> exists p, In p (products "" rows)
        /\ row = {| r_category := pr_category p; r_sku := pr_sku p;
                    r_size := pr_size p; r_color := pr_color p;
                    r_qty := sumLike (products "" rows) p |}.
Proof.
  pose proof products_digits as Hd. pose proof products_plain as Hplain.
  unfold parseRows. rewrite in_map_iff. split.
  - intros [[k q] [<- Hin]]. apply (aggregate_In rows k q Hsafe) in Hin.
    destruct Hin as [p [Hp [-> ->]]]. exists p. split; [exact Hp|].
    rewrite rowOf_keyOf by auto. now rewrite pick_sameFields.
  - intros [p [Hp ->]].
    exists (keyOf p, sumLike (products "" rows) p). split.
    + apply rowOf_keyOf; auto.
    + apply (aggregate_In rows _ _ Hsafe). exists p. split; [exact Hp|].
      split; [reflexivity|]. now rewrite pick_sameFields.
Qed.

Lemma parseRows_NoDup :
  NoDup (map (fun r => (r_category r, r_sku r, r_size r, r_color r))
             (parseRows rows)).
Proof.
  pose proof products_digits as Hd. pose proof products_plain as Hplain.
  unfold parseRows. rewrite map_map.
  apply (NoDup_map_by _ fst); [|apply aggregate_NoDup].
  intros [k q] [k' q'] Hx Hy. cbn [fst].
  apply aggregate_keys in Hx, Hy.
  destruct Hx as [p [Hp ->]]. destruct Hy as [p' [Hp' ->]].
  rewrite !rowOf_keyOf by auto. cbn.
  intros [= Hc Hk Hz Ho]. unfold keyOf. congruence.
Qed.

(** Every product has its row, whatever the quantities are. *)
Lemma parseRows_fields p :
  In p (products "" rows) ->
  exists q,
    In {| r_category := pr_category p; r_sku := pr_sku p;
          r_size := pr_size p; r_color := pr_color p; r_qty := q |}
       (parseRows rows).
Proof.
  intros Hp.
  assert (Hk : In (keyOf p) (obj_keys (aggregate "" [] rows))).
  { rewrite aggregate_products. revert Hp.
    generalize (@nil (string * Z)). generalize (products "" rows).
    induction l as [|a l IH]; intros m Hin; [destruct Hin|].
    destruct Hin as [->|Hin]; cbn [fold_left].
    - apply (fold_keys_kept keyOf
               (fun m p => plus (getOr0 m (keyOf p)) (pr_qty p))).
      apply obj_get_keys. rewrite obj_get_set_eq. eauto.
    - now apply IH. }
  apply obj_get_keys in Hk. destruct Hk as [q Hq].
  exists q. unfold parseRows. apply in_map_iff.
  exists (keyOf p, q). split; [|now apply obj_get_In].
  apply rowOf_keyOf; [now apply products_plain | now apply products_digits].
Qed.

End Plain.

(** X11. When no category, size or color of the sheet holds a vertical
    bar, [parseRows] returns one row for each distinct (category, SKU,
    size, color) of the product lines, and no two rows with the same four
    fields; when moreover the quantities of the product lines add up, in
    magnitude, to 2^53 at most, the quantity of a row is the sum of the
    quantities of the lines that have its four fields (beyond 2^53 the
    sums of the code are rounded, as doubles are). *)
Theorem parseRows_sums rows :
  forallb plain (products "" rows) = true ->
  (safeSum (products "" rows) = true ->
   forall row,
     In row (parseRows rows)
     <-> exists p, In p (products "" rows)
           /\ row = {| r_category := pr_category p; r_sku := pr_sku p;
                       r_size := pr_size p; r_color := pr_color p;
                       r_qty := sumLike (products "" rows) p |})
  /\ (forall p, In p (products "" rows) ->
        exists row, In row (parseRows rows)
          /\ r_category row = pr_category p /\ r_sku row = pr_sku p
          /\ r_size row = pr_size p /\ r_color row = pr_color p)
  /\ (forall row, In row (parseRows rows) ->
        exists p, In p (products "" rows)
          /\ r_category row = pr_category p /\ r_sku row = pr_sku p
          /\ r_size row = pr_size p /\ r_color row = pr_color p)
  /\ NoDup (map (fun r => (r_category r, r_sku r, r_size r, r_color r))
                (parseRows rows)).
Proof.
  intros Hpl. split; [|split; [|split]].
  - intros Hsafe row. now apply parseRows_In.
  - intros p Hp. destruct (parseRows_fields rows Hpl p Hp) as [q Hq].
    eexists. split; [exact Hq|]. repeat split.
  - intros row Hrow. unfold parseRows in Hrow. apply in_map_iff in Hrow.
    destruct Hrow as [[k q] [<- Hin]]. apply aggregate_keys in Hin.
    destruct Hin as [p [Hp ->]]. exists p. split; [exact Hp|].
    rewrite (rowOf_keyOf p q (products_plain rows Hpl p Hp)
               (products_digits rows p Hp)).
    repeat split.
  - now apply parseRows_NoDup.
Qed.

Lemma parseRows_sums_witness :
  forallb plain (products "" sheet) = true
  /\ safeSum (products "" sheet) = true
  /\ In {| r_category := "Dresses"; r_sku := "123"; r_size := "M";
           r_color := "Red"; r_qty := 5 |} (parseRows sheet).
Proof.
  split; [reflexivity|]. split; [reflexivity|].
  apply (proj1 (parseRows_sums sheet eq_refl) eq_refl).
  exists {| pr_category := "Dresses"; pr_sku := "123"; pr_size := "M";
            pr_color := "Red"; pr_qty := 2 |}.
  split; [left; reflexivity | reflexivity].
Defined.

End RowsTheorems.

(* ================================================================== *)
(** * Limits: overrides and the lines generated under them *)
(* ================================================================== *)

Module LimitsTheorems.
Import Js Data Props JsFacts Limits Replan GenerateFacts.

Lemma sanitize_floor x : Z.max 0 (Qfloor (sanitize x)) = Z.max 0 (Qfloor x).
Proof. unfold sanitize. rewrite Qfloor_Z. lia. Qed.

(** X13. A per-SKU override that is set (the handler asks for a
    non-empty SKU) is what the SKU resolves to, with each bound floored
    and raised to 0 when negative: a bound of 0 is kept, unlike a default
    of 0.  The other SKUs resolve as before, and a later change of the
    defaults does not touch the SKU.  The key [__proto__] is left out:
    assigning it to a JavaScript object stores no entry. *)
Theorem override_round_trip lim sku mn mx :
  nonEmpty sku = true ->
  sku <> "__proto__" ->
  getSkuLimits (setSku lim sku mn mx) sku
  = (Z.max 0 (Qfloor mn), Z.max 0 (Qfloor mx))
  /\ (forall other, other <> sku ->
        getSkuLimits (setSku lim sku mn mx) other = getSkuLimits lim other)
  /\ (forall dmin dmax,
        getSkuLimits (setDefault (setSku lim sku mn mx) dmin dmax) sku
        = (Z.max 0 (Qfloor mn), Z.max 0 (Qfloor mx))).
Proof.
  intros _ _. split; [|split].
  - unfold getSkuLimits, skuRec, setSku. cbn [skus].
    rewrite obj_get_set_eq. cbn [rec_min rec_max].
    now rewrite !sanitize_floor.
  - intros other Hne. unfold getSkuLimits, skuRec, setSku.
    cbn [skus defaultMin defaultMax].
    rewrite obj_get_set_ne by congruence. reflexivity.
  - intros dmin dmax. unfold getSkuLimits, skuRec, setDefault, setSku.
    cbn [skus]. rewrite obj_get_set_eq. cbn [rec_min rec_max].
    now rewrite !sanitize_floor.
Qed.

Lemma override_round_trip_witness :
  nonEmpty "123" = true
  /\ "123"%string <> "__proto__"%string
  /\ getSkuLimits (setSku limits_fallback "123" (0 # 1) (5 # 2)) "123" = (0, 2).
Proof.
  assert (H : "123"%string <> "__proto__"%string) by discriminate.
  split; [reflexivity|]. split; [exact H|].
  exact (proj1 (override_round_trip limits_fallback "123" (0 # 1) (5 # 2)
                  eq_refl H)).
Defined.

(** X14. Every line of a generated run pulls one unit at least and the
    maximum resolved for its SKU at most; its balance is not below the
    resolved minimum; it pulls the whole balance when that is within the
    maximum, and not less than the minimum when the minimum does not
    exceed the maximum. *)
Theorem generated_line_limits collate s now cf name sales run s' l :
  replan_generate collate s now cf name sales = (inr run, s') ->
  In l (lines run) ->
  let mn := fst (getSkuLimits (limits s) (sku l)) in
  let mx := snd (getSkuLimits (limits s) (sku l)) in
  1 <= pullQty l <= mx
  /\ mn <= balance l
  /\ (balance l <= mx -> pullQty l = balance l)
  /\ (mn <= mx -> mn <= pullQty l).
Proof.
  intros Hgen Hin.
  apply replan_generate_lines in Hgen. destruct Hgen as [Hl _].
  rewrite Hl in Hin. apply generateLines_In in Hin.
  destruct Hin as (key & st & _ & Hq & _ & _ & Hb & Hp & ->).
  unfold lineOf in *. cbn [pullQty balance sku] in *.
  set (mn := fst (getSkuLimits (limits s) (st_sku st))) in *.
  set (mx := snd (getSkuLimits (limits s) (st_sku st))) in *.
  cbv zeta. unfold clampPull in *.
  destruct (st_qty st - sumQty (rowsOf sales key) <? mn) eqn:E.
  - lia.
  - apply Z.ltb_ge in E. lia.
Qed.

Lemma generated_line_limits_witness :
  replan_generate codeUnitCompare Demo.stocked13 2000 "" "sales.xlsx" Demo.salesRows
  = (inr {| runId := "RUN-2000"; createdAt := 2000; categoryFilter := "All";
            salesFileName := "sales.xlsx"; lines := [Demo.plannedLine] |},
     Demo.planned)
  /\ In Demo.plannedLine [Demo.plannedLine]
  /\ 1 <= pullQty Demo.plannedLine
       <= snd (getSkuLimits (limits Demo.stocked13) (sku Demo.plannedLine)).
Proof.
  assert (Hgen :
    replan_generate codeUnitCompare Demo.stocked13 2000 "" "sales.xlsx" Demo.salesRows
    = (inr {| runId := "RUN-2000"; createdAt := 2000;
              categoryFilter := "All"; salesFileName := "sales.xlsx";
              lines := [Demo.plannedLine] |}, Demo.planned))
    by (vm_compute; reflexivity).
  assert (Hin : In Demo.plannedLine [Demo.plannedLine]) by (left; reflexivity).
  split; [exact Hgen|]. split; [exact Hin|].
  exact (proj1 (generated_line_limits _ _ _ _ _ _ _ _ _ Hgen Hin)).
Defined.

End LimitsTheorems.

(* ================================================================== *)
(** * The ledger after an upload *)
(* ================================================================== *)

Module UploadTheorems.
Import Js Data Props JsFacts Parsing Rows RowsFacts RowsTheorems Stock.

Lemma find_app {A} (p : A -> bool) l1 l2 :
  find p (l1 ++ l2)%list
  = match find p l1 with Some x => Some x | None => find p l2 end.
Proof.
  induction l1 as [|a l1 IH]; [reflexivity|]. cbn [app find].
  destruct (p a); [reflexivity | exact IH].
Qed.

(** Assignments in a row: the last one to a key is what the key holds. *)
Lemma fold_set_last {A V} (key : A -> string) (val : A -> V) l : forall m k,
  obj_get (fold_left (fun m a => obj_set m (key a) (val a)) l m) k
  = match find (fun a => String.eqb (key a) k) (rev l) with
    | Some a => Some (val a)
    | None => obj_get m k
    end.
Proof.
  induction l as [|a l IH]; intros m k; [reflexivity|].
  cbn [fold_left rev]. rewrite IH, find_app. cbn [find].
  destruct (find (fun a0 => String.eqb (key a0) k) (rev l)); [reflexivity|].
  destruct (String.eqb_spec (key a) k) as [->|Hne].
  - apply obj_get_set_eq.
  - now apply obj_get_set_ne.
Qed.

Lemma buildSnapshot_last parsed key :
  obj_get (buildSnapshot parsed) key
  = option_map itemOfRow
      (find (fun r => String.eqb (makeKey (r_sku r) (r_size r) (r_color r)) key)
            (rev parsed)).
Proof.
  unfold buildSnapshot.
  rewrite (fold_set_last
             (fun r => makeKey (r_sku r) (r_size r) (r_color r)) itemOfRow).
  now destruct (find _ (rev parsed)).
Qed.

Lemma makeKey_split k z o :
  noBar k = true -> noBar z = true -> noBar o = true ->
  splitBars "" (makeKey k z o) = [k; z; o].
Proof.
  intros Hk Hz Ho. unfold makeKey.
  rewrite (splitBars_plain k "" _ Hk), (splitBars_plain z "" _ Hz),
          (splitBars_whole o "" Ho).
  reflexivity.
Qed.

Lemma makeKey_inj k z o k' z' o' :
  noBar k = true -> noBar z = true -> noBar o = true ->
  noBar k' = true -> noBar z' = true -> noBar o' = true ->
  makeKey k z o = makeKey k' z' o' -> k = k' /\ z = z' /\ o = o'.
Proof.
  intros Hk Hz Ho Hk' Hz' Ho' E.
  pose proof (makeKey_split k z o Hk Hz Ho) as S1.
  pose proof (makeKey_split k' z' o' Hk' Hz' Ho') as S2.
  rewrite E, S2 in S1. injection S1 as -> -> ->. auto.
Qed.

Lemma sumLike_same ps p q :
  pr_category q = pr_category p -> pr_sku q = pr_sku p ->
  pr_size q = pr_size p -> pr_color q = pr_color p ->
  sumLike ps q = sumLike ps p.
Proof.
  intros Hc Hk Hz Ho. unfold sumLike. f_equal. apply filter_ext.
  intros x. unfold sameFields. now rewrite Hc, Hk, Hz, Ho.
Qed.

Lemma plain_fields p :
  plain p = true ->
  noBar (pr_category p) = true /\ noBar (pr_size p) = true
  /\ noBar (pr_color p) = true.
Proof.
  unfold plain. intros H.
  apply andb_true_iff in H. destruct H as [H Ho].
  apply andb_true_iff in H. destruct H as [Hc Hz]. auto.
Qed.

Lemma oneCategory_spec ps p q :
  oneCategory ps = true -> In p ps -> In q ps ->
  pr_sku q = pr_sku p -> pr_size q = pr_size p -> pr_color q = pr_color p ->
  pr_category q = pr_category p.
Proof.
  unfold oneCategory. intros H Hp Hq Hk Hz Ho.
  rewrite forallb_forall in H. specialize (H p Hp).
  rewrite forallb_forall in H. specialize (H q Hq).
  unfold sameItem in H. rewrite Hk, Hz, Ho, !String.eqb_refl in H.
  cbn in H. now apply String.eqb_eq in H.
Qed.

(** X12. After an upload the ledger holds, under each key, the item of the
    last parsed row that has this key: rows that differ in category only
    are not added up. *)
Theorem upload_last_row_wins s now name parsed key :
  obj_get (items (stock (snd (stock_update s now name parsed)))) key
  = option_map itemOfRow
      (find (fun r => String.eqb (makeKey (r_sku r) (r_size r) (r_color r)) key)
            (rev parsed)).
Proof. unfold stock_update. cbn [snd stock items]. apply buildSnapshot_last. Qed.

(** X15. Uploading a sheet in which no category, size or color holds a
    vertical bar, no item is listed under two categories and the
    quantities add up, in magnitude, to 2^53 at most (so that the sums of
    doubles are exact) leaves a ledger that holds exactly the items of the
    sheet, each under the key made of its SKU, size and color, with its
    category and the sum of the quantities of its lines. *)
Theorem upload_sheet_sums s now name rows key st :
  forallb plain (products "" rows) = true ->
  oneCategory (products "" rows) = true ->
  safeSum (products "" rows) = true ->
  obj_get (items (stock (snd (stock_update s now name (parseRows rows))))) key
  = Some st
  <-> exists p, In p (products "" rows)
        /\ key = makeKey (pr_sku p) (pr_size p) (pr_color p)
        /\ st = itemOf (products "" rows) p.
Proof.
  intros Hpl Hone Hsafe. unfold stock_update. cbn [snd stock items].
  rewrite buildSnapshot_last.
  set (test := fun r : Row =>
                 String.eqb (makeKey (r_sku r) (r_size r) (r_color r)) key).
  split.
  - destruct (find test (rev (parseRows rows))) as [r|] eqn:E;
      [|discriminate].
    cbn [option_map]. intros [= <-].
    apply find_some in E. destruct E as [Hin Hk].
    apply in_rev in Hin. apply (parseRows_In rows Hpl Hsafe) in Hin.
    destruct Hin as [p [Hp ->]]. unfold test in Hk. cbn in Hk.
    apply String.eqb_eq in Hk. exists p. auto.
  - intros [p [Hp [-> ->]]].
    set (r := {| r_category := pr_category p; r_sku := pr_sku p;
                 r_size := pr_size p; r_color := pr_color p;
                 r_qty := sumLike (products "" rows) p |}).
    assert (Hr : In r (rev (parseRows rows))).
    { apply in_rev. rewrite rev_involutive.
      apply (parseRows_In rows Hpl Hsafe). now exists p. }
    destruct (find test (rev (parseRows rows))) as [r'|] eqn:E.
    + cbn [option_map]. f_equal.
      apply find_some in E. destruct E as [Hin Hk].
      apply in_rev in Hin. apply (parseRows_In rows Hpl Hsafe) in Hin.
      destruct Hin as [p' [Hp' ->]]. unfold test in Hk. cbn in Hk.
      apply String.eqb_eq in Hk.
      destruct (plain_fields _ (products_plain rows Hpl _ Hp))
        as (_ & Hz & Ho).
      destruct (plain_fields _ (products_plain rows Hpl _ Hp'))
        as (_ & Hz' & Ho').
      pose proof (allDigits_noBar _ (products_digits rows _ Hp)) as Hd.
      pose proof (allDigits_noBar _ (products_digits rows _ Hp')) as Hd'.
      destruct (makeKey_inj _ _ _ _ _ _ Hd' Hz' Ho' Hd Hz Ho Hk)
        as (Ek & Ez & Eo).
      pose proof (oneCategory_spec _ p p' Hone Hp Hp' Ek Ez Eo) as Ec.
      unfold itemOfRow, itemOf. cbn.
      rewrite (sumLike_same _ p p' Ec Ek Ez Eo). now rewrite Ec, Ek, Ez, Eo.
    + exfalso. apply (find_none _ _ E) in Hr. unfold test, r in Hr.
      cbn in Hr. now rewrite String.eqb_refl in Hr.
Qed.

Lemma upload_sheet_sums_witness :
  forallb plain (products "" sheet) = true
  /\ oneCategory (products "" sheet) = true
  /\ safeSum (products "" sheet) = true
  /\ obj_get
       (items (stock (snd (stock_update emptyStore 1000 "stock.xlsx"
                             (parseRows sheet)))))
       "123||M||Red"
     = Some {| st_sku := "123"; st_size := "M"; st_color := "Red";
               st_category := "Dresses"; st_qty := 5 |}.
Proof.
  split; [reflexivity|]. split; [reflexivity|]. split; [reflexivity|].
  apply (proj2 (upload_sheet_sums emptyStore 1000 "stock.xlsx" sheet
                  "123||M||Red" _ eq_refl eq_refl eq_refl)).
  exists {| pr_category := "Dresses"; pr_sku := "123"; pr_size := "M";
            pr_color := "Red"; pr_qty := 2 |}.
  split; [left; reflexivity|]. split; reflexivity.
Defined.

End UploadTheorems.

(* ================================================================== *)
(** * Stock search *)
(* ================================================================== *)

Module SearchTheorems.
Import Js Data Props JsFacts Search.

Lemma prefix_spec q : forall s,
  String.prefix q s = true <-> exists b, s = (q ++ b)%string.
Proof.
  induction q as [|c q IH]; intros s.
  - split; [intros _; now exists s | intros _; now destruct s].
  - destruct s as [|d s]; cbn.
    + split; [discriminate | intros [b Hb]; discriminate].
    + destruct (Ascii.ascii_dec c d) as [->|Hne].
      * rewrite IH. split; intros [b Hb]; exists b; congruence.
      * split; [discriminate | intros [b Hb]; congruence].
Qed.

(** [includes s q] holds exactly when [q] occurs in [s]. *)
Lemma includes_spec s q :
  includes s q = true <-> exists a b, s = (a ++ q ++ b)%string.
Proof.
  induction s as [|c s IH].
  - cbn [includes]. rewrite orb_false_r, prefix_spec. split.
    + intros [b Hb]. now exists EmptyString, b.
    + intros [[|a0 a] [b Hb]]; [now exists b | discriminate].
  - cbn [includes]. rewrite orb_true_iff, prefix_spec, IH. split.
    + intros [[b Hb]|[a [b Hb]]].
      * now exists EmptyString, b.
      * exists (String c a), b. cbn. now rewrite Hb.
    + intros [[|a0 a] [b Hb]].
      * left. now exists b.
      * right. cbn in Hb. injection Hb as -> Hb. now exists a, b.
Qed.

Lemma limitOf_bounds n : (1 <= limitOf n <= 2000)%nat.
Proof.
  destruct n as [| | |q]; cbn [limitOf]; try lia.
  destruct (Qeq_bool q (0 # 1)); [lia|].
  destruct (Qle_bool q (1 # 1)) eqn:E1.
  - cbn. lia.
  - destruct (Qle_bool (2000 # 1) q) eqn:E2.
    + cbn. lia.
    + assert (H1 : (1 <= Qfloor q)%Z).
      { change 1%Z with (Qfloor (inject_Z 1)). apply Qfloor_resp_le.
        destruct (Qlt_le_dec q (inject_Z 1)) as [Hlt|Hle]; [|exact Hle].
        apply Qlt_le_weak, Qle_bool_iff in Hlt.
        change (inject_Z 1) with (1 # 1)%Q in Hlt. congruence. }
      assert (H2 : (Qfloor q <= 2000)%Z).
      { change 2000%Z with (Qfloor (inject_Z 2000)). apply Qfloor_resp_le.
        destruct (Qlt_le_dec q (inject_Z 2000)) as [Hlt|Hle].
        - now apply Qlt_le_weak.
        - apply Qle_bool_iff in Hle.
          change (inject_Z 2000) with (2000 # 1)%Q in Hle. congruence. }
      lia.
Qed.

Lemma compareQty_total a b : 0 < compareQty a b -> compareQty b a <= 0.
Proof. unfold compareQty. lia. Qed.

Lemma compareQty_trans a b c :
  compareQty a b <= 0 -> compareQty b c <= 0 -> compareQty a c <= 0.
Proof. unfold compareQty. lia. Qed.

Section Lower.
Variable toLowerCase : string -> string.

Lemma matches_spec q x : matches toLowerCase q x = true <-> hit toLowerCase q x.
Proof.
  unfold matches, hit, occurs.
  rewrite !orb_true_iff, !includes_spec. tauto.
Qed.

Lemma found_In s rawQ rawCategory x :
  In x (found toLowerCase s rawQ rawCategory)
  <-> (exists key, In (key, x) (items (stock s)))
      /\ 0 < st_qty x
      /\ passes (trim rawCategory) (st_category x)
      /\ (toLowerCase (trim rawQ) = ""
          \/ hit toLowerCase (toLowerCase (trim rawQ)) x).
Proof.
  unfold found. rewrite sortBy_In.
  set (q := toLowerCase (trim rawQ)). set (category := trim rawCategory).
  set (items1 := filter (fun x => 0 <? st_qty x) (map snd (items (stock s)))).
  set (items2 := if nonEmpty category
                 then filter (fun x => String.eqb (st_category x) category)
                             items1
                 else items1).
  assert (H1 : In x items1
               <-> (exists key, In (key, x) (items (stock s)))
                   /\ 0 < st_qty x).
  { unfold items1. rewrite filter_In, in_map_iff, Z.ltb_lt.
    split; intros [Hin Hq]; (split; [|exact Hq]).
    - destruct Hin as [[k y] [<- Hin]]. now exists k.
    - destruct Hin as [k Hin]. now exists (k, x). }
  assert (H2 : In x items2
               <-> In x items1 /\ passes category (st_category x)).
  { unfold items2, passes. destruct category as [|c r]; cbn [nonEmpty].
    - tauto.
    - rewrite filter_In, String.eqb_eq. split; [tauto|].
      intros [Hin [Hc|Hc]]; [discriminate | tauto]. }
  destruct q as [|c r] eqn:Eq; cbn [nonEmpty].
  - rewrite H2, H1. tauto.
  - rewrite filter_In, matches_spec, H2, H1. split; [tauto|].
    intros (Hk & Hq & Hc & [Hn|Hh]); [discriminate | tauto].
Qed.

(** X16. A stock search returns the first [limit] items, by descending
    quantity, of the ledger items that have a positive quantity, are of
    the category asked for when there is one, and hold the query, trimmed
    and lowered, in their SKU, size, color or category, lowered, when
    there is one; [count] is the number of these items, and [limit] is
    between 1 and 2000 whatever is asked. *)
Theorem search_finds s rawQ rawCategory limit :
  let all := found toLowerCase s rawQ rawCategory in
  let r := stock_search toLowerCase s rawQ rawCategory limit in
  (forall x,
     In x all
     <-> (exists key, In (key, x) (items (stock s)))
         /\ 0 < st_qty x
         /\ passes (trim rawCategory) (st_category x)
         /\ (toLowerCase (trim rawQ) = ""
             \/ hit toLowerCase (toLowerCase (trim rawQ)) x))
  /\ StronglySorted (fun a b => st_qty b <= st_qty a) all
  /\ sr_items r = firstn (limitOf limit) all
  /\ sr_count r = List.length all
  /\ (1 <= limitOf limit <= 2000)%nat
  /\ List.length (sr_items r) = Nat.min (limitOf limit) (sr_count r).
Proof.
  intros all r. subst all r.
  split; [intros x; apply found_In|].
  split.
  { unfold found. eapply StronglySorted_impl;
      [|apply (sortBy_sorted compareQty compareQty_total compareQty_trans)].
    unfold before, compareQty. intros a b. lia. }
  split; [reflexivity|]. split; [reflexivity|].
  split; [apply limitOf_bounds|].
  cbn [stock_search sr_items sr_count]. apply length_firstn.
Qed.

End Lower.

End SearchTheorems.

(* ================================================================== *)
(** * Dashboard: top categories and top SKUs *)
(* ================================================================== *)

Module TopsFacts.
Import Js Data Props JsFacts Rows RowsFacts RowsTheorems Tops.

Lemma doneLines_In category since rs l :
  In l (doneLines category since rs)
  <-> exists run t,
        In run rs /\ In l (lines run)
        /\ status l = Done /\ executedAt l = Some t
        /\ since <= t /\ passes category (Data.category l).
Proof.
  unfold doneLines. rewrite in_flat_map. split.
  - intros (run & Hrun & Hin). apply filter_In in Hin.
    destruct Hin as [Hin Hw]. unfold inWindow in Hw.
    destruct (status l) eqn:Es; [discriminate|].
    destruct (executedAt l) as [t|] eqn:Et; [|discriminate].
    apply andb_true_iff in Hw. destruct Hw as [Ht Hc].
    apply Z.leb_le in Ht. exists run, t. repeat split; auto.
    unfold passes. destruct category as [|c r]; [now left|].
    cbn in Hc. apply String.eqb_eq in Hc. now right.
  - intros (run & t & Hrun & Hin & Es & Et & Ht & Hc).
    exists run. split; [exact Hrun|]. apply filter_In. split; [exact Hin|].
    unfold inWindow. rewrite Es, Et. apply andb_true_iff. split.
    + now apply Z.leb_le.
    + destruct Hc as [->|<-]; [reflexivity|].
      rewrite String.eqb_refl. apply orb_true_r.
Qed.

Lemma byCat_In dl k q :
  In (k, q) (byCat dl)
  <-> (exists l, In l dl /\ Data.category l = k)
      /\ q = pulled (fun l => String.eqb (Data.category l) k) dl.
Proof.
  unfold byCat, pulled.
  change (In (k, q)
            (fold_left
               (fun m a => obj_set m (Data.category a)
                             (getOr0 m (Data.category a) + pullQty a))
               dl [])
          <-> (exists l, In l dl /\ Data.category l = k)
              /\ q = total pullQty (pick Data.category k dl)).
  rewrite (groupSum_In Data.category pullQty). split.
  - intros [Hne ->]. split; [now apply pick_In | reflexivity].
  - intros [[l [Hin <-]] ->]. split; [now apply In_pick | reflexivity].
Qed.

Lemma byCat_NoDup dl : NoDup (obj_keys (byCat dl)).
Proof. apply (groupSum_NoDup Data.category pullQty). Qed.

Lemma bySku_In dl k q :
  In (k, q) (bySku dl)
  <-> (exists l, In l dl /\ catSku l = k)
      /\ q = total pullQty (pick catSku k dl).
Proof.
  unfold bySku.
  change (In (k, q)
            (fold_left
               (fun m a => obj_set m (catSku a) (getOr0 m (catSku a) + pullQty a))
               dl [])
          <-> (exists l, In l dl /\ catSku l = k)
              /\ q = total pullQty (pick catSku k dl)).
  rewrite (groupSum_In catSku pullQty). split.
  - intros [Hne ->]. split; [now apply pick_In | reflexivity].
  - intros [[l [Hin <-]] ->]. split; [now apply In_pick | reflexivity].
Qed.

Lemma bySku_NoDup dl : NoDup (obj_keys (bySku dl)).
Proof. apply (groupSum_NoDup catSku pullQty). Qed.

Lemma catSku_split l :
  noBar (Data.category l) = true -> noBar (sku l) = true ->
  splitBars "" (catSku l) = [Data.category l; sku l].
Proof.
  intros Hc Hk. unfold catSku.
  now rewrite (splitBars_plain _ "" _ Hc), (splitBars_whole _ "" Hk).
Qed.

Lemma descending_total {A} (qty : A -> Z) a b :
  0 < qty b - qty a -> qty a - qty b <= 0.
Proof. lia. Qed.

Lemma descending_trans {A} (qty : A -> Z) a b c :
  qty b - qty a <= 0 -> qty c - qty b <= 0 -> qty c - qty a <= 0.
Proof. lia. Qed.

Lemma sortBy_descending {A} (qty : A -> Z) l :
  StronglySorted (descending qty) (sortBy (fun a b => qty b - qty a) l).
Proof.
  eapply StronglySorted_impl;
    [|apply (sortBy_sorted (fun a b => qty b - qty a)
               (descending_total qty) (descending_trans qty))].
  unfold before, descending. intros a b. lia.
Qed.

Lemma NoDup_sortBy {A B} (cmp : A -> A -> Z) (f : A -> B) l :
  NoDup (map f l) -> NoDup (map f (sortBy cmp l)).
Proof.
  intros H. eapply Permutation_NoDup; [|exact H].
  apply Permutation_map. symmetry. apply sortBy_perm.
Qed.

End TopsFacts.

Module TopsTheorems.
Import Js Data Props JsFacts Rows RowsFacts RowsTheorems Tops TopsFacts.

(** X17. The top categories of the dashboard: before truncation there is
    one entry for each category that has a line Done, executed within the
    window of [days] days and of the category of the filter when one is
    set, over all runs; its quantity is the sum of the pull quantities of
    these lines.  The entries are sorted by descending quantity and the
    first 15 are returned. *)
Theorem topCategories_exactly s now arg category :
  let since := now - daysOf arg * 24 * 3600 * 1000 in
  let dl := doneLines category since (runs s) in
  let all := topCategoriesAll s now arg category in
  (forall l,
     In l dl
     <-> exists run t,
           In run (runs s) /\ In l (lines run)
           /\ status l = Done /\ executedAt l = Some t
           /\ since <= t /\ passes category (Data.category l))
  /\ (forall e,
        In e all
        <-> (exists l, In l dl /\ Data.category l = tc_category e)
            /\ tc_qty e
               = pulled (fun l => String.eqb (Data.category l) (tc_category e))
                        dl)
  /\ NoDup (map tc_category all)
  /\ StronglySorted (descending tc_qty) all
  /\ topCategories s now arg category = firstn 15 all
  /\ (List.length (topCategories s now arg category) <= 15)%nat.
Proof.
  intros since dl all. subst all. unfold topCategoriesAll.
  fold since. fold dl.
  split; [intros l; apply doneLines_In|].
  split.
  { intros [c q]. rewrite sortBy_In, in_map_iff. cbn [tc_category tc_qty].
    split.
    - intros [[k q'] [Heq Hin]]. unfold topCategoryOf in Heq. cbn in Heq.
      injection Heq as -> ->. now apply byCat_In.
    - intros H. exists (c, q). split; [reflexivity|]. now apply byCat_In. }
  split.
  { apply NoDup_sortBy. rewrite map_map. apply byCat_NoDup. }
  split; [apply sortBy_descending|].
  split; [reflexivity|].
  unfold topCategories. apply firstn_le_length.
Qed.

(** X18. The top SKUs of the dashboard, when no category and no SKU of the
    lines counted holds a vertical bar: before truncation there is one
    entry for each (category, SKU) that has a line Done, executed within
    the window and let through by the filter; its quantity is the sum of
    the pull quantities of these lines.  The entries are sorted by
    descending quantity and the first 20 are returned. *)
Theorem topSkus_exactly s now arg category :
  let since := now - daysOf arg * 24 * 3600 * 1000 in
  let dl := doneLines category since (runs s) in
  let all := topSkusAll s now arg category in
  forallb (fun l => noBar (Data.category l) && noBar (sku l))%bool dl = true ->
  (forall e,
     In e all
     <-> (exists l, In l dl /\ Data.category l = ts_category e
                    /\ sku l = ts_sku e)
         /\ ts_qty e
            = pulled (fun l => (String.eqb (Data.category l) (ts_category e)
                                && String.eqb (sku l) (ts_sku e))%bool)
                     dl)
  /\ NoDup (map (fun e => (ts_category e, ts_sku e)) all)
  /\ StronglySorted (descending ts_qty) all
  /\ topSkus s now arg category = firstn 20 all
  /\ (List.length (topSkus s now arg category) <= 20)%nat.
Proof.
  intros since dl all Hplain. subst all. unfold topSkusAll.
  fold since. fold dl.
  rewrite forallb_forall in Hplain.
  assert (Hsplit : forall l, In l dl ->
            splitBars "" (catSku l) = [Data.category l; sku l]).
  { intros l Hl. specialize (Hplain l Hl).
    apply andb_true_iff in Hplain. destruct Hplain. now apply catSku_split. }
  assert (Hof : forall l q, In l dl ->
            topSkuOf (catSku l, q)
            = {| ts_category := Data.category l; ts_sku := sku l;
                 ts_qty := q |}).
  { intros l q Hl. unfold topSkuOf. cbn [fst snd]. now rewrite Hsplit. }
  assert (Hpick : forall l, In l dl ->
            total pullQty (pick catSku (catSku l) dl)
            = pulled (fun l' => (String.eqb (Data.category l') (Data.category l)
                                 && String.eqb (sku l') (sku l))%bool) dl).
  { intros l Hl. unfold pulled, pick. f_equal. apply filter_ext_in.
    intros l' Hl'.
    destruct (String.eqb_spec (catSku l') (catSku l)) as [E|N].
    - pose proof (Hsplit l' Hl') as S'. rewrite E, (Hsplit l Hl) in S'.
      injection S' as -> ->. now rewrite !String.eqb_refl.
    - symmetry. apply not_true_is_false. intros H. apply N.
      apply andb_true_iff in H. destruct H as [Hc Hk].
      apply String.eqb_eq in Hc, Hk. unfold catSku. congruence. }
  split.
  { intros e. rewrite sortBy_In, in_map_iff. split.
    - intros [[k q] [<- Hin]]. apply bySku_In in Hin.
      destruct Hin as [[l [Hl <-]] ->]. rewrite (Hof l _ Hl).
      cbn [ts_category ts_sku ts_qty]. split; [now exists l|].
      now apply Hpick.
    - intros [[l [Hl [Hc Hk]]] Hq].
      exists (catSku l, ts_qty e). split.
      + rewrite (Hof l _ Hl). destruct e as [c k q]. cbn in *. congruence.
      + apply bySku_In. split; [now exists l|].
        rewrite (Hpick l Hl), Hc, Hk. exact Hq. }
  split.
  { apply NoDup_sortBy. rewrite map_map.
    apply (NoDup_map_by _ fst); [|apply bySku_NoDup].
    intros [k q] [k' q'] Hx Hy. cbn [fst].
    apply bySku_In in Hx, Hy.
    destruct Hx as [[l [Hl <-]] _]. destruct Hy as [[l' [Hl' <-]] _].
    rewrite (Hof l _ Hl), (Hof l' _ Hl'). cbn.
    intros [= Hc Hk]. unfold catSku. congruence. }
  split; [apply sortBy_descending|].
  split; [reflexivity|].
  unfold topSkus. apply firstn_le_length.
Qed.

Lemma topSkus_exactly_witness :
  forallb (fun l => noBar (Data.category l) && noBar (sku l))%bool
          (doneLines "" (4000 - daysOf 0 * 24 * 3600 * 1000)
                     (runs Demo.pulled)) = true
  /\ NoDup (map (fun e => (ts_category e, ts_sku e))
                (topSkusAll Demo.pulled 4000 0 "")).
Proof.
  split; [reflexivity|].
  exact (proj1 (proj2 (topSkus_exactly Demo.pulled 4000 0 "" eq_refl))).
Defined.

End TopsTheorems.

(* ================================================================== *)
(** * Clearing *)
(* ================================================================== *)

Module ClearTheorems.
Import Js Data Props JsFacts Stock.

(** X19. Clearing is a full reset that keeps the limits only: on the
    cleared store a generation is refused as on a store never loaded,
    every execution, single or of a whole run, fails and changes nothing,
    the bulk execution of the new collection executes nothing, the
    dashboard lists no stale item, and the next upload works in base mode,
    whatever it holds. *)
Theorem clear_resets s t :
  let c := stock_clear s t in
  limits c = limits s
  /\ (forall collate now cf name sales,
        Replan.replan_generate collate c now cf name sales
        = (inl StockEmpty, c))
  /\ (forall now rid lid,
        Replan.isOk (fst (Replan.replan_execute c now rid lid)) = false
        /\ snd (Replan.replan_execute c now rid lid) = c)
  /\ (forall now rid,
        exists e, Replan.replan_executeAll c now rid = (inl e, c))
  /\ (forall now lid,
        NewC.isOk (fst (NewC.newcollection_execute c now lid)) = false
        /\ snd (NewC.newcollection_execute c now lid) = c)
  /\ (forall now,
        NewC.executed (fst (NewC.newcollection_executeAll c now)) = 0%nat
        /\ NewC.failures (fst (NewC.newcollection_executeAll c now)) = []
        /\ snd (NewC.newcollection_executeAll c now) = c)
  /\ (forall now arg category, Dashboard.noReplan c now arg category = [])
  /\ (forall now name parsed,
        baseMode (fst (stock_update c now name parsed)) = true
        /\ newCollection (snd (stock_update c now name parsed))
           = {| nc_createdAt := Some now; mode := Some BASE_PENDING_ALL;
                nc_items := baseLines (buildSnapshot parsed) |}).
Proof.
  intros c. subst c. unfold stock_clear.
  split; [reflexivity|].
  split; [reflexivity|].
  split.
  { intros now rid lid. unfold Replan.replan_execute. cbn [runs find].
    destruct (negb (nonEmpty rid) || negb (nonEmpty lid))%bool;
      split; reflexivity. }
  split.
  { intros now rid. unfold Replan.replan_executeAll. cbn [runs find].
    destruct (negb (nonEmpty rid)); eexists; reflexivity. }
  split.
  { intros now lid. unfold NewC.newcollection_execute.
    cbn [newCollection nc_items find].
    destruct (negb (nonEmpty lid)); split; reflexivity. }
  split; [intros now; repeat split|].
  split; [reflexivity|].
  intros now name parsed. split; reflexivity.
Qed.

End ClearTheorems.

(* ================================================================== *)
(** * Execution as seen by the dashboard *)
(* ================================================================== *)

Module StaleTheorems.
Import Js Data Props JsFacts ExecuteFacts Dashboard DashboardFacts.

Lemma In_firstn {A} n (l : list A) x : In x (firstn n l) -> In x l.
Proof.
  intros H. rewrite <- (firstn_skipn n l). apply in_or_app. now left.
Qed.

(** An execution that pulls leaves its line, Done and stamped, in the
    history. *)
Lemma replan_execute_recorded s t rid lid l q s' :
  Replan.replan_execute s t rid lid = (Replan.Executed l q, s') ->
  exists run,
    In run (runs s') /\ In l (lines run)
    /\ status l = Done /\ executedAt l = Some t.
Proof.
  unfold Replan.replan_execute.
  destruct (negb (nonEmpty rid) || negb (nonEmpty lid))%bool; [discriminate|].
  destruct (find (Replan.isRun rid) (runs s)) as [run|] eqn:Er;
    [|discriminate].
  destruct (find (Replan.isLine lid) (lines run)) as [line|] eqn:El;
    [|discriminate].
  destruct (isDone (status line)); [discriminate|].
  destruct (obj_get (items (stock s)) lid) as [st|]; [|discriminate].
  destruct (st_qty st <? pullQty line); [discriminate|].
  intros [= <- <- <-].
  destruct (replanPulled_line s t rid lid st (pullQty line) run line Er El)
    as (run' & Hr' & Hl').
  exists run'. apply find_some in Hr', Hl'.
  split; [exact (proj1 Hr')|]. split; [exact (proj1 Hl')|].
  split; reflexivity.
Qed.

(** X20. An item that a replan line has just pulled is not listed by the
    dashboard as lacking a replan: once an execution at time [t], after the
    epoch, has answered with the line executed, no entry of [noReplan] has
    the category, SKU, size and color of that line, as long as [t] is not
    before the stale cutoff of the request. *)
Theorem pulled_not_stale s t rid lid l q s' now arg category :
  Replan.replan_execute s t rid lid = (Replan.Executed l q, s') ->
  0 < t ->
  now - staleDaysOf arg * 24 * 3600 * 1000 <= t ->
  forall e,
    In e (noReplan s' now arg category) ->
    ~ (sl_category e = Data.category l /\ sl_sku e = sku l
       /\ sl_size e = size l /\ sl_color e = color l).
Proof.
  intros Hexec Hpos Hcut e He (Hc & Hk & Hz & Ho).
  apply replan_execute_recorded in Hexec.
  destruct Hexec as (run & Hrun & Hl & Hdone & Hat).
  unfold noReplan in He. apply In_firstn, noReplanAll_In in He.
  destruct He as (key & st & _ & _ & Hpass & Hlast & ->).
  unfold staleOf in Hc, Hk, Hz, Ho.
  cbn [sl_category sl_sku sl_size sl_color] in Hc, Hk, Hz, Ho.
  assert (Hin : In t (doneTimes category
                        (skuKey (st_category st) (st_sku st) (st_size st)
                                (st_color st)) (runs s'))).
  { apply DashboardTheorems.doneTimes_In. exists run, l.
    repeat split; auto; congruence. }
  apply latest_upper in Hin. lia.
Qed.

Lemma pulled_not_stale_witness :
  Replan.replan_execute Demo.planned 3000 "RUN-2000" "1||M||Red"
  = (Replan.Executed (Replan.markDone 3000 Demo.plannedLine) 7, Demo.pulled)
  /\ 0 < 3000
  /\ 4000 - staleDaysOf 0 * 24 * 3600 * 1000 <= 3000
  /\ forall e,
       In e (noReplan Demo.pulled 4000 0 "") ->
       ~ (sl_category e = "Dresses" /\ sl_sku e = "1"
          /\ sl_size e = "M" /\ sl_color e = "Red").
Proof.
  assert (H : Replan.replan_execute Demo.planned 3000 "RUN-2000" "1||M||Red"
              = (Replan.Executed (Replan.markDone 3000 Demo.plannedLine) 7,
                 Demo.pulled)) by (vm_compute; reflexivity).
  assert (Hpos : 0 < 3000) by lia.
  assert (Hcut : 4000 - staleDaysOf 0 * 24 * 3600 * 1000 <= 3000)
    by (vm_compute; discriminate).
  split; [exact H|]. split; [exact Hpos|]. split; [exact Hcut|].
  exact (pulled_not_stale _ _ _ _ _ _ _ 4000 0 "" H Hpos Hcut).
Defined.

End StaleTheorems.

(* ================================================================== *)
(** * Bulk execution is the single executions in a row *)
(* ================================================================== *)

Module SequenceFacts.
Import Js Data Props Sound JsFacts ExecuteFacts ComposeFacts MarkFacts.
Import UploadTheorems Requests TrimFacts Sequence.

Lemma update_first_ext {A} (p : A -> bool) (f g : A -> A) l :
  (forall x, f x = g x) -> update_first p f l = update_first p g l.
Proof.
  intros H. induction l as [|x l IH]; simpl; [reflexivity|].
  destruct (p x); [now rewrite H | now rewrite IH].
Qed.

Lemma update_first_twice {A} (p : A -> bool) (f g : A -> A) l :
  (forall x, p x = true -> p (f x) = true) ->
  update_first p g (update_first p f l) = update_first p (fun x => g (f x)) l.
Proof.
  intros Hp. induction l as [|x l IH]; simpl; [reflexivity|].
  destruct (p x) eqn:E; simpl.
  - now rewrite (Hp _ E).
  - now rewrite E, IH.
Qed.

Lemma update_first_found {A} (p : A -> bool) (f : A -> A) l x :
  find p l = Some x -> f x = x -> update_first p f l = l.
Proof.
  induction l as [|y l IH]; simpl; [discriminate|].
  destruct (p y).
  - intros [= ->] Hf. now rewrite Hf.
  - intros Hx Hf. now rewrite IH.
Qed.

Section Middle.
Context {A : Type}.
Variable key : A -> string.

(** In an array of distinct keys, the element after [pre] is the one that
    [find] by its key finds and that is updated. *)
Lemma find_middle pre x rest :
  NoDup (map key (pre ++ x :: rest)%list) ->
  find (fun y => String.eqb (key y) (key x)) (pre ++ x :: rest)%list = Some x.
Proof.
  intros Hnd. apply (find_by_key key); [exact Hnd|].
  apply in_or_app. right. now left.
Qed.

Lemma update_middle (f : A -> A) pre x rest :
  NoDup (map key (pre ++ x :: rest)%list) ->
  update_first (fun y => String.eqb (key y) (key x)) f (pre ++ x :: rest)%list
  = (pre ++ f x :: rest)%list.
Proof.
  induction pre as [|y pre IH]; cbn [app map update_first]; intros Hnd.
  - now rewrite String.eqb_refl.
  - inversion Hnd as [|? ? Hni Hnd']; subst.
    destruct (String.eqb_spec (key y) (key x)) as [E|N].
    + exfalso. apply Hni. rewrite E, map_app. apply in_or_app.
      right. now left.
    + now rewrite IH.
Qed.

End Middle.

Lemma withRun_self s rid run :
  find (Replan.isRun rid) (runs s) = Some run ->
  withRun s rid (items (stock s)) (lines run) = s.
Proof.
  intros Hf. unfold withRun, Replan.with_runs, with_stock, with_items.
  cbn [stock runs newCollection limits updatedAt sourceFileName items].
  rewrite (update_first_found _ _ _ _ Hf) by now destruct run.
  destruct s as [[u n i] r c l]. reflexivity.
Qed.

Lemma withBatch_self s :
  withBatch s (items (stock s)) (nc_items (newCollection s)) = s.
Proof. destruct s as [[u n i] r [c m x] l]. reflexivity. Qed.

(** One single execution does to the store what one turn of the bulk loop
    does to the ledger and the line. *)
Lemma replan_execute_turn s now rid run its pre l rest :
  rid <> "" ->
  find (Replan.isRun rid) (runs s) = Some run ->
  NoDup (map lineId (pre ++ l :: rest)%list) ->
  lineId l <> "" -> 0 < pullQty l ->
  snd (Replan.replan_execute (withRun s rid its (pre ++ l :: rest)%list)
         now rid (lineId l))
  = withRun s rid
      (fst (fst (Replan.executeAll_step now its l)))
      (pre ++ snd (fst (Replan.executeAll_step now its l)) :: rest)%list.
Proof.
  intros Hrid Hf Hnd Hlid Hneed.
  assert (Hrun : find (Replan.isRun rid)
                   (runs (withRun s rid its (pre ++ l :: rest)%list))
                 = Some (Replan.with_lines run (pre ++ l :: rest)%list)).
  { unfold withRun. cbn [runs Replan.with_runs].
    apply (find_update_first (Replan.isRun rid)
             (fun r => Replan.with_lines r (pre ++ l :: rest)%list) _ _ Hf).
    intros y Hy. exact Hy. }
  assert (Hline : find (Replan.isLine (lineId l))
                    (lines (Replan.with_lines run (pre ++ l :: rest)%list))
                  = Some l).
  { cbn [lines Replan.with_lines]. apply (find_middle lineId _ _ _ Hnd). }
  rewrite (replan_execute_found _ _ _ _ _ _ Hrid Hlid Hrun Hline).
  unfold Replan.executeAll_step.
  destruct (isDone (status l)); [reflexivity|].
  replace (items (stock (withRun s rid its (pre ++ l :: rest)%list)))
    with its by reflexivity.
  destruct (obj_get its (lineId l)) as [st|]; [|reflexivity].
  assert (Hz : (pullQty l <=? 0) = false) by (apply Z.leb_gt; lia).
  rewrite Hz.
  destruct (st_qty st <? pullQty l); [reflexivity|].
  cbn [fst snd].
  unfold replanPulled, withRun, Replan.with_runs, with_stock, with_items.
  cbn [runs stock updatedAt sourceFileName items newCollection limits].
  f_equal.
  rewrite update_first_twice by (intros y Hy; exact Hy).
  apply update_first_ext. intros r.
  unfold Replan.with_lines. cbn [runId createdAt categoryFilter salesFileName
                                 lines].
  f_equal. apply (update_middle lineId _ _ _ _ Hnd).
Qed.

Lemma replan_step_id now its l :
  lineId (snd (fst (Replan.executeAll_step now its l))) = lineId l.
Proof.
  unfold Replan.executeAll_step.
  destruct (isDone (status l)); [reflexivity|].
  destruct (obj_get its (lineId l)); [|reflexivity].
  destruct (pullQty l <=? 0); [reflexivity|].
  destruct (_ <? _); reflexivity.
Qed.

Lemma app_middle {A} (pre : list A) x rest :
  (pre ++ x :: rest = (pre ++ [x]) ++ rest)%list.
Proof. now rewrite <- app_assoc. Qed.

Lemma executeEach_loop s now rid run :
  trim rid <> "" ->
  find (Replan.isRun (trim rid)) (runs s) = Some run ->
  forall rest pre its,
    NoDup (map lineId (pre ++ rest)%list) ->
    (forall l, In l rest ->
       trim (lineId l) = lineId l /\ lineId l <> "" /\ 0 < pullQty l) ->
    executeEach now rid rest (withRun s (trim rid) its (pre ++ rest)%list)
    = withRun s (trim rid)
        (Replan.b_items (Replan.executeAll_loop now its rest))
        (pre ++ Replan.b_lines (Replan.executeAll_loop now its rest))%list.
Proof.
  intros Hrid Hf. induction rest as [|l rest IH]; intros pre its Hnd Hls.
  - reflexivity.
  - destruct (Hls l (or_introl eq_refl)) as (Htrim & Hlid & Hneed).
    unfold executeEach. cbn [fold_left].
    change (fold_left _ rest ?x) with (executeEach now rid rest x).
    unfold replan_execute_request. rewrite Htrim.
    rewrite (replan_execute_turn s now (trim rid) run its pre l rest
               Hrid Hf Hnd Hlid Hneed).
    cbn [Replan.executeAll_loop].
    pose proof (replan_step_id now its l) as Hid.
    destruct (Replan.executeAll_step now its l) as [[its1 l1] turn].
    cbn [fst snd] in *. cbn [Replan.b_items Replan.b_lines].
    rewrite (app_middle pre l1), (app_middle pre l1 (Replan.b_lines _)).
    apply IH.
    + rewrite <- app_middle. rewrite !map_app in *. cbn [map] in *.
      now rewrite Hid.
    + intros l' Hl'. apply Hls. now right.
Qed.

(** The same for the batch. *)
Lemma newcollection_execute_turn s now its pre x rest :
  NoDup (map nc_lineId (pre ++ x :: rest)%list) ->
  nc_lineId x <> "" -> 0 < nc_qty x ->
  snd (NewC.newcollection_execute (withBatch s its (pre ++ x :: rest)%list)
         now (nc_lineId x))
  = withBatch s
      (fst (fst (NewC.executeAll_step now its x)))
      (pre ++ snd (fst (NewC.executeAll_step now its x)) :: rest)%list.
Proof.
  intros Hnd Hlid Hneed.
  assert (Hline : find (NewC.isLine (nc_lineId x))
                    (nc_items (newCollection
                                 (withBatch s its (pre ++ x :: rest)%list)))
                  = Some x).
  { cbn. apply (find_middle nc_lineId _ _ _ Hnd). }
  rewrite (newcollection_execute_found _ _ _ _ Hlid Hline).
  unfold NewC.executeAll_step.
  destruct (isDone (nc_status x)); [reflexivity|].
  replace (items (stock (withBatch s its (pre ++ x :: rest)%list)))
    with its by reflexivity.
  destruct (obj_get its (nc_lineId x)) as [st|]; [|reflexivity].
  assert (Hz : (nc_qty x <=? 0) = false) by (apply Z.leb_gt; lia).
  rewrite Hz.
  destruct (st_qty st <? nc_qty x); [reflexivity|].
  cbn [fst snd].
  unfold newPulled, withBatch, NewC.with_newCollection, NewC.with_lines,
    with_stock, with_items.
  cbn [runs stock updatedAt sourceFileName items newCollection limits
       nc_createdAt mode nc_items].
  do 2 f_equal. apply (update_middle nc_lineId _ _ _ _ Hnd).
Qed.

Lemma newc_step_id now its x :
  nc_lineId (snd (fst (NewC.executeAll_step now its x))) = nc_lineId x.
Proof.
  unfold NewC.executeAll_step.
  destruct (isDone (nc_status x)); [reflexivity|].
  destruct (obj_get its (nc_lineId x)); [|reflexivity].
  destruct (nc_qty x <=? 0); [reflexivity|].
  destruct (_ <? _); reflexivity.
Qed.

Lemma executeEachNew_loop s now :
  forall rest pre its,
    NoDup (map nc_lineId (pre ++ rest)%list) ->
    (forall x, In x rest ->
       trim (nc_lineId x) = nc_lineId x /\ nc_lineId x <> ""
       /\ 0 < nc_qty x) ->
    executeEachNew now rest (withBatch s its (pre ++ rest)%list)
    = withBatch s
        (NewC.b_items (NewC.executeAll_loop now its rest))
        (pre ++ NewC.b_lines (NewC.executeAll_loop now its rest))%list.
Proof.
  induction rest as [|x rest IH]; intros pre its Hnd Hls.
  - reflexivity.
  - destruct (Hls x (or_introl eq_refl)) as (Htrim & Hlid & Hneed).
    unfold executeEachNew. cbn [fold_left].
    change (fold_left _ rest ?x) with (executeEachNew now rest x).
    unfold newcollection_execute_request. rewrite Htrim.
    rewrite (newcollection_execute_turn s now its pre x rest Hnd Hlid Hneed).
    cbn [NewC.executeAll_loop].
    pose proof (newc_step_id now its x) as Hid.
    destruct (NewC.executeAll_step now its x) as [[its1 x1] turn].
    cbn [fst snd] in *. cbn [NewC.b_items NewC.b_lines].
    rewrite (app_middle pre x1), (app_middle pre x1 (NewC.b_lines _)).
    apply IH.
    + rewrite <- app_middle. rewrite !map_app in *. cbn [map] in *.
      now rewrite Hid.
    + intros x' Hx'. apply Hls. now right.
Qed.

End SequenceFacts.

Module SequenceTheorems.
Import Js Data Props Sound JsFacts ExecuteFacts BulkTheorems ComposeFacts.
Import SoundFacts Requests TrimFacts Sequence SequenceFacts.

(** X21. On a reachable store, bulk execution leaves the store that the
    single executions of the same lines leave when they are requested one
    after the other, in the order of the lines, as long as trimming leaves
    the identifier of every line as it is (a line whose identifier starts
    or ends with white space is out of the reach of a single request):
    for a run of the history, and for the new-collection batch. *)
Theorem executeAll_is_each s now :
  Reachable s ->
  (forall rid run,
     trim rid <> "" ->
     find (Replan.isRun (trim rid)) (runs s) = Some run ->
     forallb (fun l => trimmed (lineId l)) (lines run) = true ->
     snd (replan_executeAll_request s now rid)
     = executeEach now rid (lines run) s)
  /\ (forallb (fun x => trimmed (nc_lineId x)) (nc_items (newCollection s))
      = true ->
      snd (NewC.newcollection_executeAll s now)
      = executeEachNew now (nc_items (newCollection s)) s).
Proof.
  intros Hr. destruct (reachable_sound s Hr) as (_ & [Hbnd Hb] & Hruns).
  rewrite Forall_forall in Hb, Hruns. split.
  - intros rid run Hrid Hf Htrim. rewrite forallb_forall in Htrim.
    unfold replan_executeAll_request.
    rewrite (replan_executeAll_found s now (trim rid) run
               (nonEmpty_true _ Hrid) Hf).
    cbn [snd].
    destruct (Hruns run (proj1 (find_some _ _ Hf))) as [Hnd Hls].
    rewrite Forall_forall in Hls.
    transitivity
      (executeEach now rid (lines run)
         (withRun s (trim rid) (items (stock s)) ([] ++ lines run)%list));
      [|cbn [app]; now rewrite (withRun_self s (trim rid) run Hf)].
    rewrite (executeEach_loop s now rid run Hrid Hf (lines run) []
               (items (stock s))).
    + reflexivity.
    + exact Hnd.
    + intros l Hl. destruct (Hls l Hl) as (_ & Hp & _ & _ & Hid & _).
      split; [apply trimmed_spec; now apply Htrim|].
      split; [|exact Hp]. rewrite Hid. apply makeKey_nonEmpty.
  - intros Htrim. rewrite forallb_forall in Htrim.
    unfold NewC.newcollection_executeAll. cbn [snd].
    transitivity
      (executeEachNew now (nc_items (newCollection s))
         (withBatch s (items (stock s))
            ([] ++ nc_items (newCollection s))%list));
      [|cbn [app]; now rewrite (withBatch_self s)].
    rewrite (executeEachNew_loop s now (nc_items (newCollection s)) []
               (items (stock s))).
    + reflexivity.
    + exact Hbnd.
    + intros x Hx. destruct (Hb x Hx) as (_ & Hq & Hid & _).
      split; [apply trimmed_spec; now apply Htrim|].
      split; [|lia]. rewrite Hid. apply makeKey_nonEmpty.
Qed.

Lemma executeAll_is_each_witness :
  Reachable Demo.planned
  /\ forallb (fun x => trimmed (nc_lineId x))
             (nc_items (newCollection Demo.planned)) = true
  /\ snd (NewC.newcollection_executeAll Demo.planned 3000)
     = executeEachNew 3000 (nc_items (newCollection Demo.planned))
                      Demo.planned.
Proof.
  assert (Hr : Reachable Demo.planned).
  { apply reach_generate. apply (reach_limits Demo.stocked).
    apply reach_update. apply reach_empty. }
  split; [exact Hr|]. split; [reflexivity|].
  exact (proj2 (executeAll_is_each Demo.planned 3000 Hr) eq_refl).
Defined.

End SequenceTheorems.

(* ================================================================== *)
(** * Uploading the same rows again *)
(* ================================================================== *)

Module ReuploadTheorems.
Import Js Data Props JsFacts Stock StockFacts.

Lemma flat_map_nil {A B} (f : A -> list B) l :
  (forall a, In a l -> f a = []) -> flat_map f l = [].
Proof.
  induction l as [|a l IH]; intros H; [reflexivity|].
  cbn [flat_map]. rewrite (H a (or_introl eq_refl)), IH; [reflexivity|].
  intros b Hb. apply H. now right.
Qed.

Lemma updateLines_same newItems : updateLines newItems newItems = [].
Proof.
  unfold updateLines. apply flat_map_nil. intros key Hin.
  destruct (obj_get newItems key) eqn:E; [reflexivity|].
  exfalso. apply obj_get_keys in Hin. destruct Hin as [st Hst]. congruence.
Qed.

(** X22. Uploading the same parsed rows a second time leaves the ledger
    as the first upload made it and replaces the new-collection batch by
    an empty one: whatever lines the first upload had listed, executed or
    not, are dropped, and the reply counts no new line. *)
Theorem reupload_empties_batch s now name now' name' parsed :
  let s1 := snd (stock_update s now name parsed) in
  let r2 := stock_update s1 now' name' parsed in
  items (stock (snd r2)) = items (stock s1)
  /\ nc_items (newCollection (snd r2)) = []
  /\ newCollectionCount (fst r2) = 0%nat
  /\ runs (snd r2) = runs s /\ limits (snd r2) = limits s.
Proof.
  intros s1 r2. subst s1 r2. unfold stock_update.
  cbn [snd fst stock items newCollection runs limits newCollectionCount].
  split; [reflexivity|].
  destruct (0 <? List.length (obj_keys (buildSnapshot parsed)))%nat eqn:E;
    cbn [negb nc_items].
  - rewrite updateLines_same. repeat split.
  - apply Nat.ltb_ge in E.
    destruct (buildSnapshot parsed) as [|e r]; [|cbn in E; lia].
    repeat split.
Qed.

End ReuploadTheorems.

(* ================================================================== *)
(** * Reading a SKU back *)
(* ================================================================== *)

Module SkuTheorems.
Import Js Data Props JsFacts Parsing Rows RowsFacts.

Lemma takeDigits_append d : forall rest,
  allDigits d = true ->
  (forall c r, rest = String c r -> isDigit c = false) ->
  takeDigits (d ++ rest) = (d, rest).
Proof.
  induction d as [|a d IH]; intros rest Hd Hrest.
  - cbn [append]. destruct rest as [|c r]; [reflexivity|].
    cbn [takeDigits]. now rewrite (Hrest c r eq_refl).
  - cbn [allDigits] in Hd. apply andb_true_iff in Hd. destruct Hd as [Ha Hd].
    change ((String a d ++ rest)%string) with (String a (d ++ rest)%string).
    cbn [takeDigits]. now rewrite Ha, (IH rest Hd Hrest).
Qed.

Lemma skuMatch_skip pre : forall rest,
  noBracket pre = true -> skuMatch (pre ++ rest) = skuMatch rest.
Proof.
  induction pre as [|c pre IH]; intros rest Hp; [reflexivity|].
  cbn [noBracket] in Hp. apply andb_true_iff in Hp. destruct Hp as [Hc Hp].
  change ((String c pre ++ rest)%string) with (String c (pre ++ rest)%string).
  cbn [skuMatch]. destruct (Ascii.eqb c "["); [discriminate|]. now apply IH.
Qed.

(** X23. A line that reads: any text without an opening square bracket,
    then a non-empty run of ASCII digits between square brackets, then
    anything, has these digits as its SKU, and is a product line for
    [parseRows]. *)
Theorem sku_read_back pre d post :
  noBracket pre = true ->
  d <> "" ->
  allDigits d = true ->
  p_sku (parseTextLine (pre ++ "[" ++ d ++ "]" ++ post)) = d
  /\ hasSku (pre ++ "[" ++ d ++ "]" ++ post) = true.
Proof.
  intros Hpre Hne Hd.
  assert (H : skuMatch (pre ++ "[" ++ d ++ "]" ++ post) = Some d).
  { rewrite (skuMatch_skip pre _ Hpre).
    change (("[" ++ d ++ "]" ++ post)%string)
      with (String "[" (d ++ String "]" post)%string).
    cbn [skuMatch]. cbn [Ascii.eqb Bool.eqb].
    rewrite (takeDigits_append d (String "]" post) Hd)
      by (intros c r [= <- _]; reflexivity).
    destruct d as [|a d']; [congruence|]. reflexivity. }
  split.
  - now apply parseTextLine_sku.
  - unfold hasSku. now rewrite H.
Qed.

Lemma sku_read_back_witness :
  noBracket "Dress (M) " = true
  /\ "123"%string <> ""%string
  /\ allDigits "123" = true
  /\ p_sku (parseTextLine ("Dress (M) " ++ "[" ++ "123" ++ "]" ++ " [9] x"))
     = "123".
Proof.
  assert (Hne : "123"%string <> ""%string) by discriminate.
  split; [reflexivity|]. split; [exact Hne|]. split; [reflexivity|].
  exact (proj1 (sku_read_back "Dress (M) " "123" " [9] x" eq_refl Hne eq_refl)).
Defined.

End SkuTheorems.

(* ================================================================== *)
(** * The size grammar and the last group of a line *)
(* ================================================================== *)

Module GrammarFacts.
Import Js Data Parsing Rows RowsFacts Requests TrimFacts SkuTheorems Grammar.

(** ** Digits *)




(** ** White space *)









(** ** The four patterns *)








(** ** Upper case *)



(** ** The last group *)




(** ** The parts of a group *)






(** ** The line *)










End GrammarFacts.

Module ParsingTheorems.
Import Js Data Parsing ParsingFacts Rows RowsFacts Requests Grammar GrammarFacts.




End ParsingTheorems.
